(** * PTP/IP client core: packets, vendor hooks, handshake, transaction ids

    A shallow embedding of package [ip] of the ptp-ip client:
    - the packet catalogue (src/cmd/commands_test.go, second part): the
      packet structs, the failure translator [ReasonAsError] and the two
      constructor registries;
    - the vendor extensions (src/cmd/commands_test.go, third part): the
      extension table and the generic handshake and operation routines;
    - the mock Fuji responder's packet-type folding
      (src/ip/mockresponder_fuji_test.go);
    - the wire codec and the transaction counter, whose Go files are not
      among the sources: they are modelled from the specification and
      pinned by the tests of src/ip/ip_test.go.

    Unsigned Go integers are [Z] with the wrap-around written out, bytes are
    [Z] in [0, 256), a byte slice is a [list Z].  A Go string that travels
    on the wire is given by its runes ([[]rune(s)]); messages of Go errors
    are Rocq strings. *)

From Stdlib Require Import ZArith List String Ascii Bool Lia HexString.
Import ListNotations.
Local Open Scope string_scope.
Local Open Scope list_scope.
Local Open Scope Z_scope.

(** ** Go scalars *)

Definition uint16 (v : Z) : Z := v mod 2 ^ 16.
Definition uint32 (v : Z) : Z := v mod 2 ^ 32.
Definition uint64 (v : Z) : Z := v mod 2 ^ 64.

Definition is_uint16 (v : Z) : Prop := 0 <= v < 2 ^ 16.
Definition is_uint32 (v : Z) : Prop := 0 <= v < 2 ^ 32.
Definition is_uint64 (v : Z) : Prop := 0 <= v < 2 ^ 64.

(** [[]byte], [uuid.UUID] (a [[16]byte]) and the runes of a string. *)
Definition bytes := list Z.
Definition UUID := list Z.
Definition runes := list Z.

Definition uuid_Nil : UUID := repeat 0 16.

(** ** Errors and results *)

(** A Go [error] value.  [errors_New] carries the message of [errors.New]
    and [fmt.Errorf]; the other constructors are the decoder's error kinds. *)
Inductive error : Type :=
| errors_New (msg : string)
| ShortFrame
| MalformedFrame
| MalformedString
| UnexpectedEOF
| NotReady.

(** A Go pair [(T, error)] of which exactly one component is set. *)
Inductive result (A : Type) : Type :=
| Ok (a : A)
| Err (e : error).
Arguments Ok {A} a.
Arguments Err {A} e.

Definition bind {A B : Type} (r : result A) (k : A -> result B) : result B :=
  match r with
  | Ok a => k a
  | Err e => Err e
  end.

Notation "x <- r ;; k" := (bind r (fun x => k))
  (at level 61, r at next level, right associativity).
Notation "' pat <- r ;; k" := (bind r (fun x => match x with pat => k end))
  (at level 61, pat pattern, r at next level, right associativity).

(** [fmt.Sprintf("%#x", v)] for an unsigned [v]. *)
Definition Sprintf_hex (v : Z) : string := HexString.of_Z v.

(** ** The packet catalogue: constants *)

Definition DataPhase := Z.
Definition PacketType := Z.
Definition FailReason := Z.
Definition ProtocolVersion := Z.

Definition HeaderSize : Z := 8.

Definition DP_NoDataOrDataIn : DataPhase := 0x00000001.
Definition DP_DataOut : DataPhase := 0x00000002.
Definition DP_Unknown : DataPhase := 0x00000003.

Definition FR_FailRejectedInitiator : FailReason := 0x00000001.
Definition FR_FailBusy : FailReason := 0x00000002.
Definition FR_FailUnspecified : FailReason := 0x00000003.

Definition PKT_Invalid : PacketType := 0x00000000.
Definition PKT_InitCommandRequest : PacketType := 0x00000001.
Definition PKT_InitCommandAck : PacketType := 0x00000002.
Definition PKT_InitEventRequest : PacketType := 0x00000003.
Definition PKT_InitEventAck : PacketType := 0x00000004.
Definition PKT_InitFail : PacketType := 0x00000005.
Definition PKT_OperationRequest : PacketType := 0x00000006.
Definition PKT_OperationResponse : PacketType := 0x00000007.
Definition PKT_Event : PacketType := 0x00000008.
Definition PKT_StartData : PacketType := 0x00000009.
Definition PKT_Data : PacketType := 0x0000000A.
Definition PKT_Cancel : PacketType := 0x0000000B.
Definition PKT_EndData : PacketType := 0x0000000C.
Definition PKT_ProbeRequest : PacketType := 0x0000000D.
Definition PKT_ProbeResponse : PacketType := 0x0000000E.

Definition PV_VersionOnePointZero : ProtocolVersion := 0x00010000.

(** [UnknownPacketType = errors.New("unknown packet type %#x")], used as the
    format of [fmt.Errorf(UnknownPacketType.Error(), pt)]. *)
Definition UnknownPacketType (pt : PacketType) : error :=
  errors_New (String.append "unknown packet type " (Sprintf_hex pt)).

(** ** The packet catalogue: structs *)

(** A value of type [interface{}], the declared type of the field
    [DataPayload] of [DataPacket]: nil, or a value together with its dynamic
    type.  Of the dynamic types, byte slices and two unsigned integers are
    kept. *)
Inductive interface : Type :=
| nil_interface
| of_bytes (b : bytes)
| of_uint16 (v : Z)
| of_uint32 (v : Z).

(** One value of a struct field as the reflective marshaller sees it. *)
Inductive Field : Type :=
| FUint16 (v : Z)
| FUint32 (v : Z)
| FUint64 (v : Z)
| FUUID (g : UUID)
| FString (s : runes)
| FBytes (b : bytes)
| FInterface (i : interface).

(** Modelled from the spec: [ptp.OperationRequest], embedded in
    [OperationRequestPacket] and declared in package [ptp], which is not
    among the sources; "{OperationCode(uint16), TransactionID(uint32),
    Parameter1..Parameter5(uint32)}". *)
Record OperationRequest : Type := {
  OperationCode : Z;
  TransactionID : Z;
  Parameter1 : Z;
  Parameter2 : Z;
  Parameter3 : Z;
  Parameter4 : Z;
  Parameter5 : Z
}.

(** Modelled from the spec: [ptp.OperationResponse], embedded in
    [OperationResponsePacket] and declared in package [ptp];
    "{ResponseCode(uint16), TransactionID(uint32), Parameter1..5(uint32)}". *)
Record OperationResponse : Type := {
  ResponseCode : Z;
  RespTransactionID : Z;
  RespParameter1 : Z;
  RespParameter2 : Z;
  RespParameter3 : Z;
  RespParameter4 : Z;
  RespParameter5 : Z
}.

(** The packet structs of the catalogue.  [ptp.Event], embedded in
    [GenericEventPacket], is declared in package [ptp]; its fields are kept
    in declaration order as wire fields. *)
Inductive Packet : Type :=
| GenericInitCommandRequestPacket (GUID : UUID) (FriendlyName : runes)
    (ProtocolVersion : ProtocolVersion)
| InitCommandAckPacket (ConnectionNumber : Z) (ResponderGUID : UUID)
    (ResponderFriendlyName : runes) (ResponderProtocolVersion : Z)
| GenericInitEventRequestPacket (ConnectionNumber : Z)
| InitEventAckPacket
| InitFailPacket (Reason : FailReason)
| OperationRequestPacket (DataPhaseInfo : DataPhase) (req : OperationRequest)
| OperationResponsePacket (resp : OperationResponse)
| GenericEventPacket (ev : list Field)
| StartDataPacket (TransactionId : Z) (TotalDataLength : Z)
| DataPacket (TransactionId : Z) (DataPayload : interface)
| EndDataPacket (TransactionId : Z) (DataPayload : bytes)
| CancelPacket (TransactionId : Z)
| ProbeRequestPacket
| ProbeResponsePacket.

(** The Go type of a packet, which is what [new(T)] fixes: the registries
    return a pointer to the zero value of [T] ("all fields will be left
    uninitialised"). *)
Inductive PacketKind : Type :=
| TGenericInitCommandRequestPacket
| TInitCommandAckPacket
| TGenericInitEventRequestPacket
| TInitEventAckPacket
| TInitFailPacket
| TOperationRequestPacket
| TOperationResponsePacket
| TGenericEventPacket
| TStartDataPacket
| TDataPacket
| TEndDataPacket
| TCancelPacket
| TProbeRequestPacket
| TProbeResponsePacket.

Definition KindOf (p : Packet) : PacketKind :=
  match p with
  | GenericInitCommandRequestPacket _ _ _ => TGenericInitCommandRequestPacket
  | InitCommandAckPacket _ _ _ _ => TInitCommandAckPacket
  | GenericInitEventRequestPacket _ => TGenericInitEventRequestPacket
  | InitEventAckPacket => TInitEventAckPacket
  | InitFailPacket _ => TInitFailPacket
  | OperationRequestPacket _ _ => TOperationRequestPacket
  | OperationResponsePacket _ => TOperationResponsePacket
  | GenericEventPacket _ => TGenericEventPacket
  | StartDataPacket _ _ => TStartDataPacket
  | DataPacket _ _ => TDataPacket
  | EndDataPacket _ _ => TEndDataPacket
  | CancelPacket _ => TCancelPacket
  | ProbeRequestPacket => TProbeRequestPacket
  | ProbeResponsePacket => TProbeResponsePacket
  end.

(** The [PacketType()] method of each struct. *)
Definition KindPacketType (k : PacketKind) : PacketType :=
  match k with
  | TGenericInitCommandRequestPacket => PKT_InitCommandRequest
  | TInitCommandAckPacket => PKT_InitCommandAck
  | TGenericInitEventRequestPacket => PKT_InitEventRequest
  | TInitEventAckPacket => PKT_InitEventAck
  | TInitFailPacket => PKT_InitFail
  | TOperationRequestPacket => PKT_OperationRequest
  | TOperationResponsePacket => PKT_OperationResponse
  | TGenericEventPacket => PKT_Event
  | TStartDataPacket => PKT_StartData
  | TDataPacket => PKT_Data
  | TEndDataPacket => PKT_EndData
  | TCancelPacket => PKT_Cancel
  | TProbeRequestPacket => PKT_ProbeRequest
  | TProbeResponsePacket => PKT_ProbeResponse
  end.

Definition PacketTypeOf (p : Packet) : PacketType := KindPacketType (KindOf p).

(** The name [%T] prints for a packet received through the [PacketIn]
    interface. *)
Definition TypeName (k : PacketKind) : string :=
  match k with
  | TGenericInitCommandRequestPacket => "*ip.GenericInitCommandRequestPacket"
  | TInitCommandAckPacket => "*ip.InitCommandAckPacket"
  | TGenericInitEventRequestPacket => "*ip.GenericInitEventRequestPacket"
  | TInitEventAckPacket => "*ip.InitEventAckPacket"
  | TInitFailPacket => "*ip.InitFailPacket"
  | TOperationRequestPacket => "*ip.OperationRequestPacket"
  | TOperationResponsePacket => "*ip.OperationResponsePacket"
  | TGenericEventPacket => "*ip.GenericEventPacket"
  | TStartDataPacket => "*ip.StartDataPacket"
  | TDataPacket => "*ip.DataPacket"
  | TEndDataPacket => "*ip.EndDataPacket"
  | TCancelPacket => "*ip.CancelPacket"
  | TProbeRequestPacket => "*ip.ProbeRequestPacket"
  | TProbeResponsePacket => "*ip.ProbeResponsePacket"
  end.

Definition NewInitCommandRequestPacket (guid : UUID) (friendlyName : runes)
  : Packet :=
  GenericInitCommandRequestPacket guid friendlyName PV_VersionOnePointZero.

(** The result is a value of the interface [InitEventRequestPacket], which
    a vendor's constructor may leave nil: [Some] is a non-nil value. *)
Definition NewInitEventRequestPacket (connNum : Z) : option Packet :=
  Some (GenericInitEventRequestPacket connNum).

(** ** The packet catalogue: the failure translator *)

Section FailureTranslator.

(** The Fuji failure reasons are constants of the Fuji extension, not among
    the sources: their wire values are parameters. *)
Variables FR_Fuji_DeviceBusy FR_Fuji_InvalidParameter : FailReason.

Definition ReasonAsError (Reason : FailReason) : error :=
  let msg : string :=
    if Reason =? FR_FailBusy then
      "busy: too many active connections"
    else if Reason =? FR_FailRejectedInitiator then
      "rejected: device not allowed"
    else if Reason =? FR_FailUnspecified then
      "reason unspecified"
    else if Reason =? FR_Fuji_DeviceBusy then
      "fuji: invalid friendly name or camera state: allow to 'change' client or 'reset' connection"
    else if Reason =? FR_Fuji_InvalidParameter then
      "fuji: unknown protocol version"
    else
      String.append "unknown failure reason returned " (Sprintf_hex Reason)
  in
  errors_New msg.

End FailureTranslator.

(** ** The packet catalogue: the constructor registries *)

Definition NewPacketOutFromPacketType (pt : PacketType) : result PacketKind :=
  let p :=
    if pt =? PKT_InitCommandRequest then Some TGenericInitCommandRequestPacket
    else if pt =? PKT_InitEventRequest then Some TGenericInitEventRequestPacket
    else if pt =? PKT_OperationRequest then Some TOperationRequestPacket
    else if pt =? PKT_StartData then Some TStartDataPacket
    else if pt =? PKT_Data then Some TDataPacket
    else if pt =? PKT_Cancel then Some TCancelPacket
    else if pt =? PKT_EndData then Some TEndDataPacket
    else if pt =? PKT_ProbeRequest then Some TProbeRequestPacket
    else if pt =? PKT_ProbeResponse then Some TProbeResponsePacket
    else None
  in
  match p with
  | Some p => Ok p
  | None => Err (UnknownPacketType pt)
  end.

Definition NewPacketInFromPacketType (pt : PacketType) : result PacketKind :=
  let p :=
    if pt =? PKT_InitCommandAck then Some TInitCommandAckPacket
    else if pt =? PKT_InitEventAck then Some TInitEventAckPacket
    else if pt =? PKT_InitFail then Some TInitFailPacket
    else if pt =? PKT_OperationResponse then Some TOperationResponsePacket
    else if pt =? PKT_Event then Some TGenericEventPacket
    else if pt =? PKT_StartData then Some TStartDataPacket
    else if pt =? PKT_Data then Some TDataPacket
    else if pt =? PKT_Cancel then Some TCancelPacket
    else if pt =? PKT_EndData then Some TEndDataPacket
    else if pt =? PKT_ProbeRequest then Some TProbeRequestPacket
    else if pt =? PKT_ProbeResponse then Some TProbeResponsePacket
    else None
  in
  match p with
  | Some p => Ok p
  | None => Err (UnknownPacketType pt)
  end.

(** ** The client, as the vendor extensions and the tests use it *)

(** The [Initiator] struct, with the fields [TestNewDefaultInitiator]
    reads. *)
Module Initiator.
Record t : Type := {
  GUID : UUID;
  FriendlyName : runes
}.
End Initiator.

(** The [Responder] struct, with the fields [TestNewResponder] reads and
    the protocol version that the handshake records. *)
Module Responder.
Record t : Type := {
  Vendor : Z;
  IpAddress : string;
  CommandDataPort : Z;
  EventPort : Z;
  StreamerPort : Z;
  GUID : UUID;
  FriendlyName : runes;
  ProtocolVersion : Z
}.

(** The three assignments of the handshake, [c.responder.GUID = ...],
    [c.responder.FriendlyName = ...], [c.responder.ProtocolVersion = ...]. *)
Definition identify (g : UUID) (name : runes) (pv : Z) (r : t) : t :=
  {| Vendor := Vendor r;
     IpAddress := IpAddress r;
     CommandDataPort := CommandDataPort r;
     EventPort := EventPort r;
     StreamerPort := StreamerPort r;
     GUID := g;
     FriendlyName := name;
     ProtocolVersion := pv |}.
End Responder.

(** The address a connection is dialled to: host and port. *)
Definition Address : Type := string * Z.

(** A [net.Conn] as the client observes it: where it leads, whether
    keep-alive was switched on, whether [Close] was called, and the packets
    written to it so far. *)
Record Conn : Type := {
  RemoteAddr : Address;
  KeepAlive : bool;
  Closed : bool;
  Written : list Packet
}.

Definition Conn_Close (conn : Conn) : Conn :=
  {| RemoteAddr := RemoteAddr conn;
     KeepAlive := KeepAlive conn;
     Closed := true;
     Written := Written conn |}.

Definition Conn_SetKeepAlive (conn : Conn) : Conn :=
  {| RemoteAddr := RemoteAddr conn;
     KeepAlive := true;
     Closed := Closed conn;
     Written := Written conn |}.

Definition Conn_Write (p : Packet) (conn : Conn) : Conn :=
  {| RemoteAddr := RemoteAddr conn;
     KeepAlive := KeepAlive conn;
     Closed := Closed conn;
     Written := Written conn ++ [p] |}.

(** The argument of [configureTcpConn]. *)
Inductive connection : Type :=
| cmdDataConnection
| eventConnection
| streamConnection.

(** The functions a [VendorExtensions] slot can point to.  Their Go type
    mentions [*Client], so a slot holds the name of the function. *)
Inductive InitFn : Type :=
| GenericInitCommandDataConn_fn
| GenericInitEventConn_fn
| GenericInitStreamerConn_fn
| FujiInitCommandDataConn_fn.

Inductive DeviceInfoFn : Type :=
| GenericGetDeviceInfo_fn
| FujiGetDeviceInfo_fn.

Inductive RawFn : Type :=
| GenericOperationRequestRaw_fn
| FujiOperationRequestRaw_fn.

Record VendorExtensions : Type := {
  cmdDataInit : InitFn;
  eventInit : InitFn;
  streamerInit : InitFn;
  newCmdDataInitPacket : UUID -> runes -> Packet;
  newEventInitPacket : Z -> option Packet;
  getDeviceInfo : DeviceInfoFn;
  operationRequestRaw : RawFn
}.

(** The [Client] struct, with the fields that the generic routines and the
    tests touch.  The log sink is left out: what a routine logs is part of
    its result. *)
Record Client : Type := {
  connectionNumber : Z;
  transactionId : Z;
  commandDataConn : option Conn;
  eventConn : option Conn;
  streamConn : option Conn;
  initiator : Initiator.t;
  responder : Responder.t;
  vendorExtensions : VendorExtensions
}.

Definition set_connectionNumber (n : Z) (c : Client) : Client :=
  {| connectionNumber := n;
     transactionId := transactionId c;
     commandDataConn := commandDataConn c;
     eventConn := eventConn c;
     streamConn := streamConn c;
     initiator := initiator c;
     responder := responder c;
     vendorExtensions := vendorExtensions c |}.

Definition set_transactionId (t : Z) (c : Client) : Client :=
  {| connectionNumber := connectionNumber c;
     transactionId := t;
     commandDataConn := commandDataConn c;
     eventConn := eventConn c;
     streamConn := streamConn c;
     initiator := initiator c;
     responder := responder c;
     vendorExtensions := vendorExtensions c |}.

Definition set_commandDataConn (k : option Conn) (c : Client) : Client :=
  {| connectionNumber := connectionNumber c;
     transactionId := transactionId c;
     commandDataConn := k;
     eventConn := eventConn c;
     streamConn := streamConn c;
     initiator := initiator c;
     responder := responder c;
     vendorExtensions := vendorExtensions c |}.

Definition set_eventConn (k : option Conn) (c : Client) : Client :=
  {| connectionNumber := connectionNumber c;
     transactionId := transactionId c;
     commandDataConn := commandDataConn c;
     eventConn := k;
     streamConn := streamConn c;
     initiator := initiator c;
     responder := responder c;
     vendorExtensions := vendorExtensions c |}.

Definition set_streamConn (k : option Conn) (c : Client) : Client :=
  {| connectionNumber := connectionNumber c;
     transactionId := transactionId c;
     commandDataConn := commandDataConn c;
     eventConn := eventConn c;
     streamConn := k;
     initiator := initiator c;
     responder := responder c;
     vendorExtensions := vendorExtensions c |}.

Definition set_responder (r : Responder.t) (c : Client) : Client :=
  {| connectionNumber := connectionNumber c;
     transactionId := transactionId c;
     commandDataConn := commandDataConn c;
     eventConn := eventConn c;
     streamConn := streamConn c;
     initiator := initiator c;
     responder := r;
     vendorExtensions := vendorExtensions c |}.

Definition set_vendorExtensions (v : VendorExtensions) (c : Client) : Client :=
  {| connectionNumber := connectionNumber c;
     transactionId := transactionId c;
     commandDataConn := commandDataConn c;
     eventConn := eventConn c;
     streamConn := streamConn c;
     initiator := initiator c;
     responder := responder c;
     vendorExtensions := v |}.

(** Modelled from the spec: the accessor [ResponderVendor] of the client,
    which is not among the sources; "selection is by the Responder's vendor
    tag". *)
Definition ResponderVendor (c : Client) : Z := Responder.Vendor (responder c).

(** Modelled from the spec: the accessor [CommandDataAddress] of the client,
    not among the sources; the responder's "host" and its command/data
    port, which [TestNewClient] reads as "192.168.0.1:26831". *)
Definition CommandDataAddress (c : Client) : Address :=
  (Responder.IpAddress (responder c), Responder.CommandDataPort (responder c)).

(** Modelled from the spec: the accessor [EventAddress] of the client, not
    among the sources; the host and the event port. *)
Definition EventAddress (c : Client) : Address :=
  (Responder.IpAddress (responder c), Responder.EventPort (responder c)).

(** Modelled from the spec: the accessor [StreamerAddress] of the client,
    not among the sources; the host and the streamer port. *)
Definition StreamerAddress (c : Client) : Address :=
  (Responder.IpAddress (responder c), Responder.StreamerPort (responder c)).

(** Modelled from the spec: the successor of a transaction ID in
    [incrementTransactionId], a method of the client that is not among the
    sources.  "The next outgoing transaction ID (monotonic; wraps from
    0xFFFFFFFE -> 1, never equal to 0)"; [TestClient_incrementTransactionId]
    pins 0 -> 1 -> 2 and, after [c.transactionId = 0xFFFFFFFE], one call
    -> 1. *)
Definition nextTransactionId (t : Z) : Z :=
  if t =? 0xFFFFFFFE then 0x00000001 else uint32 (t + 1).

(** Modelled from the spec: [incrementTransactionId], not among the
    sources; it stores the next identifier and, as the test uses it,
    returns it. *)
Definition incrementTransactionId (c : Client) : Client * Z :=
  let t := nextTransactionId (transactionId c) in
  (set_transactionId t c, t).

(** Modelled from the spec: the accessor [TransactionId], not among the
    sources; the test reads the field through it. *)
Definition TransactionId (c : Client) : Z := transactionId c.

(** ** The network seen from the client *)

(** What the other end does: whether a dial succeeds, whether a write
    succeeds, and what the next read yields.  [RetryDialer] belongs to
    package [internal], the frame writer and the readers to the client;
    neither is among the sources. *)
Record Network : Type := {
  RetryDialer : Address -> result Conn;
  writes : Conn -> Packet -> option error;
  reads : Conn -> result Packet;
  readsRaw : Conn -> result bytes
}.

(** A function that may panic: Go's run-time error for an index outside a
    slice carries the index and the length. *)
Inductive outcome (A : Type) : Type :=
| Returns (a : A)
| Panics_index_out_of_range (i : Z) (len : Z).
Arguments Returns {A} a.
Arguments Panics_index_out_of_range {A} i len.

Definition obind {A B : Type} (r : outcome A) (k : A -> outcome B) : outcome B :=
  match r with
  | Returns a => k a
  | Panics_index_out_of_range i n => Panics_index_out_of_range i n
  end.

Notation "x <=- r ;; k" := (obind r (fun x => k))
  (at level 61, r at next level, right associativity).

Definition len {A : Type} (s : list A) : Z := Z.of_nat (List.length s).

(** [s[i]] as an operand. *)
Definition index {A : Type} (s : list A) (i : Z) : outcome A :=
  match nth_error s (Z.to_nat i) with
  | Some x => if 0 <=? i then Returns x else Panics_index_out_of_range i (len s)
  | None => Panics_index_out_of_range i (len s)
  end.

Fixpoint update {A : Type} (s : list A) (i : nat) (x : A) : option (list A) :=
  match s, i with
  | [], _ => None
  | _ :: s', O => Some (x :: s')
  | y :: s', S j => option_map (cons y) (update s' j x)
  end.

(** [s[i] = x] as an assignment. *)
Definition assign_index {A : Type} (s : list A) (i : Z) (x : A)
  : outcome (list A) :=
  if i <? 0 then Panics_index_out_of_range i (len s)
  else match update s (Z.to_nat i) x with
       | Some s' => Returns s'
       | None => Panics_index_out_of_range i (len s)
       end.

Section Vendor.

Variables FR_Fuji_DeviceBusy FR_Fuji_InvalidParameter : FailReason.

(** [ptp.VE_FujiPhotoFilmCoLtd] and the constructors of the Fuji extension,
    none of them among the sources. *)
Variable VE_FujiPhotoFilmCoLtd : Z.
Variable NewFujiInitCommandRequestPacket : UUID -> runes -> Packet.
Variable NewFujiInitEventRequestPacket : Z -> option Packet.

Variable net : Network.

(** *** The vendor extensions: the table *)

Definition loadVendorExtensions (c : Client) : Client :=
  let ve :=
    {| cmdDataInit := GenericInitCommandDataConn_fn;
       eventInit := GenericInitEventConn_fn;
       streamerInit := GenericInitStreamerConn_fn;
       newCmdDataInitPacket := NewInitCommandRequestPacket;
       newEventInitPacket := NewInitEventRequestPacket;
       getDeviceInfo := GenericGetDeviceInfo_fn;
       operationRequestRaw := GenericOperationRequestRaw_fn |} in
  let ve :=
    if ResponderVendor c =? VE_FujiPhotoFilmCoLtd then
      {| cmdDataInit := FujiInitCommandDataConn_fn;
         eventInit := eventInit ve;
         streamerInit := streamerInit ve;
         newCmdDataInitPacket := NewFujiInitCommandRequestPacket;
         newEventInitPacket := NewFujiInitEventRequestPacket;
         getDeviceInfo := FujiGetDeviceInfo_fn;
         operationRequestRaw := FujiOperationRequestRaw_fn |}
    else ve in
  set_vendorExtensions ve c.

(** *** The client methods that the generic routines call *)

(** Modelled from the spec: the method [c.newCmdDataInitPacket()], not
    among the sources; the hook is "newCmdDataInitPacket(guid, name) ->
    Packet", applied to the Initiator's identity. *)
Definition Client_newCmdDataInitPacket (c : Client) : Packet :=
  newCmdDataInitPacket (vendorExtensions c)
    (Initiator.GUID (initiator c)) (Initiator.FriendlyName (initiator c)).

(** Modelled from the spec: the method [c.newEventInitPacket()], not among
    the sources; the hook is "newEventInitPacket(connNum) ->
    Option<Packet>", and the request is sent "with the ConnectionNumber
    from the ack". *)
Definition Client_newEventInitPacket (c : Client) : option Packet :=
  newEventInitPacket (vendorExtensions c) (connectionNumber c).

(** Modelled from the spec: the method [c.configureTcpConn], not among the
    sources; "sockets are configured with TCP keepalive enabled". *)
Definition configureTcpConn (t : connection) (c : Client) : Client :=
  match t with
  | cmdDataConnection =>
      set_commandDataConn (option_map Conn_SetKeepAlive (commandDataConn c)) c
  | eventConnection =>
      set_eventConn (option_map Conn_SetKeepAlive (eventConn c)) c
  | streamConnection =>
      set_streamConn (option_map Conn_SetKeepAlive (streamConn c)) c
  end.

(** Modelled from the spec: the frame writer of the client, not among the
    sources; "a synchronous frame writer that serializes a full packet",
    and "operations attempted before Ready fail with NotReady". *)
Definition sendPacketTo (k : option Conn) (p : Packet)
  : option Conn * option error :=
  match k with
  | None => (None, Some NotReady)
  | Some conn =>
      match writes net conn p with
      | None => (Some (Conn_Write p conn), None)
      | Some e => (Some conn, Some e)
      end
  end.

(** Modelled from the spec: [SendPacketToCmdDataConn], not among the
    sources; the frame writer on the command/data connection. *)
Definition SendPacketToCmdDataConn (c : Client) (p : Packet)
  : Client * option error :=
  let (k, err) := sendPacketTo (commandDataConn c) p in
  (set_commandDataConn k c, err).

(** Modelled from the spec: [SendPacketToEventConn], not among the
    sources; the frame writer on the event connection. *)
Definition SendPacketToEventConn (c : Client) (p : Packet)
  : Client * option error :=
  let (k, err) := sendPacketTo (eventConn c) p in
  (set_eventConn k c, err).

(** Modelled from the spec: the frame reader of the client, not among the
    sources; "a length-prefixed reader that blocks until a full frame is
    available or EOF". *)
Definition waitForPacketFrom (k : option Conn) : result Packet :=
  match k with
  | None => Err NotReady
  | Some conn => reads net conn
  end.

(** Modelled from the spec: [WaitForPacketFromCmdDataConn], not among the
    sources, called with a nil packet; the frame reader on the command/data
    connection. *)
Definition WaitForPacketFromCmdDataConn (c : Client) : result Packet :=
  waitForPacketFrom (commandDataConn c).

(** Modelled from the spec: [WaitForPacketFromEventConn], not among the
    sources; the frame reader on the event connection. *)
Definition WaitForPacketFromEventConn (c : Client) : result Packet :=
  waitForPacketFrom (eventConn c).

(** Modelled from the spec: [ReadRawFromCmdDataConn], not among the
    sources; the frame reader on the command/data connection, yielding the
    raw bytes of the frame. *)
Definition ReadRawFromCmdDataConn (c : Client) : result bytes :=
  match commandDataConn c with
  | None => Err NotReady
  | Some conn => readsRaw net conn
  end.

(** *** The vendor extensions: the generic routines *)

(** What a routine leaves behind: the client, the lines it logged, and
    the [error] it returned ([None] is [nil]). *)
Definition Run : Type := Client * list string * option error.

Definition closeCommandDataConn (c : Client) : Client :=
  set_commandDataConn (option_map Conn_Close (commandDataConn c)) c.

Definition closeEventConn (c : Client) : Client :=
  set_eventConn (option_map Conn_Close (eventConn c)) c.

(** [fmt.Errorf("unexpected packet received %T", res)]. *)
Definition unexpected_packet (res : Packet) : error :=
  errors_New (String.append "unexpected packet received " (TypeName (KindOf res))).

Definition GenericInitCommandDataConn (c : Client) : Run :=
  match RetryDialer net (CommandDataAddress c) with
  | Err err => (set_commandDataConn None c, [], Some err)
  | Ok conn =>
      let c := set_commandDataConn (Some conn) c in
      let c := configureTcpConn cmdDataConnection c in
      let (c, err) := SendPacketToCmdDataConn c (Client_newCmdDataInitPacket c) in
      match err with
      | Some err => (c, [], Some err)
      | None =>
          match WaitForPacketFromCmdDataConn c with
          | Err err => (c, [], Some err)
          | Ok res =>
              match res with
              | InitCommandAckPacket ConnectionNumber ResponderGUID
                  ResponderFriendlyName ResponderProtocolVersion =>
                  let c := set_connectionNumber ConnectionNumber c in
                  let c :=
                    set_responder
                      (Responder.identify ResponderGUID ResponderFriendlyName
                         ResponderProtocolVersion (responder c)) c in
                  (c, [], None)
              | _ =>
                  let err :=
                    match res with
                    | InitFailPacket Reason =>
                        ReasonAsError FR_Fuji_DeviceBusy
                          FR_Fuji_InvalidParameter Reason
                    | _ => unexpected_packet res
                    end in
                  (closeCommandDataConn c,
                   ["Closing Command/Data connection!"], Some err)
              end
          end
      end
  end.

Definition GenericInitEventConn (c : Client) : Run :=
  match RetryDialer net (EventAddress c) with
  | Err err => (set_eventConn None c, [], Some err)
  | Ok conn =>
      let c := set_eventConn (Some conn) c in
      let c := configureTcpConn eventConnection c in
      match Client_newEventInitPacket c with
      | None => (c, ["No further event channel init required."], None)
      | Some ierp =>
          let (c, err) := SendPacketToEventConn c ierp in
          match err with
          | Some err => (c, [], Some err)
          | None =>
              match WaitForPacketFromEventConn c with
              | Err err => (c, [], Some err)
              | Ok res =>
                  match res with
                  | InitEventAckPacket =>
                      (fst (incrementTransactionId c), [], None)
                  | _ =>
                      let err :=
                        match res with
                        | InitFailPacket Reason =>
                            ReasonAsError FR_Fuji_DeviceBusy
                              FR_Fuji_InvalidParameter Reason
                        | _ => unexpected_packet res
                        end in
                      (closeEventConn c, ["Closing Event connection!"], Some err)
                  end
              end
          end
      end
  end.

Definition GenericInitStreamerConn (c : Client) : Run :=
  match RetryDialer net (StreamerAddress c) with
  | Err err => (set_streamConn None c, [], Some err)
  | Ok conn =>
      let c := set_streamConn (Some conn) c in
      let c := configureTcpConn streamConnection c in
      (c, [], None)
  end.

(** [ptp.GetDeviceInfo()], the request built by package [ptp]. *)
Variable ptp_GetDeviceInfo : OperationRequest.

Definition GenericGetDeviceInfo (c : Client) : Client * result Packet :=
  let (c, err) :=
    SendPacketToCmdDataConn c
      (OperationRequestPacket DP_NoDataOrDataIn ptp_GetDeviceInfo) in
  match err with
  | Some err => (c, Err err)
  | None =>
      match WaitForPacketFromCmdDataConn c with
      | Err err => (c, Err err)
      | Ok res =>
          match res with
          | OperationResponsePacket _ => (c, Ok res)
          | _ => (c, Err (unexpected_packet res))
          end
      end
  end.

Definition with_Parameter1 (v : Z) (r : OperationRequest) : OperationRequest :=
  {| OperationCode := OperationCode r; TransactionID := TransactionID r;
     Parameter1 := v; Parameter2 := Parameter2 r; Parameter3 := Parameter3 r;
     Parameter4 := Parameter4 r; Parameter5 := Parameter5 r |}.

Definition with_Parameter2 (v : Z) (r : OperationRequest) : OperationRequest :=
  {| OperationCode := OperationCode r; TransactionID := TransactionID r;
     Parameter1 := Parameter1 r; Parameter2 := v; Parameter3 := Parameter3 r;
     Parameter4 := Parameter4 r; Parameter5 := Parameter5 r |}.

Definition with_Parameter3 (v : Z) (r : OperationRequest) : OperationRequest :=
  {| OperationCode := OperationCode r; TransactionID := TransactionID r;
     Parameter1 := Parameter1 r; Parameter2 := Parameter2 r; Parameter3 := v;
     Parameter4 := Parameter4 r; Parameter5 := Parameter5 r |}.

Definition with_Parameter4 (v : Z) (r : OperationRequest) : OperationRequest :=
  {| OperationCode := OperationCode r; TransactionID := TransactionID r;
     Parameter1 := Parameter1 r; Parameter2 := Parameter2 r;
     Parameter3 := Parameter3 r; Parameter4 := v; Parameter5 := Parameter5 r |}.

Definition with_Parameter5 (v : Z) (r : OperationRequest) : OperationRequest :=
  {| OperationCode := OperationCode r; TransactionID := TransactionID r;
     Parameter1 := Parameter1 r; Parameter2 := Parameter2 r;
     Parameter3 := Parameter3 r; Parameter4 := Parameter4 r; Parameter5 := v |}.

(** [if cond { or.ParameterN = params[i] }]. *)
Definition copy_param (cond : bool) (params : list Z) (i : Z)
  (store : Z -> OperationRequest -> OperationRequest) (or : OperationRequest)
  : outcome OperationRequest :=
  if cond then v <=- index params i ;; Returns (store v or) else Returns or.

(** The routine returns [(raw, err)]; every access to a slice may panic
    instead. *)
Definition GenericOperationRequestRaw (c : Client) (code : Z) (params : list Z)
  : outcome (Client * list bytes * option error) :=
  let or :=
    {| OperationCode := code; TransactionID := 0;
       Parameter1 := 0; Parameter2 := 0; Parameter3 := 0;
       Parameter4 := 0; Parameter5 := 0 |} in
  or <=- copy_param (len params >=? 1) params 0 with_Parameter1 or ;;
  or <=- copy_param (len params >=? 2) params 1 with_Parameter2 or ;;
  or <=- copy_param (len params >=? 3) params 2 with_Parameter3 or ;;
  or <=- copy_param (len params >=? 4) params 3 with_Parameter4 or ;;
  or <=- copy_param (len params =? 5) params 5 with_Parameter5 or ;;
  let (c, err) :=
    SendPacketToCmdDataConn c (OperationRequestPacket DP_NoDataOrDataIn or) in
  match err with
  | Some err => Returns (c, [], Some err)
  | None =>
      let raw : list bytes := [] in
      let (first, err) :=
        match ReadRawFromCmdDataConn c with
        | Ok b => (b, None)
        | Err e => ([], Some e)
        end in
      raw <=- assign_index raw 0 first ;;
      Returns (c, raw, err)
  end.

End Vendor.

(** ** The mock Fuji responder: packet-type folding *)

Definition constructPacketTypeWithDataPhase (code : Z) (dp : DataPhase) : Z :=
  Z.lor (uint32 (Z.shiftl (uint32 code) 16)) (uint32 dp).

Definition constructPacketType (code : Z) : Z :=
  constructPacketTypeWithDataPhase code DP_NoDataOrDataIn.

(** ** The wire codec *)

(** Modelled from the spec: the primitive writer of package [internal],
    which is not among the sources.  "All integer fields are
    little-endian": the [n] low-order bytes of a value, least significant
    first. *)
Fixpoint PutUint (n : nat) (v : Z) : bytes :=
  match n with
  | O => []
  | S n' => v mod 256 :: PutUint n' (v / 256)
  end.

(** Modelled from the spec: the primitive reader of package [internal];
    the value of little-endian bytes. *)
Fixpoint Uint (b : bytes) : Z :=
  match b with
  | [] => 0
  | x :: b' => x + 256 * Uint b'
  end.

(** The bounds of the surrogate ranges, of the basic plane and of Unicode,
    and the replacement character, under the names of Go's [unicode/utf16]. *)
Definition surr1 : Z := 0xd800.
Definition surr2 : Z := 0xdc00.
Definition surr3 : Z := 0xe000.
Definition surrSelf : Z := 0x10000.
Definition maxRune : Z := 0x10FFFF.
Definition replacementChar : Z := 0xFFFD.

(** Modelled from the spec: "UTF-16LE sequences"; the surrogate pair of a
    rune above the basic plane. *)
Definition utf16_EncodeRune (r : Z) : Z * Z :=
  let r := r - surrSelf in
  (surr1 + Z.land (Z.shiftr r 10) 0x3ff, surr2 + Z.land r 0x3ff).

(** Modelled from the spec: "UTF-16LE sequences"; the rune of a surrogate
    pair. *)
Definition utf16_DecodeRune (r1 r2 : Z) : Z :=
  Z.lor (Z.shiftl (r1 - surr1) 10) (r2 - surr2) + surrSelf.

(** Modelled from the spec: "UTF-16LE sequences"; the code units of a
    string: one unit for a rune of the basic plane, a surrogate pair above
    it, U+FFFD for what is no scalar value. *)
Fixpoint utf16_Encode (s : runes) : list Z :=
  match s with
  | [] => []
  | v :: s' =>
      if ((0 <=? v) && (v <? surr1)) || ((surr3 <=? v) && (v <? surrSelf)) then
        v :: utf16_Encode s'
      else if (surrSelf <=? v) && (v <=? maxRune) then
        let (r1, r2) := utf16_EncodeRune v in
        r1 :: r2 :: utf16_Encode s'
      else
        replacementChar :: utf16_Encode s'
  end.

(** Modelled from the spec: "UTF-16LE sequences"; the runes of code
    units, U+FFFD standing for an unpaired surrogate. *)
Fixpoint utf16_Decode (s : list Z) : runes :=
  match s with
  | [] => []
  | r :: s' =>
      if (r <? surr1) || (surr3 <=? r) then
        r :: utf16_Decode s'
      else
        match s' with
        | r2 :: s'' =>
            if (surr1 <=? r) && (r <? surr2) && (surr2 <=? r2) && (r2 <? surr3)
            then utf16_DecodeRune r r2 :: utf16_Decode s''
            else replacementChar :: utf16_Decode s'
        | [] => [replacementChar]
        end
  end.

(** Modelled from the spec: "strings are UTF-16LE sequences terminated by a
    single 16-bit 0x0000". *)
Definition PutString (s : runes) : bytes :=
  flat_map (PutUint 2) (utf16_Encode s ++ [0]).

(** Modelled from the spec: "reading little-endian 16-bit units until
    0x0000"; [MalformedString] "when no null terminator is found within the
    frame".  The units before the terminator and the bytes after it. *)
Fixpoint ReadUnits (b : bytes) : result (list Z * bytes) :=
  match b with
  | lo :: hi :: b' =>
      let u := Uint [lo; hi] in
      if u =? 0 then Ok ([], b')
      else ' (us, rest) <- ReadUnits b' ;; Ok (u :: us, rest)
  | _ => Err MalformedString
  end.

(** The Go types a struct field of the catalogue can have. *)
Inductive FieldKind : Type :=
| KUint16
| KUint32
| KUint64
| KUUID
| KString
| KBytes
| KInterface.

Definition kind_of (f : Field) : FieldKind :=
  match f with
  | FUint16 _ => KUint16
  | FUint32 _ => KUint32
  | FUint64 _ => KUint64
  | FUUID _ => KUUID
  | FString _ => KString
  | FBytes _ => KBytes
  | FInterface _ => KInterface
  end.

(** Modelled from the spec: a value behind an [interface{}] under the
    marshaller.  The spec knows the payload of a Data packet as "opaque
    payload" bytes only; a byte slice is written as any byte slice is, a
    value of another dynamic type is taken to be written as a field of
    that type, and nil as no bytes. *)
Definition marshal_interface (i : interface) : bytes :=
  match i with
  | nil_interface => []
  | of_bytes b => b
  | of_uint16 v => PutUint 2 v
  | of_uint32 v => PutUint 4 v
  end.

(** Modelled from the spec: one field under the reflective marshaller of
    package [internal], not among the sources: integers little-endian,
    strings as above, "byte-slice fields have no length prefix". *)
Definition marshal_field (f : Field) : bytes :=
  match f with
  | FUint16 v => PutUint 2 v
  | FUint32 v => PutUint 4 v
  | FUint64 v => PutUint 8 v
  | FUUID g => g
  | FString s => PutString s
  | FBytes b => b
  | FInterface i => marshal_interface i
  end.

(** Modelled from the spec: "populate fixed fields from the prefix"; the
    first [n] bytes of the frame buffer and the rest, or the decoder gives
    up on the payload. *)
Definition take_fixed (n : nat) (b : bytes) : result (bytes * bytes) :=
  if (List.length b <? n)%nat then Err MalformedFrame
  else Ok (firstn n b, skipn n b).

(** Modelled from the spec: "populate fixed fields from the prefix, then
    parse UTF-16LE strings; remaining bytes fill the trailing opaque
    payload".  One field is read off the front of the frame buffer.  A
    field declared [interface{}] is nil in the struct the registry builds
    and has no type of its own to read into: what is stored behind it is
    the remaining bytes, as a byte slice. *)
Definition unmarshal_field (k : FieldKind) (b : bytes) : result (Field * bytes) :=
  match k with
  | KUint16 => ' (x, rest) <- take_fixed 2 b ;; Ok (FUint16 (Uint x), rest)
  | KUint32 => ' (x, rest) <- take_fixed 4 b ;; Ok (FUint32 (Uint x), rest)
  | KUint64 => ' (x, rest) <- take_fixed 8 b ;; Ok (FUint64 (Uint x), rest)
  | KUUID => ' (x, rest) <- take_fixed 16 b ;; Ok (FUUID x, rest)
  | KString => ' (us, rest) <- ReadUnits b ;; Ok (FString (utf16_Decode us), rest)
  | KBytes => Ok (FBytes b, [])
  | KInterface => Ok (FInterface (of_bytes b), [])
  end.

(** Modelled from the spec: the reflective unmarshaller of package
    [internal], not among the sources; the fields of a layout read one
    after the other, and the bytes of the frame that none of them took. *)
Fixpoint unmarshal_fields (ks : list FieldKind) (b : bytes)
  : result (list Field * bytes) :=
  match ks with
  | [] => Ok ([], b)
  | k :: ks' =>
      ' (f, rest) <- unmarshal_field k b ;;
      ' (fs, excess) <- unmarshal_fields ks' rest ;;
      Ok (f :: fs, excess)
  end.

(** The fields of each packet struct, in declaration order.  The fields
    of [ptp.OperationRequest] and [ptp.OperationResponse], declared in
    package [ptp], are those the spec lists: "{DataPhaseInfo(uint32),
    OperationCode(uint16), TransactionID(uint32), Parameter1..Parameter5
    (uint32)}" and "{ResponseCode(uint16), TransactionID(uint32),
    Parameter1..5(uint32)}". *)
Definition Fields (p : Packet) : list Field :=
  match p with
  | GenericInitCommandRequestPacket GUID FriendlyName ProtocolVersion =>
      [FUUID GUID; FString FriendlyName; FUint32 ProtocolVersion]
  | InitCommandAckPacket ConnectionNumber ResponderGUID ResponderFriendlyName
      ResponderProtocolVersion =>
      [FUint32 ConnectionNumber; FUUID ResponderGUID;
       FString ResponderFriendlyName; FUint32 ResponderProtocolVersion]
  | GenericInitEventRequestPacket ConnectionNumber => [FUint32 ConnectionNumber]
  | InitEventAckPacket => []
  | InitFailPacket Reason => [FUint32 Reason]
  | OperationRequestPacket DataPhaseInfo r =>
      [FUint32 DataPhaseInfo; FUint16 (OperationCode r);
       FUint32 (TransactionID r); FUint32 (Parameter1 r); FUint32 (Parameter2 r);
       FUint32 (Parameter3 r); FUint32 (Parameter4 r); FUint32 (Parameter5 r)]
  | OperationResponsePacket r =>
      [FUint16 (ResponseCode r); FUint32 (RespTransactionID r);
       FUint32 (RespParameter1 r); FUint32 (RespParameter2 r);
       FUint32 (RespParameter3 r); FUint32 (RespParameter4 r);
       FUint32 (RespParameter5 r)]
  | GenericEventPacket ev => ev
  | StartDataPacket TransactionId TotalDataLength =>
      [FUint32 TransactionId; FUint64 TotalDataLength]
  | DataPacket TransactionId DataPayload =>
      [FUint32 TransactionId; FInterface DataPayload]
  | EndDataPacket TransactionId DataPayload =>
      [FUint32 TransactionId; FBytes DataPayload]
  | CancelPacket TransactionId => [FUint32 TransactionId]
  | ProbeRequestPacket => []
  | ProbeResponsePacket => []
  end.

(** Modelled from the spec: [internal.MarshalLittleEndian], not among the
    sources; the fields of the struct one after the other.  The vector of
    [TestClient_sendPacket] has the friendly name where it is declared,
    before the protocol version. *)
Definition MarshalLittleEndian (p : Packet) : bytes :=
  flat_map marshal_field (Fields p).

(** The [Payload()] method of the outbound structs. *)
Definition Payload (p : Packet) : bytes := MarshalLittleEndian p.

(** Modelled from the spec: [sendPacket] of the client, not among the
    sources, as the bytes it writes.  "Every wire frame
    begins with an 8-byte header: Length (uint32, total frame length
    including header) and PacketType (uint32)", followed by the payload. *)
Definition sendPacket (p : Packet) : bytes :=
  PutUint 4 (HeaderSize + len (Payload p)) ++ PutUint 4 (PacketTypeOf p)
  ++ Payload p.

Section Decoder.

(** The layout of [ptp.Event], declared in package [ptp]. *)
Variable EventLayout : list FieldKind.

(** The types of the fields of each struct, in declaration order. *)
Definition Layout (k : PacketKind) : list FieldKind :=
  match k with
  | TGenericInitCommandRequestPacket => [KUUID; KString; KUint32]
  | TInitCommandAckPacket => [KUint32; KUUID; KString; KUint32]
  | TGenericInitEventRequestPacket => [KUint32]
  | TInitEventAckPacket => []
  | TInitFailPacket => [KUint32]
  | TOperationRequestPacket =>
      [KUint32; KUint16; KUint32; KUint32; KUint32; KUint32; KUint32; KUint32]
  | TOperationResponsePacket =>
      [KUint16; KUint32; KUint32; KUint32; KUint32; KUint32; KUint32]
  | TGenericEventPacket => EventLayout
  | TStartDataPacket => [KUint32; KUint64]
  | TDataPacket => [KUint32; KInterface]
  | TEndDataPacket => [KUint32; KBytes]
  | TCancelPacket => [KUint32]
  | TProbeRequestPacket => []
  | TProbeResponsePacket => []
  end.

(** Modelled from the spec: "populate [the] fields"; the struct of kind
    [k] with its fields set to [fs]. *)
Definition populate (k : PacketKind) (fs : list Field) : result Packet :=
  match k, fs with
  | TGenericInitCommandRequestPacket, [FUUID g; FString s; FUint32 v] =>
      Ok (GenericInitCommandRequestPacket g s v)
  | TInitCommandAckPacket, [FUint32 n; FUUID g; FString s; FUint32 v] =>
      Ok (InitCommandAckPacket n g s v)
  | TGenericInitEventRequestPacket, [FUint32 n] =>
      Ok (GenericInitEventRequestPacket n)
  | TInitEventAckPacket, [] => Ok InitEventAckPacket
  | TInitFailPacket, [FUint32 r] => Ok (InitFailPacket r)
  | TOperationRequestPacket,
    [FUint32 dp; FUint16 oc; FUint32 t; FUint32 p1; FUint32 p2; FUint32 p3;
     FUint32 p4; FUint32 p5] =>
      Ok (OperationRequestPacket dp
            {| OperationCode := oc; TransactionID := t; Parameter1 := p1;
               Parameter2 := p2; Parameter3 := p3; Parameter4 := p4;
               Parameter5 := p5 |})
  | TOperationResponsePacket,
    [FUint16 rc; FUint32 t; FUint32 p1; FUint32 p2; FUint32 p3; FUint32 p4;
     FUint32 p5] =>
      Ok (OperationResponsePacket
            {| ResponseCode := rc; RespTransactionID := t;
               RespParameter1 := p1; RespParameter2 := p2;
               RespParameter3 := p3; RespParameter4 := p4;
               RespParameter5 := p5 |})
  | TGenericEventPacket, ev => Ok (GenericEventPacket ev)
  | TStartDataPacket, [FUint32 t; FUint64 n] => Ok (StartDataPacket t n)
  | TDataPacket, [FUint32 t; FInterface i] => Ok (DataPacket t i)
  | TEndDataPacket, [FUint32 t; FBytes b] => Ok (EndDataPacket t b)
  | TCancelPacket, [FUint32 t] => Ok (CancelPacket t)
  | TProbeRequestPacket, [] => Ok ProbeRequestPacket
  | TProbeResponsePacket, [] => Ok ProbeResponsePacket
  | _, _ => Err MalformedFrame
  end.

(** Modelled from the spec: [readResponse] of the client, not among the
    sources, called with a nil packet as the tests call it.  "Read exactly 8 bytes for the
    header; validate Length >= 8; read Length - 8 more bytes into a frame
    buffer; dispatch on PacketType to a packet constructor; populate [the
    fields]"; "excess bytes after decoding a valid packet are returned
    separately".  The result is the packet, the excess bytes of its frame,
    and what is left on the reader. *)
Definition readResponse (r : bytes) : result (Packet * bytes * bytes) :=
  ' (h, r) <- (if len r <? HeaderSize then Err ShortFrame
               else Ok (firstn 8 r, skipn 8 r)) ;;
  let Length := Uint (firstn 4 h) in
  let pt := Uint (skipn 4 h) in
  if Length <? HeaderSize then Err ShortFrame
  else
    let n := Z.to_nat (Length - HeaderSize) in
    if len r <? Length - HeaderSize then Err UnexpectedEOF
    else
      let frame := firstn n r in
      p <- NewPacketInFromPacketType pt ;;
      ' (fs, xs) <- unmarshal_fields (Layout p) frame ;;
      p <- populate p fs ;;
      Ok (p, xs, skipn n r).

End Decoder.

(** ** Reference data for the statements *)

(** The eleven packet types with an inbound constructor and the nine with
    an outbound one, by name. *)
Definition inbound_registry : list PacketType :=
  [PKT_InitCommandAck; PKT_InitEventAck; PKT_InitFail; PKT_OperationResponse;
   PKT_Event; PKT_StartData; PKT_Data; PKT_Cancel; PKT_EndData;
   PKT_ProbeRequest; PKT_ProbeResponse].

Definition outbound_registry : list PacketType :=
  [PKT_InitCommandRequest; PKT_InitEventRequest; PKT_OperationRequest;
   PKT_StartData; PKT_Data; PKT_Cancel; PKT_EndData; PKT_ProbeRequest;
   PKT_ProbeResponse].

(** The identifier a client holds after [n] increments. *)
Definition increments (n : nat) (c : Client) : Client :=
  Nat.iter n (fun c => fst (incrementTransactionId c)) c.

(** The checks of [TestClient_incrementTransactionId], for an arbitrary
    successor function on identifiers. *)
Definition TestClient_incrementTransactionId (next : Z -> Z) : bool :=
  (next 0 =? 1) && (next (next 0) =? 2) && (next 0xFFFFFFFE =? 1).

(** The generic extension table that [loadVendorExtensions] installs. *)
Definition genericExtensions : VendorExtensions :=
  {| cmdDataInit := GenericInitCommandDataConn_fn;
     eventInit := GenericInitEventConn_fn;
     streamerInit := GenericInitStreamerConn_fn;
     newCmdDataInitPacket := NewInitCommandRequestPacket;
     newEventInitPacket := NewInitEventRequestPacket;
     getDeviceInfo := GenericGetDeviceInfo_fn;
     operationRequestRaw := GenericOperationRequestRaw_fn |}.

(** A client like that of [TestClient_initCommandDataConn]: default
    vendor, not yet dialled, GUID 67bace55-e7a4-4fbc-8e31-5122ee73a17c,
    name "tester" with a grave accent. *)
Definition testClient : Client :=
  {| connectionNumber := 0;
     transactionId := 0;
     commandDataConn := None;
     eventConn := None;
     streamConn := None;
     initiator :=
       {| Initiator.GUID :=
            [0x67; 0xba; 0xce; 0x55; 0xe7; 0xa4; 0x4f; 0xbc;
             0x8e; 0x31; 0x51; 0x22; 0xee; 0x73; 0xa1; 0x7c];
          Initiator.FriendlyName := [0x74; 0x65; 0x73; 0x74; 0xe8; 0x72] |};
     responder :=
       {| Responder.Vendor := 0;
          Responder.IpAddress := "127.0.0.1";
          Responder.CommandDataPort := 15740;
          Responder.EventPort := 15740;
          Responder.StreamerPort := 15740;
          Responder.GUID := uuid_Nil;
          Responder.FriendlyName := [];
          Responder.ProtocolVersion := 0 |};
     vendorExtensions := genericExtensions |}.

(** A connection just dialled. *)
Definition freshConn (a : Address) : Conn :=
  {| RemoteAddr := a; KeepAlive := false; Closed := false; Written := [] |}.

(** A responder in the manner of the tests' mock: it accepts every
    connection and every write, and answers the last packet written. *)
Definition mockResponder (answer : Packet -> Packet) : Network :=
  {| RetryDialer := fun a => Ok (freshConn a);
     writes := fun _ _ => None;
     reads := fun conn =>
       match rev (Written conn) with
       | p :: _ => Ok (answer p)
       | [] => Err UnexpectedEOF
       end;
     readsRaw := fun conn =>
       match rev (Written conn) with
       | p :: _ => Ok (sendPacket (answer p))
       | [] => Err UnexpectedEOF
       end |}.

(** The mock on the tests' [okPort]: connection number 1, a fixed identity,
    protocol version 1.0. *)
Definition okAnswer (p : Packet) : Packet :=
  match p with
  | GenericInitCommandRequestPacket _ _ _ =>
      InitCommandAckPacket 1
        [0x7c; 0x94; 0x6a; 0xe4; 0x6d; 0x6a; 0x45; 0x89;
         0x90; 0xed; 0xd0; 0x59; 0xf8; 0xcc; 0x42; 0x6b]
        [0x72; 0x65; 0x6d; 0xf4; 0x74; 0x65] 0x00010000
  | GenericInitEventRequestPacket _ => InitEventAckPacket
  | _ => OperationResponsePacket
           {| ResponseCode := 0x2001; RespTransactionID := 0;
              RespParameter1 := 0; RespParameter2 := 0; RespParameter3 := 0;
              RespParameter4 := 0; RespParameter5 := 0 |}
  end.

(** The mock on the tests' [failPort]: it rejects the Initiator. *)
Definition failAnswer (_ : Packet) : Packet :=
  InitFailPacket FR_FailRejectedInitiator.

(** A client for a vendor whose hook [newEventInitPacket] returns nil
    ("event init is a no-op at the application layer"), set up through
    [loadVendorExtensions] under vendor tag 0x0E. *)
Definition noEventInitClient : Client :=
  loadVendorExtensions 0x0000000E NewInitCommandRequestPacket (fun _ => None)
    (set_responder
       {| Responder.Vendor := 0x0000000E;
          Responder.IpAddress := "192.168.0.1";
          Responder.CommandDataPort := 55740;
          Responder.EventPort := 55741;
          Responder.StreamerPort := 55742;
          Responder.GUID := uuid_Nil;
          Responder.FriendlyName := [];
          Responder.ProtocolVersion := 0 |}
       testClient).

(** What [GenericInitCommandDataConn] reads from the command/data
    connection, when it gets as far as reading, and the connection as it
    stands at that point: dialled, configured, the init packet written. *)
Definition cmdDataReply (net : Network) (c : Client) : option (Conn * Packet) :=
  match RetryDialer net (CommandDataAddress c) with
  | Err _ => None
  | Ok conn =>
      let p :=
        newCmdDataInitPacket (vendorExtensions c)
          (Initiator.GUID (initiator c)) (Initiator.FriendlyName (initiator c)) in
      match writes net (Conn_SetKeepAlive conn) p with
      | Some _ => None
      | None =>
          match reads net (Conn_Write p (Conn_SetKeepAlive conn)) with
          | Err _ => None
          | Ok res => Some (Conn_Write p (Conn_SetKeepAlive conn), res)
          end
      end
  end.

(** The same for [GenericInitEventConn] on the event connection. *)
Definition eventReply (net : Network) (c : Client) : option (Conn * Packet) :=
  match RetryDialer net (EventAddress c) with
  | Err _ => None
  | Ok conn =>
      match newEventInitPacket (vendorExtensions c) (connectionNumber c) with
      | None => None
      | Some ierp =>
          match writes net (Conn_SetKeepAlive conn) ierp with
          | Some _ => None
          | None =>
              match reads net (Conn_Write ierp (Conn_SetKeepAlive conn)) with
              | Err _ => None
              | Ok res => Some (Conn_Write ierp (Conn_SetKeepAlive conn), res)
              end
          end
      end
  end.

(** The error of the non-acknowledging branches of the two handshake
    switches. *)
Definition rejection (db ip : FailReason) (res : Packet) : error :=
  match res with
  | InitFailPacket Reason => ReasonAsError db ip Reason
  | _ => unexpected_packet res
  end.

(** The connection number and the responder identity that the handshake
    records. *)
Definition identity (c : Client) : Z * UUID * runes * Z :=
  (connectionNumber c,
   Responder.GUID (responder c),
   Responder.FriendlyName (responder c),
   Responder.ProtocolVersion (responder c)).

(** Whether [GenericInitEventConn] gets to read an [InitEventAckPacket]. *)
Definition eventAcknowledged (net : Network) (c : Client) : bool :=
  match eventReply net c with
  | Some (_, InitEventAckPacket) => true
  | _ => false
  end.

(** A rune that a string on the wire can hold: a Unicode scalar value
    other than U+0000. *)
Definition is_string_rune (v : Z) : Prop :=
  (0 < v < surr1) \/ (surr3 <= v <= maxRune).

(** A UTF-16 code unit other than the terminator. *)
Definition is_unit (u : Z) : Prop := 0 < u < 65536.

(** An interface value whose dynamic type is [[]byte]. *)
Definition holds_bytes (i : interface) : Prop :=
  match i with
  | of_bytes _ => True
  | _ => False
  end.

(** Well-formed field values: integers within their width, a GUID of 16
    bytes, a string of Unicode scalar values other than U+0000, a byte
    slice behind an interface. *)
Definition wf_field (f : Field) : Prop :=
  match f with
  | FUint16 v => is_uint16 v
  | FUint32 v => is_uint32 v
  | FUint64 v => is_uint64 v
  | FUUID g => List.length g = 16%nat
  | FString s => Forall is_string_rune s
  | FBytes _ => True
  | FInterface i => holds_bytes i
  end.

(** A byte slice, declared or behind an interface, can only be the last
    field: it takes what is left of the frame. *)
Fixpoint bytes_last (ks : list FieldKind) : Prop :=
  match ks with
  | [] => True
  | KBytes :: ks' => ks' = []
  | KInterface :: ks' => ks' = []
  | _ :: ks' => bytes_last ks'
  end.

(** What a field can hold after decoding, whatever the bytes decoded: a
    string without U+0000, and a byte slice behind an interface. *)
Definition decodable_field (f : Field) : Prop :=
  match f with
  | FString s => ~ In 0 s
  | FInterface i => holds_bytes i
  | _ => True
  end.

(** A byte of a frame. *)
Definition is_byte (b : Z) : Prop := 0 <= b < 256.

(** A packet whose fields are well formed and laid out as its kind
    prescribes; for every struct of the catalogue the layout is that of its
    declaration, for [GenericEventPacket] it is the given one. *)
Definition wf_packet (EventLayout : list FieldKind) (p : Packet) : Prop :=
  Forall wf_field (Fields p)
  /\ map kind_of (Fields p) = Layout EventLayout (KindOf p)
  /\ bytes_last (Layout EventLayout (KindOf p)).

(** The sum of the encoded lengths of the fields of a packet. *)
Definition fields_size (fs : list Field) : Z :=
  fold_right Z.add 0 (map (fun f => len (marshal_field f)) fs).

(** A payload that brings an [EndDataPacket] frame to 2^32 bytes. *)
Definition hugePayload : bytes := repeat 0 (Z.to_nat (2 ^ 32 - 12)).

(** ** Further reference data *)

(** The request that carries the first four of [params], zeros where there
    are none, a zero fifth parameter and no transaction ID. *)
Definition rawRequest (code : Z) (params : list Z) : OperationRequest :=
  {| OperationCode := code;
     TransactionID := 0;
     Parameter1 := nth 0 params 0;
     Parameter2 := nth 1 params 0;
     Parameter3 := nth 2 params 0;
     Parameter4 := nth 3 params 0;
     Parameter5 := 0 |}.

(** ** The mock Fuji responder *)

(** A step that may end in a run-time panic ([None]). *)
Definition pbind {A B : Type} (r : option A) (k : A -> option B) : option B :=
  match r with
  | Some a => k a
  | None => None
  end.

Notation "x <-? r ;; k" := (pbind r (fun x => k))
  (at level 61, r at next level, right associativity).
Notation "' pat <-? r ;; k" := (pbind r (fun x => match x with pat => k end))
  (at level 61, pat pattern, r at next level, right associativity).

(** [s[lo:hi]] for constant bounds [lo <= hi]: a panic when [hi] exceeds
    the capacity of [s], which is taken to be its length. *)
Definition slice (s : bytes) (lo hi : nat) : option bytes :=
  if (hi <=? List.length s)%nat then Some (firstn (hi - lo) (skipn lo s))
  else None.

(** [binary.LittleEndian.Uint32(b)] and [Uint16(b)], which panic on a slice
    that is too short. *)
Definition LittleEndian_Uint32 (b : bytes) : option Z :=
  if (List.length b <? 4)%nat then None else Some (Uint (firstn 4 b)).

Definition LittleEndian_Uint16 (b : bytes) : option Z :=
  if (List.length b <? 2)%nat then None else Some (Uint (firstn 2 b)).

(** The struct [FujiOperationResponsePacket], with the fields that the
    mock's composite literal sets. *)
Module FujiOperationResponsePacket.
Record t : Type := {
  DataPhase : Z;
  OperationResponseCode : Z;
  TransactionID : Z
}.
End FujiOperationResponsePacket.

(** What the mock writes to the connection: a packet through
    [sendMessage], of the generic catalogue or a Fuji response, or bytes
    through [conn.Write]. *)
Inductive MockOutput : Type :=
| SendGeneric (p : Packet)
| SendFuji (p : FujiOperationResponsePacket.t)
| WriteBytes (b : bytes).

Section MockFujiResponder.

(** The operation, response and property codes of packages [ptp] and
    [ip], none of them among the sources. *)
Variables OC_GetDevicePropDesc OC_GetDevicePropValue OC_InitiateOpenCapture
  OC_OpenSession OC_SetDevicePropValue : Z.
Variables RC_OK RC_Fuji_GetDevicePropDesc RC_Fuji_GetDevicePropValue : Z.
Variables DPC_Fuji_AppVersion PM_Fuji_AppVersion : Z.

(** The answer of [genericInitCommandRequestResponse] of the generic mock,
    not among the sources: a log text and a packet, possibly nil. *)
Variable genericInitCommandRequestResponse : string * option Packet.

Definition fujiOperationResponsePacket (dp : DataPhase) (orc : Z) (tid : bytes)
  : option FujiOperationResponsePacket.t :=
  t <-? LittleEndian_Uint32 tid ;;
  Some {| FujiOperationResponsePacket.DataPhase := uint16 dp;
          FujiOperationResponsePacket.OperationResponseCode := orc;
          FujiOperationResponsePacket.TransactionID := t |}.

Definition fujiEndOfDataPacket (tid : bytes)
  : option FujiOperationResponsePacket.t :=
  fujiOperationResponsePacket DP_Unknown RC_OK tid.

Definition fujiGetDevicePropDescResponse (tid : bytes)
  : option (string * FujiOperationResponsePacket.t) :=
  p <-? fujiOperationResponsePacket DP_DataOut RC_Fuji_GetDevicePropDesc tid ;;
  Some ("GetDevicePropDesc", p).

Definition fujiGetDevicePropValueResponse (tid prop : bytes)
  : option (string * FujiOperationResponsePacket.t * bytes) :=
  code <-? LittleEndian_Uint16 prop ;;
  let par := if code =? uint16 DPC_Fuji_AppVersion then PM_Fuji_AppVersion else 0 in
  let p := PutUint 4 par in
  r <-? fujiOperationResponsePacket DP_DataOut RC_Fuji_GetDevicePropValue tid ;;
  Some ("GetDevicePropValue", r, p).

Definition fujiInitiateOpenCaptureResponse (tid : bytes)
  : option (string * FujiOperationResponsePacket.t) :=
  p <-? fujiEndOfDataPacket tid ;;
  Some ("InitiateOpenCapture", p).

Definition fujiOpenSessionResponse (tid : bytes)
  : option (string * FujiOperationResponsePacket.t) :=
  p <-? fujiEndOfDataPacket tid ;;
  Some ("OpenSession", p).

Definition fujiSetDevicePropValue (tid : bytes)
  : option (string * FujiOperationResponsePacket.t) :=
  p <-? fujiEndOfDataPacket tid ;;
  Some ("SetDevicePropValue", p).

(** The value of [res], a [PacketIn]: nil, a packet of the catalogue, or a
    Fuji response. *)
Inductive MockReply : Type :=
| NoReply
| GenericReply (p : Packet)
| FujiReply (p : FujiOperationResponsePacket.t).

(** The switch of [handleFujiMessages] on the first four bytes of a
    message: the values of [msg], [res], [par] and [eodp] after it. *)
Definition fujiDispatch (raw : bytes)
  : option (string * MockReply * option bytes * bool) :=
  h <-? slice raw 0 4 ;;
  w <-? LittleEndian_Uint32 h ;;
  if w =? uint32 PKT_InitCommandRequest then
    let (msg, res) := genericInitCommandRequestResponse in
    Some (msg, match res with Some p => GenericReply p | None => NoReply end,
          None, false)
  else if w =? constructPacketType OC_GetDevicePropDesc then
    tid <-? slice raw 4 8 ;;
    ' (msg, res) <-? fujiGetDevicePropDescResponse tid ;;
    Some (msg, FujiReply res, None, true)
  else if w =? constructPacketType OC_GetDevicePropValue then
    tid <-? slice raw 4 8 ;;
    prop <-? slice raw 8 10 ;;
    ' (msg, res, par) <-? fujiGetDevicePropValueResponse tid prop ;;
    Some (msg, FujiReply res, Some par, true)
  else if w =? constructPacketType OC_InitiateOpenCapture then
    tid <-? slice raw 4 8 ;;
    ' (msg, res) <-? fujiInitiateOpenCaptureResponse tid ;;
    Some (msg, FujiReply res, None, false)
  else if w =? constructPacketType OC_OpenSession then
    tid <-? slice raw 4 8 ;;
    ' (msg, res) <-? fujiOpenSessionResponse tid ;;
    Some (msg, FujiReply res, None, false)
  else if w =? constructPacketTypeWithDataPhase OC_SetDevicePropValue DP_DataOut then
    tid <-? slice raw 4 8 ;;
    ' (msg, res) <-? fujiSetDevicePropValue tid ;;
    Some (msg, FujiReply res, None, false)
  else Some ("", NoReply, None, false).

(** One turn of the loop of [handleFujiMessages] on a message that is not
    nil: what is written to the connection in answer. *)
Definition handleFujiMessage (raw : bytes) : option (list MockOutput) :=
  ' (msg, res, par, eodp) <-? fujiDispatch raw ;;
  match res with
  | NoReply => Some []
  | _ =>
      let first :=
        match res with
        | GenericReply p => [SendGeneric p]
        | FujiReply p => [SendFuji p]
        | NoReply => []
        end in
      let param :=
        match par with
        | Some b => [WriteBytes b]
        | None => []
        end in
      if eodp then
        tid <-? slice raw 4 8 ;;
        eod <-? fujiEndOfDataPacket tid ;;
        Some (first ++ param ++ [SendFuji eod])
      else Some (first ++ param)
  end.

(** The loop of [handleFujiMessages] over what [readMessageRaw] yields
    until it reports the end of the stream: a message, or nil after an
    error that is not the end.  The result is all that was written; the
    connection is closed when the list is used up. *)
Fixpoint handleFujiMessages (incoming : list (option bytes))
  : option (list MockOutput) :=
  match incoming with
  | [] => Some []
  | None :: incoming' => handleFujiMessages incoming'
  | Some raw :: incoming' =>
      out <-? handleFujiMessage raw ;;
      rest <-? handleFujiMessages incoming' ;;
      Some (out ++ rest)
  end.

End MockFujiResponder.

(** The transaction ID of a message of the Fuji command/data channel:
    bytes 4 to 7, little-endian. *)
Definition requestTransactionID (raw : bytes) : Z :=
  Uint (firstn 4 (skipn 4 raw)).

(** A mock over sample codes: the operation codes of PTP, 0x2001 for
    [RC_OK], the property code 0xDF24 with the value 0x00020001, and no
    answer of the generic mock to an Init Command Request. *)
Definition sampleFujiMock : bytes -> option (list MockOutput) :=
  handleFujiMessage 0x1014 0x1015 0x101C 0x1002 0x1016
    0x2001 0x1014 0x1015 0xDF24 0x00020001 ("", None).

Definition sampleFujiMockRun : list (option bytes) -> option (list MockOutput) :=
  handleFujiMessages 0x1014 0x1015 0x101C 0x1002 0x1016
    0x2001 0x1014 0x1015 0xDF24 0x00020001 ("", None).

(** A request for the value of property 0xDF24 in transaction 5, and a
    request to open session 1 in transaction 6. *)
Definition getAppVersion : bytes :=
  [0x01; 0x00; 0x15; 0x10; 0x05; 0x00; 0x00; 0x00; 0x24; 0xDF].

Definition openSession : bytes :=
  [0x01; 0x00; 0x02; 0x10; 0x06; 0x00; 0x00; 0x00; 0x01; 0x00; 0x00; 0x00].

Definition fujiResponse (dp orc tid : Z) : FujiOperationResponsePacket.t :=
  {| FujiOperationResponsePacket.DataPhase := dp;
     FujiOperationResponsePacket.OperationResponseCode := orc;
     FujiOperationResponsePacket.TransactionID := tid |}.

Definition getAppVersionAnswer : list MockOutput :=
  [SendFuji (fujiResponse 2 0x1015 5);
   WriteBytes [0x01; 0x00; 0x02; 0x00];
   SendFuji (fujiResponse 3 0x2001 5)].

Definition openSessionAnswer : list MockOutput :=
  [SendFuji (fujiResponse 3 0x2001 6)].

(** A read that yields a message, as opposed to nil. *)
Definition isMessage (m : option bytes) : bool :=
  match m with
  | Some _ => true
  | None => false
  end.

(** ** The command line *)

Definition errInvalidArgs : Z := 2.

(** The test of [main] on the flags [cmd], [interactive] and [server] that
    ends the program with [errInvalidArgs]; [&&] binds tighter than [||]. *)
Definition tooManyArguments (cmd : string) (interactive server : bool) : bool :=
  negb (String.eqb cmd "") && (interactive || server)
  || (interactive && server).

(** How many of the three modes the flags ask for. *)
Definition requestedModes (cmd : string) (interactive server : bool) : Z :=
  (if String.eqb cmd "" then 0 else 1)
  + (if interactive then 1 else 0) + (if server then 1 else 0).

(** ** Tactics *)

(** Case analysis on the integer comparisons of the goal. *)
Ltac zbool :=
  repeat match goal with
         | |- context [?a <=? ?b] => destruct (Z.leb_spec a b)
         | |- context [?a <? ?b] => destruct (Z.ltb_spec a b)
         end;
  cbn [andb orb].

(** * Properties *)

(** ** Arithmetic of folded words *)

Lemma land_shiftl_low (a b n : Z) :
  0 <= n -> 0 <= b < 2 ^ n -> Z.land (Z.shiftl a n) b = 0.
Proof.
  intros Hn Hb.
  apply Z.bits_inj'. intros i Hi.
  rewrite Z.land_spec, Z.bits_0.
  destruct (Z.lt_ge_cases i n) as [Hlt | Hge].
  - rewrite Z.shiftl_spec_low by assumption. reflexivity.
  - replace b with (b mod 2 ^ n) by (apply Z.mod_small; assumption).
    rewrite Z.mod_pow2_bits_high by lia.
    apply andb_false_r.
Qed.

Lemma lor_shiftl_add (a b n : Z) :
  0 <= n -> 0 <= b < 2 ^ n -> Z.lor (Z.shiftl a n) b = a * 2 ^ n + b.
Proof.
  intros Hn Hb.
  rewrite <- Z.lxor_lor by (apply land_shiftl_low; assumption).
  rewrite <- Z.add_nocarry_lxor by (apply land_shiftl_low; assumption).
  rewrite Z.shiftl_mul_pow2 by assumption.
  reflexivity.
Qed.

(** ** The constructor registries *)

Lemma NewPacketIn_registered (pt : PacketType) :
  In pt inbound_registry ->
  exists k, NewPacketInFromPacketType pt = Ok k /\ KindPacketType k = pt.
Proof.
  unfold inbound_registry. intros H.
  repeat (destruct H as [<- | H]; [eexists; split; reflexivity | ]).
  destruct H.
Qed.

Lemma NewPacketIn_unregistered (pt : PacketType) :
  ~ In pt inbound_registry ->
  NewPacketInFromPacketType pt = Err (UnknownPacketType pt).
Proof.
  intros H. unfold NewPacketInFromPacketType.
  repeat match goal with
         | |- context [pt =? ?c] =>
             destruct (Z.eqb_spec pt c) as [-> | _];
             [exfalso; apply H; unfold inbound_registry; simpl; tauto | ]
         end.
  reflexivity.
Qed.

Lemma NewPacketOut_registered (pt : PacketType) :
  In pt outbound_registry ->
  exists k, NewPacketOutFromPacketType pt = Ok k /\ KindPacketType k = pt.
Proof.
  unfold outbound_registry. intros H.
  repeat (destruct H as [<- | H]; [eexists; split; reflexivity | ]).
  destruct H.
Qed.

Lemma NewPacketOut_unregistered (pt : PacketType) :
  ~ In pt outbound_registry ->
  NewPacketOutFromPacketType pt = Err (UnknownPacketType pt).
Proof.
  intros H. unfold NewPacketOutFromPacketType.
  repeat match goal with
         | |- context [pt =? ?c] =>
             destruct (Z.eqb_spec pt c) as [-> | _];
             [exfalso; apply H; unfold outbound_registry; simpl; tauto | ]
         end.
  reflexivity.
Qed.

(** C9.  [NewPacketInFromPacketType] yields a packet whose [PacketType()] is
    the requested one exactly for the eleven inbound types and the
    [UnknownPacketType] error, carrying the raw value, for every other
    value -- the outbound-only [InitCommandRequest], [InitEventRequest] and
    [OperationRequest] among them; [NewPacketOutFromPacketType] does the
    same over the nine types of the outbound registry. *)
Theorem registries_exact (pt : PacketType) :
  ((exists k, NewPacketInFromPacketType pt = Ok k /\ KindPacketType k = pt)
   <-> In pt inbound_registry)
  /\ (NewPacketInFromPacketType pt = Err (UnknownPacketType pt)
      <-> ~ In pt inbound_registry)
  /\ ((exists k, NewPacketOutFromPacketType pt = Ok k /\ KindPacketType k = pt)
      <-> In pt outbound_registry)
  /\ (NewPacketOutFromPacketType pt = Err (UnknownPacketType pt)
      <-> ~ In pt outbound_registry)
  /\ List.length inbound_registry = 11%nat
  /\ NewPacketInFromPacketType PKT_InitCommandRequest
     = Err (UnknownPacketType PKT_InitCommandRequest)
  /\ NewPacketInFromPacketType PKT_InitEventRequest
     = Err (UnknownPacketType PKT_InitEventRequest)
  /\ NewPacketInFromPacketType PKT_OperationRequest
     = Err (UnknownPacketType PKT_OperationRequest).
Proof.
  assert (Hin : forall l, {In pt l} + {~ In pt l})
    by (intro l; apply in_dec, Z.eq_dec).
  repeat split; try reflexivity.
  - intros [k [Hk _]]. destruct (Hin inbound_registry) as [Hi | Hi]; [assumption | ].
    rewrite (NewPacketIn_unregistered _ Hi) in Hk. discriminate.
  - apply NewPacketIn_registered.
  - intros He Hi. destruct (NewPacketIn_registered _ Hi) as [k [Hk _]].
    rewrite Hk in He. discriminate.
  - apply NewPacketIn_unregistered.
  - intros [k [Hk _]]. destruct (Hin outbound_registry) as [Hi | Hi]; [assumption | ].
    rewrite (NewPacketOut_unregistered _ Hi) in Hk. discriminate.
  - apply NewPacketOut_registered.
  - intros He Hi. destruct (NewPacketOut_registered _ Hi) as [k [Hk _]].
    rewrite Hk in He. discriminate.
  - apply NewPacketOut_unregistered.
Qed.

(** The kind each registered type is built with. *)
Lemma NewPacketIn_kinds :
  map NewPacketInFromPacketType inbound_registry
  = map Ok
      [TInitCommandAckPacket; TInitEventAckPacket; TInitFailPacket;
       TOperationResponsePacket; TGenericEventPacket; TStartDataPacket;
       TDataPacket; TCancelPacket; TEndDataPacket; TProbeRequestPacket;
       TProbeResponsePacket].
Proof. reflexivity. Qed.

(** ** The failure translator *)

Section FailureTranslatorFacts.

Variables FR_Fuji_DeviceBusy FR_Fuji_InvalidParameter : FailReason.

(** Go rejects a switch with two equal constant cases. *)
Hypothesis DeviceBusy_fresh :
  ~ In FR_Fuji_DeviceBusy
      [FR_FailBusy; FR_FailRejectedInitiator; FR_FailUnspecified].
Hypothesis InvalidParameter_fresh :
  ~ In FR_Fuji_InvalidParameter
      [FR_FailBusy; FR_FailRejectedInitiator; FR_FailUnspecified;
       FR_Fuji_DeviceBusy].

Let translate := ReasonAsError FR_Fuji_DeviceBusy FR_Fuji_InvalidParameter.

(** C6.  [ReasonAsError] always returns an error built by [errors.New];
    the three standard reasons and the two Fuji reasons have their fixed
    messages, and every other reason yields "unknown failure reason
    returned" followed by the reason in hexadecimal, from which the raw
    value reads back. *)
Theorem ReasonAsError_messages (Reason : FailReason) :
  (exists msg, translate Reason = errors_New msg)
  /\ translate FR_FailRejectedInitiator
     = errors_New "rejected: device not allowed"
  /\ translate FR_FailBusy = errors_New "busy: too many active connections"
  /\ translate FR_FailUnspecified = errors_New "reason unspecified"
  /\ translate FR_Fuji_DeviceBusy
     = errors_New
         "fuji: invalid friendly name or camera state: allow to 'change' client or 'reset' connection"
  /\ translate FR_Fuji_InvalidParameter
     = errors_New "fuji: unknown protocol version"
  /\ (~ In Reason
        [FR_FailBusy; FR_FailRejectedInitiator; FR_FailUnspecified;
         FR_Fuji_DeviceBusy; FR_Fuji_InvalidParameter] ->
      translate Reason
      = errors_New
          (String.append "unknown failure reason returned " (Sprintf_hex Reason))
      /\ HexString.to_Z (Sprintf_hex Reason) = Reason).
Proof.
  subst translate. unfold ReasonAsError.
  simpl in DeviceBusy_fresh, InvalidParameter_fresh.
  repeat apply conj; [ | | | | | | intros H; split ].
  - eexists. reflexivity.
  - reflexivity.
  - reflexivity.
  - reflexivity.
  - repeat match goal with
           | |- context [FR_Fuji_DeviceBusy =? ?c] =>
               destruct (Z.eqb_spec FR_Fuji_DeviceBusy c) as [E | _];
               [exfalso; intuition congruence | ]
           end.
    rewrite Z.eqb_refl. reflexivity.
  - repeat match goal with
           | |- context [FR_Fuji_InvalidParameter =? ?c] =>
               destruct (Z.eqb_spec FR_Fuji_InvalidParameter c) as [E | _];
               [exfalso; intuition congruence | ]
           end.
    rewrite Z.eqb_refl. reflexivity.
  - simpl in H.
    repeat match goal with
           | |- context [Reason =? ?c] =>
               destruct (Z.eqb_spec Reason c) as [E | _];
               [exfalso; intuition congruence | ]
           end.
    reflexivity.
  - apply HexString.to_Z_of_Z.
Qed.

End FailureTranslatorFacts.

(** With the PTP response codes DeviceBusy 0x2019 and InvalidParameter
    0x201D as the two Fuji reasons. *)
Lemma ReasonAsError_messages_witness :
  ReasonAsError 0x2019 0x201D FR_FailRejectedInitiator
  = errors_New "rejected: device not allowed"
  /\ ReasonAsError 0x2019 0x201D 0x2019
     = errors_New
         "fuji: invalid friendly name or camera state: allow to 'change' client or 'reset' connection"
  /\ ReasonAsError 0x2019 0x201D 0xdeadbeef
     = errors_New "unknown failure reason returned 0xdeadbeef".
Proof.
  assert (H1 : ~ In 0x2019
                 [FR_FailBusy; FR_FailRejectedInitiator; FR_FailUnspecified])
    by (vm_compute; intuition discriminate).
  assert (H2 : ~ In 0x201D
                 [FR_FailBusy; FR_FailRejectedInitiator; FR_FailUnspecified;
                  0x2019])
    by (vm_compute; intuition discriminate).
  pose proof (ReasonAsError_messages 0x2019 0x201D H1 H2 0xdeadbeef) as H.
  destruct H as (_ & Hrej & _ & _ & Hbusy & _ & Hunk).
  split; [exact Hrej | split; [exact Hbusy | ]].
  apply Hunk. vm_compute. intuition discriminate.
Defined.

(** ** Fuji packet-type folding *)

(** C2.  For a 16-bit operation code and a data phase among 1, 2, 3 the
    folded word is [(oc << 16) | dp]; its upper half is the code and its
    lower half the phase, and on the wire it reads as the little-endian
    phase followed by the little-endian code. *)
Theorem fuji_folding_identity (oc : Z) (dp : DataPhase) :
  is_uint16 oc ->
  In dp [DP_NoDataOrDataIn; DP_DataOut; DP_Unknown] ->
  let w := constructPacketTypeWithDataPhase oc dp in
  w = Z.lor (Z.shiftl oc 16) dp
  /\ is_uint32 w
  /\ Z.shiftr w 16 = oc
  /\ Z.land w 0xFFFF = dp
  /\ PutUint 4 w = PutUint 2 dp ++ PutUint 2 oc.
Proof.
  intros Hoc Hdp w. unfold is_uint16, is_uint32 in *.
  assert (Hd : 0 <= dp < 4).
  { simpl in Hdp. unfold DP_NoDataOrDataIn, DP_DataOut, DP_Unknown in Hdp.
    lia. }
  assert (Hw : w = oc * 2 ^ 16 + dp).
  { subst w. unfold constructPacketTypeWithDataPhase, uint32.
    rewrite (Z.mod_small oc) by lia.
    rewrite (Z.mod_small (Z.shiftl oc 16))
      by (rewrite Z.shiftl_mul_pow2; lia).
    rewrite (Z.mod_small dp) by lia.
    apply lor_shiftl_add; lia. }
  repeat apply conj.
  - rewrite Hw. symmetry. apply lor_shiftl_add; lia.
  - lia.
  - lia.
  - rewrite Z.shiftr_div_pow2 by lia. rewrite Hw.
    rewrite Z.div_add_l by lia. rewrite Z.div_small by lia. lia.
  - change 0xFFFF with (Z.ones 16). rewrite Z.land_ones by lia.
    rewrite Hw, Z.add_comm, Z.mod_add by lia. apply Z.mod_small; lia.
  - rewrite Hw. cbn [PutUint app].
    change (2 ^ 16) with 65536 in *.
    assert (E1 : (oc * 65536 + dp) / 256 = oc * 256)
      by (Z.div_mod_to_equations; lia).
    assert (E2 : oc * 256 / 256 = oc) by (apply Z.div_mul; lia).
    assert (E3 : dp / 256 = 0) by (apply Z.div_small; lia).
    assert (M1 : (oc * 65536 + dp) mod 256 = dp mod 256)
      by (Z.div_mod_to_equations; lia).
    assert (M2 : (oc * 256) mod 256 = 0 mod 256)
      by (rewrite Z.mod_mul by lia; reflexivity).
    rewrite M1, E1, M2, E2, E3. reflexivity.
Qed.

Lemma fuji_folding_identity_witness :
  let w := constructPacketTypeWithDataPhase 0x1003 DP_DataOut in
  w = Z.lor (Z.shiftl 0x1003 16) DP_DataOut
  /\ is_uint32 w
  /\ Z.shiftr w 16 = 0x1003
  /\ Z.land w 0xFFFF = DP_DataOut
  /\ PutUint 4 w = PutUint 2 DP_DataOut ++ PutUint 2 0x1003.
Proof.
  apply (fuji_folding_identity 0x1003 DP_DataOut).
  - unfold is_uint16. lia.
  - simpl. auto.
Defined.

(** The frame of scenario D begins with the folded word of
    [OC_GetDevicePropDesc] in the data-out phase. *)
Example folded_GetDevicePropDesc :
  PutUint 4 (constructPacketTypeWithDataPhase 0x1003 DP_DataOut)
  = [0x02; 0x00; 0x03; 0x10].
Proof. reflexivity. Qed.

(** ** Transaction identifiers *)

Lemma transactionId_increments (n : nat) (c : Client) :
  transactionId (increments (S n) c)
  = nextTransactionId (transactionId (increments n c)).
Proof. reflexivity. Qed.

Lemma increments_range (n : nat) (c : Client) :
  transactionId c = 0 ->
  0 <= transactionId (increments n c) <= 0xFFFFFFFE.
Proof.
  intros H0. induction n as [| n IH].
  - simpl. lia.
  - rewrite transactionId_increments. unfold nextTransactionId, uint32.
    destruct (Z.eqb_spec (transactionId (increments n c)) 0xFFFFFFFE).
    + lia.
    + rewrite Z.mod_small by lia. lia.
Qed.

(** C3.  Starting from a client at rest, every call of the increment
    routine returns the identifier it stores, which is the previous one
    plus one, or 1 after 0xFFFFFFFE, and is never 0. *)
Theorem incrementTransactionId_monotonic (c : Client) (n : nat) :
  transactionId c = 0 ->
  let before := transactionId (increments n c) in
  let after := snd (incrementTransactionId (increments n c)) in
  after = transactionId (fst (incrementTransactionId (increments n c)))
  /\ after = (if before =? 0xFFFFFFFE then 1 else before + 1)
  /\ after <> 0
  /\ 1 <= after <= 0xFFFFFFFE.
Proof.
  intros H0 before after.
  pose proof (increments_range n c H0) as Hr. fold before in Hr.
  assert (Ha : after = nextTransactionId before) by reflexivity.
  assert (Hn : nextTransactionId before
               = if before =? 0xFFFFFFFE then 1 else before + 1).
  { unfold nextTransactionId, uint32.
    destruct (Z.eqb_spec before 0xFFFFFFFE); [reflexivity | ].
    apply Z.mod_small. lia. }
  repeat apply conj.
  - reflexivity.
  - congruence.
  - rewrite Ha, Hn. destruct (Z.eqb_spec before 0xFFFFFFFE); lia.
  - rewrite Ha, Hn. destruct (Z.eqb_spec before 0xFFFFFFFE); lia.
  - rewrite Ha, Hn. destruct (Z.eqb_spec before 0xFFFFFFFE); lia.
Qed.

Lemma incrementTransactionId_monotonic_witness :
  let before := transactionId (increments 2 testClient) in
  let after := snd (incrementTransactionId (increments 2 testClient)) in
  after = transactionId (fst (incrementTransactionId (increments 2 testClient)))
  /\ after = (if before =? 0xFFFFFFFE then 1 else before + 1)
  /\ after <> 0
  /\ 1 <= after <= 0xFFFFFFFE.
Proof.
  apply (incrementTransactionId_monotonic testClient 2). reflexivity.
Defined.

(** The model passes the repository's test of the routine. *)
Example nextTransactionId_passes_test :
  TestClient_incrementTransactionId nextTransactionId = true.
Proof. reflexivity. Qed.

(** C4, as stated, fails: one call at 0xFFFFFFFE already yields 1, not
    0xFFFFFFFF. *)
Lemma increment_at_wrap_is_not_0xFFFFFFFF :
  ~ (snd (incrementTransactionId (set_transactionId 0xFFFFFFFE testClient))
     = 0xFFFFFFFF).
Proof. vm_compute. discriminate. Qed.

(** No successor function that passes [TestClient_incrementTransactionId]
    yields 0xFFFFFFFF at 0xFFFFFFFE. *)
Lemma test_excludes_0xFFFFFFFF (next : Z -> Z) :
  TestClient_incrementTransactionId next = true ->
  next 0xFFFFFFFE <> 0xFFFFFFFF.
Proof.
  unfold TestClient_incrementTransactionId. intros H.
  apply andb_prop in H. destruct H as [_ H].
  apply Z.eqb_eq in H. rewrite H. discriminate.
Qed.

(** C4, amended.  At 0xFFFFFFFE one call of the increment routine yields
    0x00000001, passing over both 0xFFFFFFFF and 0, and the next call
    yields 2. *)
Theorem incrementTransactionId_wrap (c : Client) :
  transactionId c = 0xFFFFFFFE ->
  let first := incrementTransactionId c in
  let second := incrementTransactionId (fst first) in
  snd first = 0x00000001 /\ transactionId (fst first) = 0x00000001
  /\ snd second = 0x00000002 /\ transactionId (fst second) = 0x00000002.
Proof.
  intros H. unfold incrementTransactionId. simpl. rewrite H.
  repeat apply conj; reflexivity.
Qed.

Lemma incrementTransactionId_wrap_witness :
  let first := incrementTransactionId (set_transactionId 0xFFFFFFFE testClient) in
  let second := incrementTransactionId (fst first) in
  snd first = 0x00000001 /\ transactionId (fst first) = 0x00000001
  /\ snd second = 0x00000002 /\ transactionId (fst second) = 0x00000002.
Proof.
  apply (incrementTransactionId_wrap (set_transactionId 0xFFFFFFFE testClient)).
  reflexivity.
Defined.

(** ** Slices *)

Lemma index_in_range {A : Type} (s : list A) (i : Z) :
  0 <= i < len s -> exists x, index s i = Returns x.
Proof.
  unfold index, len. intros H.
  destruct (nth_error s (Z.to_nat i)) as [x |] eqn:E.
  - exists x. destruct (Z.leb_spec 0 i); [reflexivity | lia].
  - apply nth_error_None in E. lia.
Qed.

Lemma index_out_of_range {A : Type} (s : list A) (i : Z) :
  len s <= i -> index s i = Panics_index_out_of_range i (len s).
Proof.
  unfold index, len. intros H.
  destruct (nth_error s (Z.to_nat i)) as [x |] eqn:E; [ | reflexivity].
  assert (nth_error s (Z.to_nat i) = None) as E' by (apply nth_error_None; lia).
  congruence.
Qed.

Lemma assign_index_nil {A : Type} (i : Z) (x : A) :
  assign_index [] i x = Panics_index_out_of_range i 0.
Proof.
  unfold assign_index. destruct (i <? 0); reflexivity.
Qed.

Lemma copy_param_guarded (params : list Z) (i : Z)
  (store : Z -> OperationRequest -> OperationRequest) (or : OperationRequest) :
  0 <= i ->
  exists or', copy_param (len params >=? i + 1) params i store or = Returns or'.
Proof.
  intros Hi. unfold copy_param.
  destruct (len params >=? i + 1) eqn:E.
  - destruct (index_in_range params i) as [x Hx]; [lia | ].
    rewrite Hx. eexists. reflexivity.
  - eexists. reflexivity.
Qed.

(** ** The raw operation request *)

(** With five parameters the routine reads [params[5]] and panics. *)
Lemma GenericOperationRequestRaw_five_params
  (net : Network) (c : Client) (code p1 p2 p3 p4 p5 : Z) :
  GenericOperationRequestRaw net c code [p1; p2; p3; p4; p5]
  = Panics_index_out_of_range 5 5.
Proof. reflexivity. Qed.

(** With any other number of parameters the copy goes through; the routine
    then returns the error of a failed send, or, the request sent, panics
    on [raw[0]], [raw] being nil. *)
Lemma GenericOperationRequestRaw_other_params
  (net : Network) (c : Client) (code : Z) (params : list Z) :
  len params <> 5 ->
  exists or,
    GenericOperationRequestRaw net c code params
    = match
        snd (SendPacketToCmdDataConn net c
               (OperationRequestPacket DP_NoDataOrDataIn or))
      with
      | Some err =>
          Returns
            (fst (SendPacketToCmdDataConn net c
                    (OperationRequestPacket DP_NoDataOrDataIn or)),
             [], Some err)
      | None => Panics_index_out_of_range 0 0
      end.
Proof.
  intros H5. unfold GenericOperationRequestRaw.
  repeat match goal with
         | |- context [copy_param (len params >=? ?k) params ?i ?st ?o] =>
             let or' := fresh "or" in
             let E := fresh "E" in
             destruct (copy_param_guarded params i st o) as [or' E];
             [lia | ];
             change (i + 1) with k in E; rewrite E; cbn [obind]
         end.
  destruct (Z.eqb_spec (len params) 5) as [E5 | _]; [contradiction | ].
  cbn [copy_param obind].
  match goal with
  | |- context [OperationRequestPacket _ ?o] => exists o
  end.
  destruct (SendPacketToCmdDataConn net c _) as [c' [err |]].
  - reflexivity.
  - cbn [snd fst]. destruct (ReadRawFromCmdDataConn net c');
      rewrite assign_index_nil; reflexivity.
Qed.

Lemma len_five {A : Type} (s : list A) :
  len s = 5 -> exists a b c d e, s = [a; b; c; d; e].
Proof.
  unfold len. intros H.
  destruct s as [| a [| b [| c [| d [| e [| f rest]]]]]]; simpl in H; try lia.
  exists a, b, c, d, e. reflexivity.
Qed.

(** C5 fails on the code.  [GenericOperationRequestRaw] never returns
    without an error: with five parameters it panics on [params[5]]; with
    any other number it returns the error of a failed send with a nil
    result, or panics on [raw[0]]. *)
Theorem GenericOperationRequestRaw_never_succeeds
  (net : Network) (c : Client) (code : Z) (params : list Z) :
  match GenericOperationRequestRaw net c code params with
  | Returns (_, raw, err) => raw = [] /\ err <> None /\ len params <> 5
  | Panics_index_out_of_range i n =>
      (i = 5 /\ n = 5 /\ len params = 5) \/ (i = 0 /\ n = 0 /\ len params <> 5)
  end.
Proof.
  destruct (Z.eq_dec (len params) 5) as [E5 | N5].
  - destruct (len_five params E5) as (p1 & p2 & p3 & p4 & p5 & ->).
    rewrite GenericOperationRequestRaw_five_params. left. auto.
  - destruct (GenericOperationRequestRaw_other_params net c code params N5)
      as [or E].
    rewrite E.
    destruct (SendPacketToCmdDataConn net c _) as [c' [err |]]; cbn [fst snd].
    + repeat apply conj; [reflexivity | discriminate | assumption].
    + right. auto.
Qed.

(** The two failing inputs, evaluated: five parameters on any client, and
    no parameter on a client connected to a responder that answers. *)
Example GenericOperationRequestRaw_failing_inputs :
  GenericOperationRequestRaw (mockResponder okAnswer) testClient 0x1001
    [1; 2; 3; 4; 5]
  = Panics_index_out_of_range 5 5
  /\ GenericOperationRequestRaw (mockResponder okAnswer)
       (set_commandDataConn (Some (freshConn (CommandDataAddress testClient)))
          testClient) 0x1001 []
     = Panics_index_out_of_range 0 0.
Proof. split; reflexivity. Qed.

(** ** The handshake *)

Lemma GenericInitCommandDataConn_cases
  (db ip : FailReason) (net : Network) (c : Client) :
  let '(c', _, err) := GenericInitCommandDataConn db ip net c in
  match cmdDataReply net c with
  | Some (conn, InitCommandAckPacket n g name pv) =>
      err = None
      /\ c' = set_responder (Responder.identify g name pv (responder c))
                (set_connectionNumber n (set_commandDataConn (Some conn) c))
  | Some (conn, res) =>
      err = Some (rejection db ip res)
      /\ c' = set_commandDataConn (Some (Conn_Close conn)) c
  | None =>
      err <> None /\ exists k, c' = set_commandDataConn k c
  end.
Proof.
  unfold GenericInitCommandDataConn, cmdDataReply, WaitForPacketFromCmdDataConn,
    SendPacketToCmdDataConn, sendPacketTo, waitForPacketFrom,
    Client_newCmdDataInitPacket, configureTcpConn, closeCommandDataConn.
  cbn [commandDataConn set_commandDataConn option_map vendorExtensions initiator].
  destruct (RetryDialer net (CommandDataAddress c)) as [conn | e].
  2: { split; [discriminate | eexists; reflexivity]. }
  cbn [commandDataConn set_commandDataConn option_map vendorExtensions initiator].
  destruct (writes net (Conn_SetKeepAlive conn) _) as [e |].
  { split; [discriminate | eexists; reflexivity]. }
  cbn [commandDataConn set_commandDataConn option_map vendorExtensions initiator].
  destruct (reads net _) as [res | e].
  2: { split; [discriminate | eexists; reflexivity]. }
  destruct res; cbn; split; reflexivity.
Qed.

Lemma GenericInitEventConn_cases
  (db ip : FailReason) (net : Network) (c : Client) :
  let '(c', _, err) := GenericInitEventConn db ip net c in
  match eventReply net c with
  | Some (conn, InitEventAckPacket) =>
      err = None
      /\ c' = set_transactionId (nextTransactionId (transactionId c))
                (set_eventConn (Some conn) c)
  | Some (conn, res) =>
      err = Some (rejection db ip res)
      /\ c' = set_eventConn (Some (Conn_Close conn)) c
  | None =>
      (exists k, c' = set_eventConn k c)
      /\ (err = None -> Client_newEventInitPacket c = None)
  end.
Proof.
  unfold GenericInitEventConn, eventReply, WaitForPacketFromEventConn,
    SendPacketToEventConn, sendPacketTo, waitForPacketFrom,
    Client_newEventInitPacket, configureTcpConn, closeEventConn,
    incrementTransactionId.
  cbn [eventConn set_eventConn option_map vendorExtensions connectionNumber].
  destruct (RetryDialer net (EventAddress c)) as [conn | e].
  2: { split; [eexists; reflexivity | discriminate]. }
  cbn [eventConn set_eventConn option_map vendorExtensions connectionNumber].
  destruct (newEventInitPacket (vendorExtensions c) (connectionNumber c))
    as [ierp |].
  2: { split; [eexists; reflexivity | reflexivity]. }
  destruct (writes net (Conn_SetKeepAlive conn) ierp) as [e |].
  { split; [eexists; reflexivity | discriminate]. }
  cbn [eventConn set_eventConn option_map vendorExtensions connectionNumber].
  destruct (reads net _) as [res | e].
  2: { split; [eexists; reflexivity | discriminate]. }
  destruct res; cbn; split; reflexivity.
Qed.

Lemma GenericInitStreamerConn_frame (net : Network) (c : Client) :
  exists k, fst (fst (GenericInitStreamerConn net c)) = set_streamConn k c.
Proof.
  unfold GenericInitStreamerConn, configureTcpConn.
  destruct (RetryDialer net (StreamerAddress c)); eexists; reflexivity.
Qed.

Lemma GenericGetDeviceInfo_frame
  (net : Network) (req : OperationRequest) (c : Client) :
  exists k, fst (GenericGetDeviceInfo net req c) = set_commandDataConn k c.
Proof.
  unfold GenericGetDeviceInfo, SendPacketToCmdDataConn, sendPacketTo,
    WaitForPacketFromCmdDataConn, waitForPacketFrom.
  destruct (commandDataConn c) as [conn |]; cbn.
  - destruct (writes net conn _); cbn.
    + eexists; reflexivity.
    + destruct (reads net _) as [res | e]; [destruct res | ];
        eexists; reflexivity.
  - eexists; reflexivity.
Qed.

Lemma GenericOperationRequestRaw_frame
  (net : Network) (c : Client) (code : Z) (params : list Z) :
  match GenericOperationRequestRaw net c code params with
  | Returns (c', _, _) => exists k, c' = set_commandDataConn k c
  | Panics_index_out_of_range _ _ => True
  end.
Proof.
  destruct (Z.eq_dec (len params) 5) as [E5 | N5].
  - destruct (len_five params E5) as (p1 & p2 & p3 & p4 & p5 & ->).
    rewrite GenericOperationRequestRaw_five_params. exact I.
  - destruct (GenericOperationRequestRaw_other_params net c code params N5)
      as [or E].
    rewrite E. unfold SendPacketToCmdDataConn, sendPacketTo.
    destruct (commandDataConn c) as [conn |]; cbn.
    + destruct (writes net conn _); cbn; [eexists; reflexivity | exact I].
    + eexists; reflexivity.
Qed.

Lemma identity_set_commandDataConn (k : option Conn) (c : Client) :
  identity (set_commandDataConn k c) = identity c.
Proof. reflexivity. Qed.

Lemma identity_set_eventConn (k : option Conn) (c : Client) :
  identity (set_eventConn k c) = identity c.
Proof. reflexivity. Qed.

Lemma identity_set_streamConn (k : option Conn) (c : Client) :
  identity (set_streamConn k c) = identity c.
Proof. reflexivity. Qed.

Lemma identity_set_transactionId (t : Z) (c : Client) :
  identity (set_transactionId t c) = identity c.
Proof. reflexivity. Qed.

Lemma GenericInitEventConn_identity
  (db ip : FailReason) (net : Network) (c : Client) :
  identity (fst (fst (GenericInitEventConn db ip net c))) = identity c.
Proof.
  pose proof (GenericInitEventConn_cases db ip net c) as H.
  destruct (GenericInitEventConn db ip net c) as [[c' logged] err].
  cbn [fst].
  destruct (eventReply net c) as [[conn res] |].
  - destruct res; destruct H as [_ ->]; reflexivity.
  - destruct H as [[k ->] _]. reflexivity.
Qed.

(** C7.  On an [InitCommandAckPacket], [GenericInitCommandDataConn] returns
    nil and the client differs from before in the connection, the
    connection number and the responder's GUID, friendly name and protocol
    version, which are those of the ack.  On any other packet it returns
    the translated failure or "unexpected packet", the identity is as
    before and the connection is closed.  When no packet is read it returns
    the error met.  No other generic routine, nor the increment
    routine, changes the identity. *)
Theorem handshake_records_identity
  (db ip : FailReason) (net : Network) (req : OperationRequest) (c : Client)
  (code : Z) (params : list Z) :
  (let '(c', _, err) := GenericInitCommandDataConn db ip net c in
   match cmdDataReply net c with
   | Some (conn, InitCommandAckPacket n g name pv) =>
       err = None
       /\ identity c' = (n, g, name, pv)
       /\ c' = set_responder (Responder.identify g name pv (responder c))
                 (set_connectionNumber n (set_commandDataConn (Some conn) c))
   | Some (conn, res) =>
       err = Some (rejection db ip res)
       /\ identity c' = identity c
       /\ option_map Closed (commandDataConn c') = Some true
       /\ c' = set_commandDataConn (Some (Conn_Close conn)) c
   | None => err <> None /\ identity c' = identity c
   end)
  /\ identity (fst (fst (GenericInitEventConn db ip net c))) = identity c
  /\ identity (fst (fst (GenericInitStreamerConn net c))) = identity c
  /\ identity (fst (GenericGetDeviceInfo net req c)) = identity c
  /\ identity (fst (incrementTransactionId c)) = identity c
  /\ match GenericOperationRequestRaw net c code params with
     | Returns (c', _, _) => identity c' = identity c
     | Panics_index_out_of_range _ _ => True
     end.
Proof.
  repeat apply conj.
  - pose proof (GenericInitCommandDataConn_cases db ip net c) as H.
    destruct (GenericInitCommandDataConn db ip net c) as [[c' logged] err].
    destruct (cmdDataReply net c) as [[conn res] |].
    + destruct res; destruct H as [-> ->]; repeat apply conj; reflexivity.
    + destruct H as [Herr [k ->]]. split; [assumption | reflexivity].
  - apply GenericInitEventConn_identity.
  - destruct (GenericInitStreamerConn_frame net c) as [k ->]. reflexivity.
  - destruct (GenericGetDeviceInfo_frame net req c) as [k ->]. reflexivity.
  - reflexivity.
  - pose proof (GenericOperationRequestRaw_frame net c code params) as H.
    destruct (GenericOperationRequestRaw net c code params)
      as [[[c' raw] err] | i n]; [ | exact I].
    destruct H as [k ->]. reflexivity.
Qed.

(** The two mock responders of the tests: the handshake on [okPort]
    records connection number 1 and the responder's identity; on
    [failPort] it returns "rejected: device not allowed", leaves the
    identity alone and closes the connection. *)
Example GenericInitCommandDataConn_ok :
  let '(c', _, err) :=
    GenericInitCommandDataConn 0x2019 0x201D (mockResponder okAnswer) testClient in
  err = None
  /\ identity c'
     = (1,
        [0x7c; 0x94; 0x6a; 0xe4; 0x6d; 0x6a; 0x45; 0x89;
         0x90; 0xed; 0xd0; 0x59; 0xf8; 0xcc; 0x42; 0x6b],
        [0x72; 0x65; 0x6d; 0xf4; 0x74; 0x65], 0x00010000)
  /\ option_map Closed (commandDataConn c') = Some false
  /\ transactionId c' = 0.
Proof. repeat apply conj; reflexivity. Qed.

Example GenericInitCommandDataConn_fail :
  let '(c', _, err) :=
    GenericInitCommandDataConn 0x2019 0x201D (mockResponder failAnswer) testClient in
  err = Some (errors_New "rejected: device not allowed")
  /\ identity c' = identity testClient
  /\ option_map Closed (commandDataConn c') = Some true
  /\ transactionId c' = 0.
Proof. repeat apply conj; reflexivity. Qed.

Lemma GenericInitEventConn_transactionId
  (db ip : FailReason) (net : Network) (c : Client) :
  transactionId (fst (fst (GenericInitEventConn db ip net c)))
  = (if eventAcknowledged net c then nextTransactionId (transactionId c)
     else transactionId c)
  /\ (eventAcknowledged net c = true ->
      snd (GenericInitEventConn db ip net c) = None)
  /\ (snd (GenericInitEventConn db ip net c) = None ->
      eventAcknowledged net c = true \/ Client_newEventInitPacket c = None).
Proof.
  pose proof (GenericInitEventConn_cases db ip net c) as H.
  unfold eventAcknowledged.
  destruct (GenericInitEventConn db ip net c) as [[c' logged] err].
  cbn [fst snd].
  destruct (eventReply net c) as [[conn res] |].
  - destruct res; destruct H as [-> ->];
      (repeat apply conj;
       [reflexivity | intros; try reflexivity; discriminate
       | intros; try discriminate; left; reflexivity]).
  - destruct H as [[k ->] Hnil].
    repeat apply conj; [reflexivity | discriminate | intros E; right; auto].
Qed.

Lemma GenericInitCommandDataConn_vendorExtensions
  (db ip : FailReason) (net : Network) (c : Client) :
  let c' := fst (fst (GenericInitCommandDataConn db ip net c)) in
  vendorExtensions c' = vendorExtensions c.
Proof.
  pose proof (GenericInitCommandDataConn_cases db ip net c) as H.
  destruct (GenericInitCommandDataConn db ip net c) as [[c' logged] err].
  cbn [fst].
  destruct (cmdDataReply net c) as [[conn res] |].
  - destruct res; destruct H as [_ ->]; reflexivity.
  - destruct H as [_ [k ->]]. reflexivity.
Qed.

Lemma GenericInitCommandDataConn_transactionId
  (db ip : FailReason) (net : Network) (c : Client) :
  transactionId (fst (fst (GenericInitCommandDataConn db ip net c)))
  = transactionId c.
Proof.
  pose proof (GenericInitCommandDataConn_cases db ip net c) as H.
  destruct (GenericInitCommandDataConn db ip net c) as [[c' logged] err].
  cbn [fst].
  destruct (cmdDataReply net c) as [[conn res] |].
  - destruct res; destruct H as [_ ->]; reflexivity.
  - destruct H as [_ [k ->]]. reflexivity.
Qed.

(** C8.  From a client at rest, the command/data handshake leaves the
    transaction ID at 0; the event handshake then leaves it at 1 exactly
    when it reads an [InitEventAckPacket] -- the one path on which it
    increments, and on which it returns nil -- and at 0 otherwise.  With
    the generic init packet, the event handshake returns nil exactly when
    the identifier is 1. *)
Theorem handshake_transactionId
  (db ip : FailReason) (net : Network) (c : Client) :
  transactionId c = 0 ->
  let c1 := fst (fst (GenericInitCommandDataConn db ip net c)) in
  let run2 := GenericInitEventConn db ip net c1 in
  let c2 := fst (fst run2) in
  transactionId c1 = 0
  /\ transactionId c2 = (if eventAcknowledged net c1 then 1 else 0)
  /\ (transactionId c2 = 1 <-> eventAcknowledged net c1 = true)
  /\ (eventAcknowledged net c1 = true -> snd run2 = None)
  /\ transactionId c2
     = (if eventAcknowledged net c1
        then snd (incrementTransactionId c1) else transactionId c1)
  /\ (newEventInitPacket (vendorExtensions c) = NewInitEventRequestPacket ->
      (snd run2 = None <-> transactionId c2 = 1)).
Proof.
  intros H0 c1 run2 c2.
  assert (H1 : transactionId c1 = 0).
  { subst c1. rewrite GenericInitCommandDataConn_transactionId. exact H0. }
  destruct (GenericInitEventConn_transactionId db ip net c1)
    as (Ht & Herr & Hnil).
  fold run2 in Ht, Herr, Hnil. fold c2 in Ht.
  assert (H2 : transactionId c2 = (if eventAcknowledged net c1 then 1 else 0)).
  { rewrite Ht, H1. destruct (eventAcknowledged net c1); reflexivity. }
  repeat apply conj.
  - exact H1.
  - exact H2.
  - rewrite H2. destruct (eventAcknowledged net c1); intros; congruence.
  - rewrite H2. destruct (eventAcknowledged net c1); intros; congruence.
  - exact Herr.
  - rewrite Ht. reflexivity.
  - intros Hgen. split.
    + intros E. destruct (Hnil E) as [Ha | Hn].
      * rewrite H2, Ha. reflexivity.
      * unfold Client_newEventInitPacket in Hn. subst c1.
        rewrite GenericInitCommandDataConn_vendorExtensions, Hgen in Hn.
        discriminate Hn.
    + intros E. apply Herr. rewrite H2 in E.
      destruct (eventAcknowledged net c1); [reflexivity | discriminate E].
Qed.

Lemma handshake_transactionId_witness :
  let c1 :=
    fst (fst (GenericInitCommandDataConn 0x2019 0x201D (mockResponder okAnswer)
                testClient)) in
  let run2 := GenericInitEventConn 0x2019 0x201D (mockResponder okAnswer) c1 in
  transactionId c1 = 0
  /\ transactionId (fst (fst run2)) = 1
  /\ snd run2 = None.
Proof.
  pose proof (handshake_transactionId 0x2019 0x201D (mockResponder okAnswer)
                testClient eq_refl) as H.
  cbv zeta in H. destruct H as (H1 & H2 & _ & H4 & _ & _).
  repeat apply conj.
  - exact H1.
  - rewrite H2. reflexivity.
  - apply H4. reflexivity.
Defined.

(** The handshake against the rejecting mock leaves the identifier at 0. *)
Example handshake_transactionId_fail :
  let c1 :=
    fst (fst (GenericInitCommandDataConn 0x2019 0x201D (mockResponder failAnswer)
                testClient)) in
  let run2 := GenericInitEventConn 0x2019 0x201D (mockResponder failAnswer) c1 in
  transactionId (fst (fst run2)) = 0
  /\ snd run2 = Some (errors_New "rejected: device not allowed").
Proof. split; reflexivity. Qed.

(** ** Vendors without an event init packet *)

Lemma loadVendorExtensions_fuji
  (VE : Z) (newCmd : UUID -> runes -> Packet) (newEvent : Z -> option Packet)
  (c : Client) :
  ResponderVendor c = VE ->
  let ve := vendorExtensions (loadVendorExtensions VE newCmd newEvent c) in
  eventInit ve = GenericInitEventConn_fn /\ newEventInitPacket ve = newEvent.
Proof.
  intros H. unfold loadVendorExtensions. cbn.
  rewrite H, Z.eqb_refl. split; reflexivity.
Qed.

(** C10.  When the hook [newEventInitPacket] returns nil and the event
    connection is dialled, [GenericInitEventConn] returns nil, writes
    nothing to the connection, and leaves every field of the client but
    [eventConn] as it was: the transaction ID is not incremented. *)
Theorem GenericInitEventConn_without_init_packet
  (db ip : FailReason) (net : Network) (c : Client) (conn : Conn) :
  RetryDialer net (EventAddress c) = Ok conn ->
  Client_newEventInitPacket c = None ->
  let '(c', logged, err) := GenericInitEventConn db ip net c in
  err = None
  /\ c' = set_eventConn (Some (Conn_SetKeepAlive conn)) c
  /\ option_map Written (eventConn c') = Some (Written conn)
  /\ transactionId c' = transactionId c
  /\ logged = ["No further event channel init required."].
Proof.
  intros Hdial Hhook.
  unfold GenericInitEventConn. rewrite Hdial.
  unfold configureTcpConn. cbn [eventConn set_eventConn option_map].
  unfold Client_newEventInitPacket in *.
  cbn [vendorExtensions connectionNumber set_eventConn].
  rewrite Hhook.
  repeat apply conj; reflexivity.
Qed.

Lemma GenericInitEventConn_without_init_packet_witness :
  let '(c', logged, err) :=
    GenericInitEventConn 0x2019 0x201D (mockResponder okAnswer)
      noEventInitClient in
  err = None
  /\ c' = set_eventConn
            (Some (Conn_SetKeepAlive (freshConn (EventAddress noEventInitClient))))
            noEventInitClient
  /\ option_map Written (eventConn c') = Some []
  /\ transactionId c' = transactionId noEventInitClient
  /\ logged = ["No further event channel init required."].
Proof.
  exact (GenericInitEventConn_without_init_packet 0x2019 0x201D
           (mockResponder okAnswer) noEventInitClient
           (freshConn (EventAddress noEventInitClient)) eq_refl eq_refl).
Defined.

(** Whether or not the dial succeeds, a nil hook means no increment. *)
Lemma GenericInitEventConn_nil_hook_transactionId
  (db ip : FailReason) (net : Network) (c : Client) :
  Client_newEventInitPacket c = None ->
  transactionId (fst (fst (GenericInitEventConn db ip net c)))
  = transactionId c.
Proof.
  intros Hhook.
  destruct (GenericInitEventConn_transactionId db ip net c) as (-> & _ & _).
  unfold eventAcknowledged, eventReply.
  unfold Client_newEventInitPacket in Hhook. rewrite Hhook.
  destruct (RetryDialer net (EventAddress c)); reflexivity.
Qed.

(** ** Little-endian integers *)

Lemma PutUint_length (n : nat) (v : Z) : List.length (PutUint n v) = n.
Proof.
  revert v. induction n as [| n IH]; intros v; simpl; [ | rewrite IH]; reflexivity.
Qed.

Lemma Uint_PutUint_mod (n : nat) (v : Z) :
  Uint (PutUint n v) = v mod 256 ^ Z.of_nat n.
Proof.
  revert v. induction n as [| n IH]; intros v.
  - simpl. rewrite Z.mod_1_r. reflexivity.
  - cbn [PutUint Uint]. rewrite IH.
    rewrite Nat2Z.inj_succ, Z.pow_succ_r by lia.
    rewrite Z.rem_mul_r by lia. reflexivity.
Qed.

Lemma Uint_PutUint (n : nat) (v : Z) :
  0 <= v < 256 ^ Z.of_nat n -> Uint (PutUint n v) = v.
Proof.
  intros H. rewrite Uint_PutUint_mod. apply Z.mod_small. exact H.
Qed.

Lemma PutUint_bytes (n : nat) (v : Z) :
  Forall (fun b => 0 <= b < 256) (PutUint n v).
Proof.
  revert v. induction n as [| n IH]; intros v; simpl; constructor.
  - apply Z.mod_pos_bound. lia.
  - apply IH.
Qed.

Lemma take_fixed_app (n : nat) (x rest : bytes) :
  List.length x = n -> take_fixed n (x ++ rest) = Ok (x, rest).
Proof.
  intros H. unfold take_fixed.
  destruct (Nat.ltb_spec (List.length (x ++ rest)) n) as [Hlt | _].
  - rewrite length_app in Hlt. lia.
  - subst n. rewrite firstn_app, Nat.sub_diag, firstn_all, firstn_O, app_nil_r.
    rewrite skipn_app, Nat.sub_diag, skipn_all. reflexivity.
Qed.

(** ** UTF-16 *)

Lemma utf16_EncodeRune_eq (v : Z) :
  surrSelf <= v <= maxRune ->
  utf16_EncodeRune v
  = (surr1 + (v - surrSelf) / 1024, surr2 + (v - surrSelf) mod 1024).
Proof.
  unfold utf16_EncodeRune, surrSelf, maxRune. intros H.
  change 0x3ff with (Z.ones 10).
  rewrite !Z.land_ones, Z.shiftr_div_pow2 by lia.
  change (2 ^ 10) with 1024.
  rewrite (Z.mod_small ((v - 65536) / 1024))
    by (split; [apply Z.div_pos; lia | apply Z.div_lt_upper_bound; lia]).
  reflexivity.
Qed.

Lemma utf16_DecodeRune_eq (a b : Z) :
  0 <= b < 1024 ->
  utf16_DecodeRune (surr1 + a) (surr2 + b) = a * 1024 + b + surrSelf.
Proof.
  intros H. unfold utf16_DecodeRune.
  replace (surr1 + a - surr1) with a by lia.
  replace (surr2 + b - surr2) with b by lia.
  rewrite lor_shiftl_add by (change (2 ^ 10) with 1024; lia).
  reflexivity.
Qed.

Lemma utf16_Encode_units (s : runes) :
  Forall is_string_rune s -> Forall is_unit (utf16_Encode s).
Proof.
  unfold is_string_rune, is_unit, surr1, surr3, maxRune.
  induction 1 as [| v s Hv _ IH]; cbn [utf16_Encode]; [constructor | ].
  unfold surr1, surr3, surrSelf, maxRune. zbool; try lia;
    try (constructor; [lia | exact IH]).
  - rewrite utf16_EncodeRune_eq by (unfold surrSelf, maxRune; lia).
    unfold surr1, surr2, surrSelf.
    assert (0 <= (v - 65536) / 1024 < 1024)
      by (split; [apply Z.div_pos; lia | apply Z.div_lt_upper_bound; lia]).
    assert (0 <= (v - 65536) mod 1024 < 1024) by (apply Z.mod_pos_bound; lia).
    repeat constructor; try lia. exact IH.
Qed.

Lemma utf16_Decode_Encode (s : runes) :
  Forall is_string_rune s -> utf16_Decode (utf16_Encode s) = s.
Proof.
  unfold is_string_rune, surr1, surr3, maxRune.
  induction 1 as [| v s Hv _ IH]; cbn [utf16_Encode]; [reflexivity | ].
  unfold surr1, surr3, surrSelf, maxRune. zbool; try lia;
    try (cbn [utf16_Decode]; unfold surr1, surr3; zbool; try lia;
         rewrite IH; reflexivity).
  - rewrite utf16_EncodeRune_eq by (unfold surrSelf, maxRune; lia).
    assert (Ha : 0 <= (v - surrSelf) / 1024 < 1024)
      by (unfold surrSelf; split;
          [apply Z.div_pos; lia | apply Z.div_lt_upper_bound; lia]).
    assert (Hb : 0 <= (v - surrSelf) mod 1024 < 1024)
      by (apply Z.mod_pos_bound; lia).
    pose proof (Z.div_mod (v - surrSelf) 1024) as Hv'.
    set (a := (v - surrSelf) / 1024) in *.
    set (b := (v - surrSelf) mod 1024) in *.
    pose proof (eq_refl : surr1 = 0xd800) as S1.
    pose proof (eq_refl : surr2 = 0xdc00) as S2.
    pose proof (eq_refl : surr3 = 0xe000) as S3.
    cbn [utf16_Decode]. zbool; try lia.
    rewrite utf16_DecodeRune_eq by exact Hb.
    rewrite IH. f_equal. lia.
Qed.

Lemma ReadUnits_PutUnits (us : list Z) (rest : bytes) :
  Forall is_unit us ->
  ReadUnits (flat_map (PutUint 2) (us ++ [0]) ++ rest) = Ok (us, rest).
Proof.
  unfold is_unit.
  induction 1 as [| u us Hu _ IH].
  - reflexivity.
  - cbn [app flat_map PutUint]. cbn [app ReadUnits].
    assert (E : Uint [u mod 256; u / 256 mod 256] = u).
    { cbn [Uint]. pose proof (Z.div_mod u 256).
      rewrite (Z.mod_small (u / 256))
        by (split; [apply Z.div_pos; lia | apply Z.div_lt_upper_bound; lia]).
      lia. }
    rewrite E. destruct (Z.eqb_spec u 0); [lia | ].
    cbn [app flat_map PutUint] in IH. rewrite IH. reflexivity.
Qed.

(** ** Fields and frames *)

Lemma firstn_exact {A : Type} (n : nat) (x y : list A) :
  List.length x = n -> firstn n (x ++ y) = x.
Proof.
  intros <-. rewrite firstn_app, Nat.sub_diag, firstn_all, firstn_O.
  apply app_nil_r.
Qed.

Lemma skipn_exact {A : Type} (n : nat) (x y : list A) :
  List.length x = n -> skipn n (x ++ y) = y.
Proof.
  intros <-. rewrite skipn_app, Nat.sub_diag, skipn_all. reflexivity.
Qed.

Lemma len_app {A : Type} (x y : list A) : len (x ++ y) = len x + len y.
Proof. unfold len. rewrite length_app. lia. Qed.

Lemma len_PutUint (n : nat) (v : Z) : len (PutUint n v) = Z.of_nat n.
Proof. unfold len. rewrite PutUint_length. reflexivity. Qed.

Lemma PutString_terminated (s : runes) :
  PutString s = flat_map (PutUint 2) (utf16_Encode s) ++ [0; 0]
  /\ len (PutString s) = 2 * len (utf16_Encode s) + 2.
Proof.
  unfold PutString. rewrite flat_map_app. split; [reflexivity | ].
  rewrite len_app. change (len (flat_map (PutUint 2) [0])) with 2.
  f_equal. unfold len.
  induction (utf16_Encode s) as [| u us IH]; [reflexivity | ].
  cbn [flat_map]. rewrite length_app, PutUint_length. cbn [List.length]. lia.
Qed.

Lemma unmarshal_field_marshal (f : Field) (rest : bytes) :
  wf_field f -> kind_of f <> KBytes -> kind_of f <> KInterface ->
  unmarshal_field (kind_of f) (marshal_field f ++ rest) = Ok (f, rest).
Proof.
  destruct f as [v | v | v | g | s | b | i];
    cbn [wf_field kind_of marshal_field];
    intros Hwf Hk Hi; unfold unmarshal_field.
  - rewrite take_fixed_app by apply PutUint_length. cbn [bind].
    rewrite Uint_PutUint by exact Hwf. reflexivity.
  - rewrite take_fixed_app by apply PutUint_length. cbn [bind].
    rewrite Uint_PutUint by exact Hwf. reflexivity.
  - rewrite take_fixed_app by apply PutUint_length. cbn [bind].
    rewrite Uint_PutUint by exact Hwf. reflexivity.
  - rewrite take_fixed_app by exact Hwf. reflexivity.
  - unfold PutString.
    rewrite ReadUnits_PutUnits by (apply utf16_Encode_units; exact Hwf).
    cbn [bind]. rewrite utf16_Decode_Encode by exact Hwf. reflexivity.
  - contradiction.
  - contradiction.
Qed.

Lemma unmarshal_fields_marshal (fs : list Field) :
  Forall wf_field fs -> bytes_last (map kind_of fs) ->
  unmarshal_fields (map kind_of fs) (flat_map marshal_field fs) = Ok (fs, []).
Proof.
  induction 1 as [| f fs Hf _ IH]; intros Hlast; [reflexivity | ].
  cbn [map flat_map unmarshal_fields].
  destruct (kind_of f) eqn:Ek;
    try (rewrite <- Ek, unmarshal_field_marshal by (congruence || assumption);
         cbn [bind]; rewrite IH by (cbn [map bytes_last] in Hlast;
                                    rewrite Ek in Hlast; exact Hlast);
         reflexivity).
  - destruct f; try discriminate Ek.
    cbn [map bytes_last] in Hlast. rewrite Ek in Hlast.
    apply map_eq_nil in Hlast. subst fs.
    cbn. rewrite app_nil_r. reflexivity.
  - destruct f as [| | | | | | i]; try discriminate Ek.
    cbn [map bytes_last] in Hlast. rewrite Ek in Hlast.
    apply map_eq_nil in Hlast. subst fs.
    destruct i; try contradiction.
    cbn. rewrite app_nil_r. reflexivity.
Qed.

Lemma populate_Fields (p : Packet) :
  populate (KindOf p) (Fields p) = Ok p.
Proof.
  destruct p as [| | | | | dp r | r | | | | | | |]; try reflexivity;
    destruct r; reflexivity.
Qed.

Lemma PacketTypeOf_uint32 (p : Packet) : is_uint32 (PacketTypeOf p).
Proof. destruct p; vm_compute; split; congruence. Qed.

Lemma inbound_kind (p : Packet) :
  In (PacketTypeOf p) inbound_registry ->
  NewPacketInFromPacketType (PacketTypeOf p) = Ok (KindOf p).
Proof.
  destruct p; intros H; try reflexivity; exfalso;
    unfold inbound_registry in H; cbn in H;
    repeat (destruct H as [H | H]; [discriminate H | ]); exact H.
Qed.

Lemma sendPacket_length (p : Packet) :
  len (sendPacket p) = 8 + fields_size (Fields p)
  /\ len (Payload p) = fields_size (Fields p).
Proof.
  assert (H : len (Payload p) = fields_size (Fields p)).
  { unfold Payload, MarshalLittleEndian, fields_size.
    induction (Fields p) as [| f fs IH]; [reflexivity | ].
    cbn [flat_map map fold_right]. rewrite len_app, IH. reflexivity. }
  split; [ | exact H].
  unfold sendPacket. rewrite !len_app, !len_PutUint, H. lia.
Qed.

Lemma sendPacket_header (p : Packet) :
  len (sendPacket p) < 2 ^ 32 ->
  sendPacket p
  = PutUint 4 (len (sendPacket p)) ++ PutUint 4 (PacketTypeOf p) ++ Payload p
  /\ Uint (firstn 4 (sendPacket p)) = len (sendPacket p)
  /\ Uint (firstn 4 (skipn 4 (sendPacket p))) = PacketTypeOf p.
Proof.
  intros Hlen.
  assert (E : len (sendPacket p) = HeaderSize + len (Payload p)).
  { destruct (sendPacket_length p) as [-> ->]. reflexivity. }
  assert (Hpos : 0 <= len (sendPacket p)) by (unfold len; lia).
  rewrite E in *. unfold sendPacket.
  repeat apply conj.
  - reflexivity.
  - rewrite firstn_exact by apply PutUint_length.
    apply Uint_PutUint. change (256 ^ Z.of_nat 4) with (2 ^ 32). lia.
  - rewrite skipn_exact by apply PutUint_length.
    rewrite firstn_exact by apply PutUint_length.
    apply Uint_PutUint. apply PacketTypeOf_uint32.
Qed.

Lemma readResponse_frame
  (EventLayout : list FieldKind) (p : Packet) (more : bytes) :
  len (sendPacket p) < 2 ^ 32 ->
  readResponse EventLayout (sendPacket p ++ more)
  = (k <- NewPacketInFromPacketType (PacketTypeOf p) ;;
     ' (fs, xs) <- unmarshal_fields (Layout EventLayout k) (Payload p) ;;
     q <- populate k fs ;;
     Ok (q, xs, more)).
Proof.
  intros Hlen.
  destruct (sendPacket_header p Hlen) as (Hsp & HL & Hpt).
  destruct (sendPacket_length p) as [Hn Hpay].
  assert (Hh : List.length (PutUint 4 (len (sendPacket p))
                            ++ PutUint 4 (PacketTypeOf p)) = 8%nat)
    by (rewrite length_app, !PutUint_length; reflexivity).
  assert (Hr : sendPacket p ++ more
               = (PutUint 4 (len (sendPacket p)) ++ PutUint 4 (PacketTypeOf p))
                 ++ (Payload p ++ more))
    by (rewrite Hsp at 1; rewrite <- !app_assoc; reflexivity).
  assert (Hp : len (sendPacket p) - HeaderSize = len (Payload p))
    by (unfold HeaderSize; lia).
  unfold readResponse.
  destruct (Z.ltb_spec (len (sendPacket p ++ more)) HeaderSize) as [Hlt | _].
  { rewrite len_app in Hlt. unfold HeaderSize, len in *. lia. }
  rewrite Hr. cbn [bind].
  rewrite (firstn_exact 8), (skipn_exact 8) by exact Hh.
  rewrite (firstn_exact 4), (skipn_exact 4) by apply PutUint_length.
  rewrite !Uint_PutUint
    by (first [apply PacketTypeOf_uint32
              | change (256 ^ Z.of_nat 4) with (2 ^ 32); unfold len in *; lia]).
  cbv zeta.
  destruct (Z.ltb_spec (len (sendPacket p)) HeaderSize) as [Hlt | _].
  { unfold HeaderSize, len in *. lia. }
  rewrite Hp.
  destruct (Z.ltb_spec (len (Payload p ++ more)) (len (Payload p))) as [Hlt | _].
  { rewrite len_app in Hlt. unfold len in Hlt. lia. }
  unfold len at 1 2. rewrite Nat2Z.id.
  rewrite firstn_exact, skipn_exact by reflexivity.
  reflexivity.
Qed.

Lemma readResponse_sendPacket
  (EventLayout : list FieldKind) (p : Packet) (more : bytes) :
  wf_packet EventLayout p ->
  In (PacketTypeOf p) inbound_registry ->
  len (sendPacket p) < 2 ^ 32 ->
  readResponse EventLayout (sendPacket p ++ more) = Ok (p, [], more).
Proof.
  intros (Hwf & Hlay & Hlast) Hin Hlen.
  rewrite readResponse_frame by exact Hlen.
  rewrite inbound_kind by exact Hin. cbn [bind].
  rewrite <- Hlay in *. unfold Payload, MarshalLittleEndian.
  rewrite unmarshal_fields_marshal by assumption. cbn [bind].
  rewrite populate_Fields. reflexivity.
Qed.

Lemma readResponse_outbound_only
  (EventLayout : list FieldKind) (p : Packet) (more : bytes) :
  ~ In (PacketTypeOf p) inbound_registry ->
  len (sendPacket p) < 2 ^ 32 ->
  readResponse EventLayout (sendPacket p ++ more)
  = Err (UnknownPacketType (PacketTypeOf p)).
Proof.
  intros Hin Hlen.
  rewrite readResponse_frame by exact Hlen.
  rewrite NewPacketIn_unregistered by exact Hin. reflexivity.
Qed.

(** Every struct of the catalogue other than the event packet is laid out as
    declared, whatever its field values. *)
Lemma wf_packet_intro (EventLayout : list FieldKind) (p : Packet) :
  KindOf p <> TGenericEventPacket ->
  Forall wf_field (Fields p) -> wf_packet EventLayout p.
Proof.
  intros Hk Hwf. split; [exact Hwf | ].
  destruct p; try contradiction; split; cbn; auto.
Qed.

Lemma sendPacket_Length_field (p : Packet) :
  Uint (firstn 4 (sendPacket p)) = len (sendPacket p) mod 2 ^ 32.
Proof.
  destruct (sendPacket_length p) as [-> <-].
  unfold sendPacket. rewrite firstn_exact by apply PutUint_length.
  apply Uint_PutUint_mod.
Qed.

Lemma len_hugePayload : len hugePayload = 2 ^ 32 - 12.
Proof.
  unfold len, hugePayload. rewrite repeat_length. apply Z2Nat.id. lia.
Qed.

(** *** What the decoder can return *)

Lemma Uint_bound (b : bytes) :
  Forall is_byte b -> 0 <= Uint b < 256 ^ Z.of_nat (List.length b).
Proof.
  induction 1 as [| x b Hx _ IH]; [cbn; lia | ].
  cbn [Uint List.length]. rewrite Nat2Z.inj_succ, Z.pow_succ_r by lia.
  unfold is_byte in Hx. lia.
Qed.

Lemma Forall_take {A : Type} (P : A -> Prop) (n : nat) (l : list A) :
  Forall P l -> Forall P (firstn n l).
Proof.
  intros H. revert n. induction H as [| x l Hx _ IH]; intros [| n];
    cbn [firstn]; constructor; auto.
Qed.

(** The Length field has four bytes: it tells the length of no frame of
    2^32 bytes or more, whoever wrote the frame. *)
Lemma Length_field_below (frame : bytes) :
  Forall is_byte frame -> 2 ^ 32 <= len frame ->
  Uint (firstn 4 frame) < len frame.
Proof.
  intros Hb Hlen.
  assert (H4 : List.length (firstn 4 frame) = 4%nat).
  { rewrite length_firstn. unfold len in Hlen. lia. }
  pose proof (Uint_bound (firstn 4 frame) (Forall_take _ 4 _ Hb)) as H.
  rewrite H4 in H. change (256 ^ Z.of_nat 4) with (2 ^ 32) in H. lia.
Qed.

Lemma NewPacketIn_inbound (pt : PacketType) (k : PacketKind) :
  NewPacketInFromPacketType pt = Ok k -> In (KindPacketType k) inbound_registry.
Proof.
  intros H.
  destruct (in_dec Z.eq_dec pt inbound_registry) as [Hin | Hout].
  - destruct (NewPacketIn_registered pt Hin) as (k' & Hk' & <-).
    rewrite Hk' in H. injection H as <-. exact Hin.
  - rewrite (NewPacketIn_unregistered pt Hout) in H. discriminate H.
Qed.

Lemma populate_inv (k : PacketKind) (fs : list Field) (p : Packet) :
  populate k fs = Ok p -> KindOf p = k /\ Fields p = fs.
Proof.
  unfold populate.
  destruct k;
    repeat match goal with
           | |- context [match ?l with [] => _ | _ :: _ => _ end] =>
               is_var l; destruct l
           | |- context [match ?f with FUint16 _ => _ | _ => _ end] =>
               is_var f; destruct f
           end;
    intros H; try discriminate H; injection H as <-; split; reflexivity.
Qed.

Lemma ReadUnits_nonzero (b : bytes) (us : list Z) (rest : bytes) :
  ReadUnits b = Ok (us, rest) -> ~ In 0 us.
Proof.
  remember (List.length b) as n eqn:Hn.
  revert b us rest Hn.
  induction n as [n IH] using (well_founded_induction lt_wf).
  intros [| lo [| hi b']] us rest Hn; cbn [ReadUnits]; try discriminate.
  cbv zeta. destruct (Z.eqb_spec (Uint [lo; hi]) 0) as [_ | Hu].
  - intros [= <- _]. intros [].
  - destruct (ReadUnits b') as [[us' rest'] | e] eqn:Hb'; cbn [bind];
      [ | discriminate].
    intros [= <- _]. intros [E | Hin]; [exact (Hu E) | ].
    revert Hin. apply (IH (List.length b')) with (b := b') (rest := rest').
    + subst n. cbn [List.length]. lia.
    + reflexivity.
    + exact Hb'.
Qed.

Lemma utf16_Decode_nonzero (us : list Z) :
  ~ In 0 us -> ~ In 0 (utf16_Decode us).
Proof.
  remember (List.length us) as n eqn:Hn.
  revert us Hn.
  induction n as [n IH] using (well_founded_induction lt_wf).
  intros [| r s'] Hn Hus; cbn [utf16_Decode]; [intros [] | ].
  assert (Hr : r <> 0) by (intros ->; apply Hus; left; reflexivity).
  assert (Hs' : ~ In 0 s') by (intros H; apply Hus; right; exact H).
  assert (IHs' : ~ In 0 (utf16_Decode s')).
  { apply (IH (List.length s')); [subst n; cbn; lia | reflexivity | exact Hs']. }
  destruct ((r <? surr1) || (surr3 <=? r)).
  { intros [E | H]; [exact (Hr E) | exact (IHs' H)]. }
  destruct s' as [| r2 s''].
  { intros [E | []]. discriminate E. }
  destruct ((surr1 <=? r) && (r <? surr2) && (surr2 <=? r2) && (r2 <? surr3))
    eqn:Hpair.
  - intros [E | H].
    + zbool. unfold utf16_DecodeRune, surrSelf in E.
      assert (0 <= Z.lor (Z.shiftl (r - surr1) 10) (r2 - surr2)).
      { apply Z.lor_nonneg. split; [apply Z.shiftl_nonneg | ]; lia. }
      lia.
    + revert H. apply (IH (List.length s'')); [subst n; cbn; lia | reflexivity | ].
      intros H. apply Hs'. right. exact H.
  - intros [E | H]; [discriminate E | exact (IHs' H)].
Qed.

Lemma unmarshal_field_decodable (k : FieldKind) (b rest : bytes) (f : Field) :
  unmarshal_field k b = Ok (f, rest) -> decodable_field f.
Proof.
  destruct k; cbn [unmarshal_field];
    try (destruct (take_fixed _ b) as [[x r] | e]; cbn [bind];
         [intros [= <- _]; exact I | discriminate]).
  - destruct (ReadUnits b) as [[us r] | e] eqn:Hu; cbn [bind]; [ | discriminate].
    intros [= <- _]. cbn [decodable_field].
    apply utf16_Decode_nonzero. exact (ReadUnits_nonzero _ _ _ Hu).
  - intros [= <- _]. exact I.
  - intros [= <- _]. exact I.
Qed.

Lemma unmarshal_fields_decodable (ks : list FieldKind) (b xs : bytes)
  (fs : list Field) :
  unmarshal_fields ks b = Ok (fs, xs) -> Forall decodable_field fs.
Proof.
  revert b fs xs.
  induction ks as [| k ks IH]; intros b fs xs; cbn [unmarshal_fields].
  - intros [= <- _]. constructor.
  - destruct (unmarshal_field k b) as [[f rest] | e] eqn:Hf; cbn [bind];
      [ | discriminate].
    destruct (unmarshal_fields ks rest) as [[fs' xs'] | e] eqn:Hfs; cbn [bind];
      [ | discriminate].
    intros [= <- _]. constructor.
    + exact (unmarshal_field_decodable _ _ _ _ Hf).
    + exact (IH _ _ _ Hfs).
Qed.

(** Whatever bytes are read, and whoever wrote them, a packet that
    [readResponse] returns is of one of the eleven inbound kinds, its
    strings hold no U+0000, and what it holds behind an interface is a byte
    slice. *)
Lemma readResponse_image (EventLayout : list FieldKind) (r : bytes)
  (p : Packet) (xs rest : bytes) :
  readResponse EventLayout r = Ok (p, xs, rest) ->
  In (PacketTypeOf p) inbound_registry
  /\ Forall decodable_field (Fields p).
Proof.
  unfold readResponse.
  destruct (len r <? HeaderSize); cbn [bind]; [discriminate | ].
  cbv zeta.
  destruct (Uint (firstn 4 (firstn 8 r)) <? HeaderSize); [discriminate | ].
  destruct (len (skipn 8 r) <? Uint (firstn 4 (firstn 8 r)) - HeaderSize);
    [discriminate | ].
  destruct (NewPacketInFromPacketType (Uint (skipn 4 (firstn 8 r))))
    as [k | e] eqn:Hk; cbn [bind]; [ | discriminate].
  destruct (unmarshal_fields (Layout EventLayout k) _) as [[fs xs'] | e] eqn:Hfs;
    cbn [bind]; [ | discriminate].
  destruct (populate k fs) as [q | e] eqn:Hq; cbn [bind]; [ | discriminate].
  intros [= <- _ _].
  apply populate_inv in Hq. destruct Hq as [Hkind Hfields].
  split.
  - unfold PacketTypeOf. rewrite Hkind. exact (NewPacketIn_inbound _ _ Hk).
  - rewrite Hfields. exact (unmarshal_fields_decodable _ _ _ _ Hfs).
Qed.

(** C1, as stated, fails in four ways: a frame of an outbound-only kind
    is refused by the decoder; a string that holds U+0000 is cut at it, and
    what follows is read as the next field; the payload of a Data packet,
    declared [interface{}], comes back as a byte slice whatever it was; the
    Length field of a frame of 2^32 bytes is 0.  None of them is a matter
    of how packets are encoded: the decoder returns no packet of the first
    three sorts whatever bytes it is given, and four bytes tell the length
    of no frame of 2^32 bytes or more. *)
Lemma roundtrip_counterexamples :
  (readResponse [] (sendPacket (GenericInitEventRequestPacket 1))
   = Err (UnknownPacketType PKT_InitEventRequest)
   /\ readResponse [] (sendPacket (GenericInitEventRequestPacket 1))
      <> Ok (GenericInitEventRequestPacket 1, [], []))
  /\ (readResponse [] (sendPacket (InitCommandAckPacket 1 uuid_Nil [0x61; 0; 0x62] 5))
      = Ok (InitCommandAckPacket 1 uuid_Nil [0x61] 0x62, [5; 0; 0; 0], [])
      /\ readResponse [] (sendPacket (InitCommandAckPacket 1 uuid_Nil [0x61; 0; 0x62] 5))
         <> Ok (InitCommandAckPacket 1 uuid_Nil [0x61; 0; 0x62] 5, [], []))
  /\ (readResponse [] (sendPacket (DataPacket 1 (of_uint16 7)))
      = Ok (DataPacket 1 (of_bytes [7; 0]), [], [])
      /\ readResponse [] (sendPacket (DataPacket 1 (of_uint16 7)))
         <> Ok (DataPacket 1 (of_uint16 7), [], []))
  /\ (len (sendPacket (EndDataPacket 0 hugePayload)) = 2 ^ 32
      /\ Uint (firstn 4 (sendPacket (EndDataPacket 0 hugePayload))) = 0)
  /\ (forall (EventLayout : list FieldKind) (encode : Packet -> bytes)
             (p : Packet) (xs rest : bytes),
         ~ In (PacketTypeOf p) inbound_registry
         \/ (exists s, In (FString s) (Fields p) /\ In 0 s)
         \/ (exists t i, p = DataPacket t i /\ ~ holds_bytes i) ->
         readResponse EventLayout (encode p) <> Ok (p, xs, rest))
  /\ (forall frame : bytes,
         Forall is_byte frame -> 2 ^ 32 <= len frame ->
         Uint (firstn 4 frame) <> len frame).
Proof.
  assert (Hhuge : len (sendPacket (EndDataPacket 0 hugePayload)) = 2 ^ 32).
  { destruct (sendPacket_length (EndDataPacket 0 hugePayload)) as [-> _].
    change (Fields (EndDataPacket 0 hugePayload))
      with [FUint32 0; FBytes hugePayload].
    unfold fields_size. cbn [map fold_right marshal_field].
    rewrite len_PutUint, len_hugePayload. reflexivity. }
  repeat apply conj.
  - reflexivity.
  - discriminate.
  - reflexivity.
  - vm_compute. intros H. discriminate H.
  - reflexivity.
  - vm_compute. intros H. discriminate H.
  - exact Hhuge.
  - rewrite sendPacket_Length_field, Hhuge. reflexivity.
  - intros EventLayout encode p xs rest Hbad Hread.
    apply readResponse_image in Hread. destruct Hread as [Hin Hdec].
    destruct Hbad as [Hout | [(s & Hs & H0) | (t & i & -> & Hi)]].
    + exact (Hout Hin).
    + rewrite Forall_forall in Hdec. exact (Hdec _ Hs H0).
    + cbn [Fields] in Hdec. inversion Hdec as [| ? ? _ Hdec']. subst.
      inversion Hdec' as [| ? ? Hp _]. subst. exact (Hi Hp).
  - intros frame Hb Hlen.
    pose proof (Length_field_below frame Hb Hlen). lia.
Qed.

(** C1, amended.  Every frame begins with the little-endian Length,
    equal to the frame's length when that is below 2^32, and PacketType,
    and a string is its UTF-16LE units followed by one 0x0000 that the
    length counts.  For a well-formed packet of one of the eleven inbound
    kinds whose frame is shorter than 2^32 bytes, decoding the frame yields
    the packet, no excess bytes, and the rest of the stream untouched; a
    frame of an outbound-only kind is refused with [UnknownPacketType].
    Well-formed asks of a Data packet that its payload, declared
    [interface{}], holds a byte slice. *)
Theorem codec_roundtrip (EventLayout : list FieldKind) :
  (forall p,
      len (sendPacket p) < 2 ^ 32 ->
      sendPacket p
      = PutUint 4 (len (sendPacket p)) ++ PutUint 4 (PacketTypeOf p) ++ Payload p
      /\ Uint (firstn 4 (sendPacket p)) = len (sendPacket p)
      /\ Uint (firstn 4 (skipn 4 (sendPacket p))) = PacketTypeOf p
      /\ len (sendPacket p) = HeaderSize + fields_size (Fields p))
  /\ (forall s,
         marshal_field (FString s)
         = flat_map (PutUint 2) (utf16_Encode s) ++ [0; 0]
         /\ len (marshal_field (FString s)) = 2 * len (utf16_Encode s) + 2)
  /\ (forall p more,
         wf_packet EventLayout p ->
         In (PacketTypeOf p) inbound_registry ->
         len (sendPacket p) < 2 ^ 32 ->
         readResponse EventLayout (sendPacket p ++ more) = Ok (p, [], more))
  /\ (forall p more,
         ~ In (PacketTypeOf p) inbound_registry ->
         len (sendPacket p) < 2 ^ 32 ->
         readResponse EventLayout (sendPacket p ++ more)
         = Err (UnknownPacketType (PacketTypeOf p))).
Proof.
  repeat apply conj.
  - intros p Hlen.
    destruct (sendPacket_header p Hlen) as (H1 & H2 & H3).
    destruct (sendPacket_length p) as [H4 _].
    repeat apply conj; assumption.
  - intros s. apply PutString_terminated.
  - intros p more. apply readResponse_sendPacket.
  - intros p more. apply readResponse_outbound_only.
Qed.

(** The packet of [TestClient_readResponse]: connection number 1, GUID
    7c946ae4-6d6a-4589-90ed-d059f8cc426b, the name "remote" with a
    circumflex, protocol version 2.5. *)
Lemma codec_roundtrip_witness :
  let p :=
    InitCommandAckPacket 1
      [0x7c; 0x94; 0x6a; 0xe4; 0x6d; 0x6a; 0x45; 0x89;
       0x90; 0xed; 0xd0; 0x59; 0xf8; 0xcc; 0x42; 0x6b]
      [0x72; 0x65; 0x6d; 0xf4; 0x74; 0x65] 0x00020005 in
  readResponse [KUint16; KUint32; KUint32; KUint32; KUint32] (sendPacket p ++ [])
  = Ok (p, [], [])
  /\ Uint (firstn 4 (sendPacket p)) = len (sendPacket p).
Proof.
  intros p.
  destruct (codec_roundtrip [KUint16; KUint32; KUint32; KUint32; KUint32])
    as (Hheader & _ & Hround & _).
  split.
  - apply Hround.
    + apply wf_packet_intro; [discriminate | ].
      unfold p. cbn [Fields].
      repeat constructor; unfold is_string_rune, surr1, surr3, maxRune; lia.
    + unfold inbound_registry. cbn. auto.
    + reflexivity.
  - apply (Hheader p). reflexivity.
Defined.

(** The frame [TestClient_sendPacket] expects for the init request of a
    client named "writer" with a grave accent, GUID
    e462b590-b516-474a-9db8-a465b370fabd. *)
Example sendPacket_test_vector :
  sendPacket
    (NewInitCommandRequestPacket
       [0xe4; 0x62; 0xb5; 0x90; 0xb5; 0x16; 0x47; 0x4a;
        0x9d; 0xb8; 0xa4; 0x65; 0xb3; 0x70; 0xfa; 0xbd]
       [0x77; 0x72; 0x69; 0x74; 0xe8; 0x72])
  = [0x2a; 0; 0; 0; 1; 0; 0; 0;
     0xe4; 0x62; 0xb5; 0x90; 0xb5; 0x16; 0x47; 0x4a;
     0x9d; 0xb8; 0xa4; 0x65; 0xb3; 0x70; 0xfa; 0xbd;
     0x77; 0; 0x72; 0; 0x69; 0; 0x74; 0; 0xe8; 0; 0x72; 0; 0; 0;
     0; 0; 1; 0].
Proof. reflexivity. Qed.

(** The raw frame of [TestClient_readRawResponse] is the encoding of its
    ack packet and decodes to it. *)
Example readResponse_test_vector :
  let p :=
    InitCommandAckPacket 1
      [0xd2; 0xd4; 0xfc; 0xe6; 0x11; 0x81; 0x42; 0xdd;
       0xa1; 0x85; 0x5c; 0xc4; 0x0c; 0xa6; 0x83; 0x21]
      [0x72; 0xe8; 0x6d; 0x6f; 0x74; 0x65] 0x00020005 in
  let raw :=
    [0x2e; 0x0; 0x0; 0x0; 0x2; 0x0; 0x0; 0x0; 0x1; 0x0; 0x0; 0x0;
     0xd2; 0xd4; 0xfc; 0xe6; 0x11; 0x81; 0x42; 0xdd;
     0xa1; 0x85; 0x5c; 0xc4; 0xc; 0xa6; 0x83; 0x21;
     0x72; 0x0; 0xe8; 0x0; 0x6d; 0x0; 0x6f; 0x0; 0x74; 0x0; 0x65; 0x0;
     0x0; 0x0; 0x5; 0x0; 0x2; 0x0] in
  sendPacket p = raw /\ readResponse [] raw = Ok (p, [], []).
Proof. split; reflexivity. Qed.

(** The payload of a Data packet is declared [interface{}]: a byte slice
    behind it comes back as it was, and a 16-bit integer behind it is
    written as the same two bytes, so the two packets share a frame. *)
Example Data_payload_frames :
  readResponse [] (sendPacket (DataPacket 1 (of_bytes [7; 0])))
  = Ok (DataPacket 1 (of_bytes [7; 0]), [], [])
  /\ sendPacket (DataPacket 1 (of_uint16 7))
     = sendPacket (DataPacket 1 (of_bytes [7; 0])).
Proof. split; reflexivity. Qed.

(** A name beyond the basic plane travels as a surrogate pair. *)
Example surrogate_pair_roundtrip :
  PutString [0x1F4F7] = [0x3d; 0xd8; 0xf7; 0xdc; 0; 0]
  /\ readResponse [] (sendPacket (InitCommandAckPacket 7 uuid_Nil [0x1F4F7] 1))
     = Ok (InitCommandAckPacket 7 uuid_Nil [0x1F4F7] 1, [], []).
Proof. split; reflexivity. Qed.

(** * Further properties *)

(** ** The two registries together *)

Lemma KindPacketType_injective (k1 k2 : PacketKind) :
  KindPacketType k1 = KindPacketType k2 -> k1 = k2.
Proof. destruct k1, k2; intros H; try reflexivity; discriminate H. Qed.

(** X1.  No packet struct is out of reach and no packet type is ambiguous:
    every struct of the catalogue is built by at least one registry from
    its own packet type, two structs never share a packet type, where both
    registries know a type they build the same struct, and that happens
    for the six types of the data phase and the probes only. *)
Theorem registries_cover_and_agree (pt : PacketType) (k : PacketKind) :
  (NewPacketInFromPacketType (KindPacketType k) = Ok k
   \/ NewPacketOutFromPacketType (KindPacketType k) = Ok k)
  /\ (forall k', KindPacketType k = KindPacketType k' -> k = k')
  /\ (forall kin kout,
         NewPacketInFromPacketType pt = Ok kin ->
         NewPacketOutFromPacketType pt = Ok kout -> kin = kout)
  /\ ((exists kin kout,
          NewPacketInFromPacketType pt = Ok kin
          /\ NewPacketOutFromPacketType pt = Ok kout)
      <-> In pt [PKT_StartData; PKT_Data; PKT_Cancel; PKT_EndData;
                 PKT_ProbeRequest; PKT_ProbeResponse])
  /\ NewPacketInFromPacketType PKT_Invalid = Err (UnknownPacketType PKT_Invalid)
  /\ NewPacketOutFromPacketType PKT_Invalid = Err (UnknownPacketType PKT_Invalid).
Proof.
  assert (Hin : forall l, {In pt l} + {~ In pt l})
    by (intro l; apply in_dec, Z.eq_dec).
  assert (Hkin : forall kin, NewPacketInFromPacketType pt = Ok kin ->
                             In pt inbound_registry /\ KindPacketType kin = pt).
  { intros kin E. destruct (Hin inbound_registry) as [Hi | Hi].
    - split; [exact Hi | ].
      destruct (NewPacketIn_registered pt Hi) as [k0 [E0 Hk0]]. congruence.
    - rewrite (NewPacketIn_unregistered pt Hi) in E. discriminate E. }
  assert (Hkout : forall kout, NewPacketOutFromPacketType pt = Ok kout ->
                               In pt outbound_registry /\ KindPacketType kout = pt).
  { intros kout E. destruct (Hin outbound_registry) as [Hi | Hi].
    - split; [exact Hi | ].
      destruct (NewPacketOut_registered pt Hi) as [k0 [E0 Hk0]]. congruence.
    - rewrite (NewPacketOut_unregistered pt Hi) in E. discriminate E. }
  repeat apply conj.
  - destruct k; (left; reflexivity) || (right; reflexivity).
  - apply KindPacketType_injective.
  - intros kin kout Ei Eo. apply KindPacketType_injective.
    destruct (Hkin kin Ei) as [_ ->]. destruct (Hkout kout Eo) as [_ ->].
    reflexivity.
  - intros (kin & kout & Ei & Eo).
    destruct (Hkin kin Ei) as [Hi _]. destruct (Hkout kout Eo) as [Ho _].
    unfold inbound_registry in Hi. cbn [In] in Hi.
    repeat (destruct Hi as [Hi | Hi];
            [subst pt; clear - Ho; first
               [ now (cbv; tauto) | exfalso; cbv in Ho; intuition discriminate ]
            | ]).
    contradiction.
  - intros H.
    assert (Hi : In pt inbound_registry)
      by (unfold inbound_registry; cbn in H |- *; intuition).
    assert (Ho : In pt outbound_registry)
      by (unfold outbound_registry; cbn in H |- *; intuition).
    destruct (NewPacketIn_registered pt Hi) as [kin [Ei _]].
    destruct (NewPacketOut_registered pt Ho) as [kout [Eo _]].
    exists kin, kout. split; assumption.
  - reflexivity.
  - reflexivity.
Qed.

(** ** What a handshake error tells *)

Lemma append_inj (p a b : string) :
  String.append p a = String.append p b -> a = b.
Proof.
  induction p as [| ch p IH]; cbn [String.append]; intros H.
  - exact H.
  - injection H as H. apply IH. exact H.
Qed.

Lemma TypeName_injective (k1 k2 : PacketKind) :
  TypeName k1 = TypeName k2 -> k1 = k2.
Proof. destruct k1, k2; intros H; try reflexivity; discriminate H. Qed.

Lemma errors_New_injective (a b : string) :
  errors_New a = errors_New b -> a = b.
Proof. intros H. injection H as H. exact H. Qed.

Lemma unexpected_packet_injective (p q : Packet) :
  unexpected_packet p = unexpected_packet q -> KindOf p = KindOf q.
Proof.
  unfold unexpected_packet. intros H.
  apply errors_New_injective, append_inj, TypeName_injective in H. exact H.
Qed.

Section HandshakeErrors.

(** Whatever the wire values of the two Fuji reasons. *)
Variables FR_Fuji_DeviceBusy FR_Fuji_InvalidParameter : FailReason.

Lemma ReasonAsError_injective (r1 r2 : FailReason) :
  ReasonAsError FR_Fuji_DeviceBusy FR_Fuji_InvalidParameter r1
  = ReasonAsError FR_Fuji_DeviceBusy FR_Fuji_InvalidParameter r2 ->
  r1 = r2.
Proof.
  unfold ReasonAsError. intros H. injection H as H.
  repeat match type of H with
         | context [?r =? ?c] => destruct (Z.eqb_spec r c)
         end;
    try congruence; try discriminate H.
  apply (append_inj "unknown failure reason returned "
           (Sprintf_hex r1) (Sprintf_hex r2)) in H.
  rewrite <- (HexString.to_Z_of_Z r1), <- (HexString.to_Z_of_Z r2).
  unfold Sprintf_hex in H. rewrite H. reflexivity.
Qed.

Lemma ReasonAsError_not_unexpected (r : FailReason) (p : Packet) :
  ReasonAsError FR_Fuji_DeviceBusy FR_Fuji_InvalidParameter r
  <> unexpected_packet p.
Proof.
  unfold ReasonAsError, unexpected_packet. intros H. injection H as H.
  repeat match type of H with
         | context [?r =? ?c] => destruct (Z.eqb_spec r c)
         end;
    discriminate H.
Qed.

(** X2.  The error of a failed handshake identifies what the responder
    sent: two packets that are rejected with the same error have the same
    Go type, and two [InitFailPacket]s with the same error carry the same
    reason. *)
Theorem rejection_identifies (p q : Packet) :
  rejection FR_Fuji_DeviceBusy FR_Fuji_InvalidParameter p
  = rejection FR_Fuji_DeviceBusy FR_Fuji_InvalidParameter q ->
  KindOf p = KindOf q
  /\ (forall r1 r2, p = InitFailPacket r1 -> q = InitFailPacket r2 -> r1 = r2).
Proof.
  intros H.
  assert (Hkind : KindOf p = KindOf q).
  { destruct p as [| | | | rp | | | | | | | | |];
      destruct q as [| | | | rq | | | | | | | | |];
      try reflexivity; cbn [rejection] in H;
      try (exfalso; eapply ReasonAsError_not_unexpected; exact H);
      try (exfalso; eapply ReasonAsError_not_unexpected; symmetry; exact H);
      apply unexpected_packet_injective; exact H. }
  split; [exact Hkind | ].
  intros r1 r2 -> ->. cbn [rejection] in H.
  apply ReasonAsError_injective. exact H.
Qed.

End HandshakeErrors.

(** The busy reason met twice, with 0x2019 and 0x201D for the two Fuji
    reasons. *)
Lemma rejection_identifies_witness :
  KindOf (InitFailPacket FR_FailBusy) = KindOf (InitFailPacket 2)
  /\ (forall r1 r2,
         InitFailPacket FR_FailBusy = InitFailPacket r1 ->
         InitFailPacket 2 = InitFailPacket r2 -> r1 = r2).
Proof.
  exact (rejection_identifies 0x2019 0x201D
           (InitFailPacket FR_FailBusy) (InitFailPacket 2) eq_refl).
Defined.

(** ** The extension table *)

(** X3.  [loadVendorExtensions] replaces the extension table and nothing
    else; the table it installs depends on the responder's vendor only, so
    loading twice is loading once and a table installed before is
    discarded; whatever the vendor, the event and the streamer connections
    are set up by the generic routines, and any vendor but Fuji gets the
    generic table. *)
Theorem loadVendorExtensions_table
  (VE : Z) (newCmd : UUID -> runes -> Packet) (newEvent : Z -> option Packet)
  (v : VendorExtensions) (c : Client) :
  let load := loadVendorExtensions VE newCmd newEvent in
  load c = set_vendorExtensions (vendorExtensions (load c)) c
  /\ load (load c) = load c
  /\ load (set_vendorExtensions v c) = load c
  /\ eventInit (vendorExtensions (load c)) = GenericInitEventConn_fn
  /\ streamerInit (vendorExtensions (load c)) = GenericInitStreamerConn_fn
  /\ vendorExtensions (load c)
     = (if ResponderVendor c =? VE
        then {| cmdDataInit := FujiInitCommandDataConn_fn;
                eventInit := GenericInitEventConn_fn;
                streamerInit := GenericInitStreamerConn_fn;
                newCmdDataInitPacket := newCmd;
                newEventInitPacket := newEvent;
                getDeviceInfo := FujiGetDeviceInfo_fn;
                operationRequestRaw := FujiOperationRequestRaw_fn |}
        else genericExtensions).
Proof.
  intros load. subst load. unfold loadVendorExtensions.
  change (ResponderVendor (set_vendorExtensions ?x c)) with (ResponderVendor c).
  repeat apply conj; try reflexivity;
    cbn [vendorExtensions set_vendorExtensions];
    destruct (ResponderVendor c =? VE) eqn:E; reflexivity.
Qed.

(** ** The request of the raw operation *)

Lemma copy_chain {B : Type} (code : Z) (params : list Z)
  (K : OperationRequest -> outcome B) :
  len params <> 5 ->
  (or <=- copy_param (len params >=? 1) params 0 with_Parameter1
            {| OperationCode := code; TransactionID := 0;
               Parameter1 := 0; Parameter2 := 0; Parameter3 := 0;
               Parameter4 := 0; Parameter5 := 0 |} ;;
   or <=- copy_param (len params >=? 2) params 1 with_Parameter2 or ;;
   or <=- copy_param (len params >=? 3) params 2 with_Parameter3 or ;;
   or <=- copy_param (len params >=? 4) params 3 with_Parameter4 or ;;
   or <=- copy_param (len params =? 5) params 5 with_Parameter5 or ;;
   K or)
  = K (rawRequest code params).
Proof.
  intros H5.
  destruct params as [| a [| b [| d [| e rest]]]]; try reflexivity.
  assert (Hl : 4 <= len (a :: b :: d :: e :: rest))
    by (unfold len; cbn [List.length]; lia).
  destruct (Z.eqb_spec (len (a :: b :: d :: e :: rest)) 5) as [E | _];
    [contradiction | ].
  repeat match goal with
         | |- context [?x >=? ?y] =>
             destruct (Z.geb_spec x y); [ | exfalso; lia]
         end.
  reflexivity.
Qed.

(** X4.  With a number of parameters other than five, the request that
    [GenericOperationRequestRaw] hands to the sender has the operation
    code, the data phase NoDataOrDataIn, the first four parameters in
    order with zeros for the missing ones, a zero fifth parameter whatever
    was passed, and transaction ID 0; the routine returns only if the send
    fails, with that error, a nil result, and the client's transaction ID
    as it was. *)
Theorem GenericOperationRequestRaw_request
  (net : Network) (c : Client) (code : Z) (params : list Z) :
  len params <> 5 ->
  let sent :=
    SendPacketToCmdDataConn net c
      (OperationRequestPacket DP_NoDataOrDataIn (rawRequest code params)) in
  GenericOperationRequestRaw net c code params
  = match snd sent with
    | Some err => Returns (fst sent, [], Some err)
    | None => Panics_index_out_of_range 0 0
    end
  /\ transactionId (fst sent) = transactionId c
  /\ (len params < 5 ->
      [Parameter1 (rawRequest code params); Parameter2 (rawRequest code params);
       Parameter3 (rawRequest code params); Parameter4 (rawRequest code params);
       Parameter5 (rawRequest code params)]
      = params ++ repeat 0 (5 - List.length params)).
Proof.
  intros H5 sent.
  repeat apply conj.
  - unfold GenericOperationRequestRaw.
    rewrite copy_chain by exact H5.
    fold sent.
    destruct sent as [c' [err |]]; cbn [fst snd].
    + reflexivity.
    + destruct (ReadRawFromCmdDataConn net c');
        rewrite assign_index_nil; reflexivity.
  - subst sent. unfold SendPacketToCmdDataConn.
    destruct (sendPacketTo net (commandDataConn c) _). reflexivity.
  - intros Hlt. unfold rawRequest.
    cbn [Parameter1 Parameter2 Parameter3 Parameter4 Parameter5].
    unfold len in Hlt.
    destruct params as [| a [| b [| d [| e [| f rest]]]]];
      cbn [List.length] in Hlt; try lia; reflexivity.
Qed.

Lemma GenericOperationRequestRaw_request_witness :
  let c :=
    set_commandDataConn (Some (freshConn (CommandDataAddress testClient)))
      testClient in
  GenericOperationRequestRaw (mockResponder okAnswer) c 0x1015 [0xd212; 7]
  = Panics_index_out_of_range 0 0
  /\ rawRequest 0x1015 [0xd212; 7]
     = {| OperationCode := 0x1015; TransactionID := 0;
          Parameter1 := 0xd212; Parameter2 := 7; Parameter3 := 0;
          Parameter4 := 0; Parameter5 := 0 |}.
Proof.
  intros c.
  assert (H : len [0xd212; 7] <> 5) by discriminate.
  destruct (GenericOperationRequestRaw_request (mockResponder okAnswer) c
              0x1015 [0xd212; 7] H) as (E & _ & _).
  split; [exact E | reflexivity].
Defined.

(** ** The device information request *)

(** X5.  [GenericGetDeviceInfo] writes at most one packet, the operation
    request in the phase NoDataOrDataIn, and never closes the connection;
    what it returns without error is the [OperationResponsePacket] read in
    answer to that request, and a packet of any other type is turned into
    "unexpected packet received". *)
Theorem GenericGetDeviceInfo_result
  (net : Network) (req : OperationRequest) (c : Client) :
  let request := OperationRequestPacket DP_NoDataOrDataIn req in
  let c' := fst (GenericGetDeviceInfo net req c) in
  let r := snd (GenericGetDeviceInfo net req c) in
  option_map Closed (commandDataConn c') = option_map Closed (commandDataConn c)
  /\ (option_map Written (commandDataConn c')
      = option_map Written (commandDataConn c)
      \/ option_map Written (commandDataConn c')
         = option_map (fun w => w ++ [request]) (option_map Written (commandDataConn c)))
  /\ (forall p, r = Ok p ->
        KindOf p = TOperationResponsePacket
        /\ exists conn,
             commandDataConn c = Some conn
             /\ writes net conn request = None
             /\ reads net (Conn_Write request conn) = Ok p
             /\ commandDataConn c' = Some (Conn_Write request conn))
  /\ (forall conn p,
        commandDataConn c = Some conn ->
        writes net conn request = None ->
        reads net (Conn_Write request conn) = Ok p ->
        r = (if match KindOf p with TOperationResponsePacket => true | _ => false end
             then Ok p else Err (unexpected_packet p))).
Proof.
  intros request c' r. subst c' r request.
  unfold GenericGetDeviceInfo, SendPacketToCmdDataConn, sendPacketTo,
    WaitForPacketFromCmdDataConn, waitForPacketFrom.
  destruct (commandDataConn c) as [conn |] eqn:Ec; cbn.
  2: { repeat apply conj; try (left; reflexivity); try reflexivity;
       intros; discriminate. }
  destruct (writes net conn _) as [e |] eqn:Ew; cbn.
  { repeat apply conj; try (left; reflexivity); try reflexivity.
    - intros p H. discriminate H.
    - intros conn0 p H. injection H as <-. rewrite Ew. discriminate. }
  destruct (reads net _) as [res | e] eqn:Er.
  2: { cbn. repeat apply conj; try (right; reflexivity); try reflexivity.
       - intros p H. discriminate H.
       - intros conn0 p H _ H'. injection H as <-. rewrite Er in H'.
         discriminate H'. }
  assert (Hsame : forall conn0 p,
             Some conn = Some conn0 ->
             reads net (Conn_Write (OperationRequestPacket DP_NoDataOrDataIn req) conn0)
             = Ok p -> p = res).
  { intros conn0 p H H'. injection H as <-. rewrite Er in H'.
    injection H' as <-. reflexivity. }
  destruct res; cbn; repeat apply conj;
    try (right; reflexivity); try reflexivity;
    try (intros p H; discriminate H);
    try (intros conn0 p H _ H'; rewrite (Hsame conn0 p H H'); reflexivity).
  intros p H. injection H as <-. split; [reflexivity | ].
  exists conn. repeat apply conj; try reflexivity; assumption.
Qed.

Lemma GenericGetDeviceInfo_result_witness :
  let c :=
    set_commandDataConn (Some (freshConn (CommandDataAddress testClient)))
      testClient in
  let req :=
    {| OperationCode := 0x1001; TransactionID := 1; Parameter1 := 0;
       Parameter2 := 0; Parameter3 := 0; Parameter4 := 0; Parameter5 := 0 |} in
  exists p,
    snd (GenericGetDeviceInfo (mockResponder okAnswer) req c) = Ok p
    /\ KindOf p = TOperationResponsePacket.
Proof.
  intros c req.
  destruct (GenericGetDeviceInfo_result (mockResponder okAnswer) req c)
    as (_ & _ & H & _).
  eexists. split; [reflexivity | ].
  apply H. reflexivity.
Defined.

(** ** The two handshakes in sequence *)

Lemma GenericInitEventConn_commandDataConn
  (db ip : FailReason) (net : Network) (c : Client) :
  commandDataConn (fst (fst (GenericInitEventConn db ip net c)))
  = commandDataConn c.
Proof.
  pose proof (GenericInitEventConn_cases db ip net c) as H.
  destruct (GenericInitEventConn db ip net c) as [[c' logged] err].
  cbn [fst].
  destruct (eventReply net c) as [[conn res] |].
  - destruct res; destruct H as [_ ->]; reflexivity.
  - destruct H as [[k ->] _]. reflexivity.
Qed.

Lemma GenericInitEventConn_written
  (db ip : FailReason) (net : Network) (c : Client) (conn : Conn)
  (ierp : Packet) :
  RetryDialer net (EventAddress c) = Ok conn ->
  newEventInitPacket (vendorExtensions c) (connectionNumber c) = Some ierp ->
  writes net (Conn_SetKeepAlive conn) ierp = None ->
  let c' := fst (fst (GenericInitEventConn db ip net c)) in
  option_map Written (eventConn c') = Some (Written conn ++ [ierp])
  /\ option_map KeepAlive (eventConn c') = Some true.
Proof.
  intros Hdial Hhook Hwrite.
  unfold GenericInitEventConn, configureTcpConn, Client_newEventInitPacket,
    SendPacketToEventConn, sendPacketTo, WaitForPacketFromEventConn,
    waitForPacketFrom, closeEventConn, incrementTransactionId.
  rewrite Hdial.
  cbn [eventConn set_eventConn option_map vendorExtensions connectionNumber].
  rewrite Hhook, Hwrite.
  cbn [eventConn set_eventConn option_map vendorExtensions connectionNumber].
  destruct (reads net _) as [res | e]; [destruct res | ]; split; reflexivity.
Qed.

(** X6.  With the generic table, once the command/data handshake has read
    an ack, the one packet it wrote is the init request with the
    Initiator's GUID and name and protocol version 1.0, on a connection
    with keep-alive on; the event handshake then dials the same host on
    the event port and, the write succeeding, the one packet it writes is
    the event request with the connection number of that ack.  It leaves
    the command/data connection as it was. *)
Theorem handshake_requests
  (db ip : FailReason) (net : Network) (c : Client)
  (conn1 conn2 : Conn) (n : Z) (g : UUID) (name : runes) (pv : Z) :
  vendorExtensions c = genericExtensions ->
  cmdDataReply net c = Some (conn1, InitCommandAckPacket n g name pv) ->
  RetryDialer net (EventAddress c) = Ok conn2 ->
  writes net (Conn_SetKeepAlive conn2) (GenericInitEventRequestPacket n) = None ->
  let c1 := fst (fst (GenericInitCommandDataConn db ip net c)) in
  let c2 := fst (fst (GenericInitEventConn db ip net c1)) in
  EventAddress c1 = EventAddress c
  /\ (exists conn0,
         RetryDialer net (CommandDataAddress c) = Ok conn0
         /\ Written conn1
            = Written conn0
              ++ [GenericInitCommandRequestPacket (Initiator.GUID (initiator c))
                    (Initiator.FriendlyName (initiator c)) PV_VersionOnePointZero])
  /\ KeepAlive conn1 = true
  /\ commandDataConn c1 = Some conn1
  /\ option_map Written (eventConn c2)
     = Some (Written conn2 ++ [GenericInitEventRequestPacket n])
  /\ option_map KeepAlive (eventConn c2) = Some true
  /\ commandDataConn c2 = Some conn1.
Proof.
  intros Hgen Hreply Hdial Hwrite c1 c2.
  pose proof (GenericInitCommandDataConn_cases db ip net c) as H.
  rewrite Hreply in H.
  assert (Hc1 : c1 = set_responder (Responder.identify g name pv (responder c))
                       (set_connectionNumber n (set_commandDataConn (Some conn1) c))).
  { subst c1. destruct (GenericInitCommandDataConn db ip net c) as [[c' l] e].
    destruct H as [_ ->]. reflexivity. }
  assert (Haddr : EventAddress c1 = EventAddress c) by (rewrite Hc1; reflexivity).
  assert (Hcmd : commandDataConn c1 = Some conn1) by (rewrite Hc1; reflexivity).
  assert (Hhook : newEventInitPacket (vendorExtensions c1) (connectionNumber c1)
                  = Some (GenericInitEventRequestPacket n))
    by (rewrite Hc1; cbn; rewrite Hgen; reflexivity).
  rewrite <- Haddr in Hdial.
  destruct (GenericInitEventConn_written db ip net c1 conn2 _ Hdial Hhook Hwrite)
    as [Hw Hk].
  repeat apply conj.
  - exact Haddr.
  - unfold cmdDataReply in Hreply. rewrite Hgen in Hreply.
    cbn [newCmdDataInitPacket genericExtensions] in Hreply.
    destruct (RetryDialer net (CommandDataAddress c)) as [conn0 | e];
      [ | discriminate Hreply].
    exists conn0. split; [reflexivity | ].
    destruct (writes net _ _); [discriminate Hreply | ].
    destruct (reads net _); [ | discriminate Hreply].
    injection Hreply as <- _. reflexivity.
  - unfold cmdDataReply in Hreply.
    destruct (RetryDialer net (CommandDataAddress c)); [ | discriminate Hreply].
    destruct (writes net _ _); [discriminate Hreply | ].
    destruct (reads net _); [ | discriminate Hreply].
    injection Hreply as <- _. reflexivity.
  - exact Hcmd.
  - exact Hw.
  - exact Hk.
  - subst c2. rewrite GenericInitEventConn_commandDataConn. exact Hcmd.
Qed.

Lemma handshake_requests_witness :
  let net := mockResponder okAnswer in
  let c1 := fst (fst (GenericInitCommandDataConn 0x2019 0x201D net testClient)) in
  let c2 := fst (fst (GenericInitEventConn 0x2019 0x201D net c1)) in
  option_map Written (commandDataConn c2)
  = Some [GenericInitCommandRequestPacket (Initiator.GUID (initiator testClient))
            (Initiator.FriendlyName (initiator testClient)) 0x00010000]
  /\ option_map Written (eventConn c2) = Some [GenericInitEventRequestPacket 1].
Proof.
  intros net c1 c2.
  destruct (handshake_requests 0x2019 0x201D net testClient
              (Conn_Write (Client_newCmdDataInitPacket testClient)
                 (Conn_SetKeepAlive (freshConn (CommandDataAddress testClient))))
              (freshConn (EventAddress testClient)) 1
              [0x7c; 0x94; 0x6a; 0xe4; 0x6d; 0x6a; 0x45; 0x89;
               0x90; 0xed; 0xd0; 0x59; 0xf8; 0xcc; 0x42; 0x6b]
              [0x72; 0x65; 0x6d; 0xf4; 0x74; 0x65] 0x00010000
              eq_refl eq_refl eq_refl eq_refl)
    as (_ & _ & _ & _ & Hw & _ & Hc).
  fold c1 in Hw, Hc. fold c2 in Hw, Hc.
  split.
  - rewrite Hc. reflexivity.
  - rewrite Hw. reflexivity.
Defined.

(** ** When a handshake closes its connection *)

(** X7.  A handshake routine closes its connection when it has read a
    packet that is not the acknowledgement, and only then: after a failed
    write or read the connection stays as it was dialled, and after a
    failed dial there is none.  [GenericInitEventConn] never closes, or
    otherwise touches, the command/data connection, also when the
    responder rejects the event connection. *)
Theorem handshake_closing
  (db ip : FailReason) (net : Network) (c : Client) :
  let k1 := commandDataConn (fst (fst (GenericInitCommandDataConn db ip net c))) in
  let k2 := eventConn (fst (fst (GenericInitEventConn db ip net c))) in
  match RetryDialer net (CommandDataAddress c) with
  | Err _ => k1 = None
  | Ok conn =>
      option_map Closed k1
      = Some (Closed conn
              || match cmdDataReply net c with
                 | Some (_, InitCommandAckPacket _ _ _ _) => false
                 | Some _ => true
                 | None => false
                 end)
  end
  /\ match RetryDialer net (EventAddress c) with
     | Err _ => k2 = None
     | Ok conn =>
         option_map Closed k2
         = Some (Closed conn
                 || match eventReply net c with
                    | Some (_, InitEventAckPacket) => false
                    | Some _ => true
                    | None => false
                    end)
     end
  /\ commandDataConn (fst (fst (GenericInitEventConn db ip net c)))
     = commandDataConn c.
Proof.
  intros k1 k2. subst k1 k2. repeat apply conj.
  - unfold GenericInitCommandDataConn, cmdDataReply,
      WaitForPacketFromCmdDataConn, SendPacketToCmdDataConn, sendPacketTo,
      waitForPacketFrom, Client_newCmdDataInitPacket, configureTcpConn,
      closeCommandDataConn.
    destruct (RetryDialer net (CommandDataAddress c)) as [conn | e];
      [ | reflexivity].
    cbn [commandDataConn set_commandDataConn option_map vendorExtensions initiator].
    destruct (writes net (Conn_SetKeepAlive conn) _) as [e |].
    { cbn. rewrite orb_false_r. reflexivity. }
    cbn [commandDataConn set_commandDataConn option_map vendorExtensions initiator].
    destruct (reads net _) as [res | e].
    2: { cbn. rewrite orb_false_r. reflexivity. }
    destruct res; cbn; rewrite ?orb_false_r, ?orb_true_r; reflexivity.
  - unfold GenericInitEventConn, eventReply, WaitForPacketFromEventConn,
      SendPacketToEventConn, sendPacketTo, waitForPacketFrom,
      Client_newEventInitPacket, configureTcpConn, closeEventConn,
      incrementTransactionId.
    destruct (RetryDialer net (EventAddress c)) as [conn | e]; [ | reflexivity].
    cbn [eventConn set_eventConn option_map vendorExtensions connectionNumber].
    destruct (newEventInitPacket (vendorExtensions c) (connectionNumber c))
      as [ierp |].
    2: { cbn. rewrite orb_false_r. reflexivity. }
    destruct (writes net (Conn_SetKeepAlive conn) ierp) as [e |].
    { cbn. rewrite orb_false_r. reflexivity. }
    cbn [eventConn set_eventConn option_map vendorExtensions connectionNumber].
    destruct (reads net _) as [res | e].
    2: { cbn. rewrite orb_false_r. reflexivity. }
    destruct res; cbn; rewrite ?orb_false_r, ?orb_true_r; reflexivity.
  - apply GenericInitEventConn_commandDataConn.
Qed.

(** Against the rejecting mock, after the command/data connection was
    opened by hand: the event connection ends closed, the command/data
    connection open. *)
Example handshake_closing_fail :
  let c :=
    set_commandDataConn (Some (freshConn (CommandDataAddress testClient)))
      testClient in
  let c' :=
    fst (fst (GenericInitEventConn 0x2019 0x201D (mockResponder failAnswer) c)) in
  option_map Closed (eventConn c') = Some true
  /\ option_map Closed (commandDataConn c') = Some false.
Proof. split; reflexivity. Qed.

(** ** Folded words and standard packet types *)

Lemma constructPacketTypeWithDataPhase_value (oc dp : Z) :
  is_uint16 oc -> is_uint16 dp ->
  constructPacketTypeWithDataPhase oc dp = oc * 2 ^ 16 + dp.
Proof.
  unfold is_uint16, constructPacketTypeWithDataPhase, uint32. intros Hoc Hdp.
  rewrite (Z.mod_small oc) by lia.
  rewrite (Z.mod_small (Z.shiftl oc 16)) by (rewrite Z.shiftl_mul_pow2; lia).
  rewrite (Z.mod_small dp) by lia.
  apply lor_shiftl_add; lia.
Qed.

Lemma registries_small (pt : PacketType) :
  In pt inbound_registry \/ In pt outbound_registry -> 0 < pt < 16.
Proof.
  unfold inbound_registry, outbound_registry. cbn [In].
  intros [H | H];
    repeat (destruct H as [<- | H]; [cbv; split; reflexivity | ]);
    contradiction.
Qed.

(** X8.  Folding is injective on 16-bit operation codes and data phases,
    so two requests with different codes or phases never reach the same
    case of the mock's switch; and the folded word of a non-zero code is no
    standard packet type: it differs from [PKT_InitCommandRequest], the
    first case of that switch, and both registries refuse it as an unknown
    packet type. *)
Theorem folded_words_distinct (oc1 dp1 oc2 dp2 : Z) :
  is_uint16 oc1 -> is_uint16 dp1 -> is_uint16 oc2 -> is_uint16 dp2 ->
  (constructPacketTypeWithDataPhase oc1 dp1
   = constructPacketTypeWithDataPhase oc2 dp2 ->
   oc1 = oc2 /\ dp1 = dp2)
  /\ (oc1 <> 0 ->
      let w := constructPacketTypeWithDataPhase oc1 dp1 in
      w <> PKT_InitCommandRequest
      /\ NewPacketInFromPacketType w = Err (UnknownPacketType w)
      /\ NewPacketOutFromPacketType w = Err (UnknownPacketType w)).
Proof.
  intros H1 H2 H3 H4.
  rewrite !constructPacketTypeWithDataPhase_value by assumption.
  unfold is_uint16 in *. change (2 ^ 16) with 65536 in *.
  split.
  - intros E. lia.
  - intros Hnz. cbv zeta.
    assert (Hbig : 65536 <= oc1 * 65536 + dp1) by lia.
    repeat apply conj.
    + unfold PKT_InitCommandRequest. lia.
    + apply NewPacketIn_unregistered. intros H.
      pose proof (registries_small _ (or_introl H)). lia.
    + apply NewPacketOut_unregistered. intros H.
      pose proof (registries_small _ (or_intror H)). lia.
Qed.

Lemma folded_words_distinct_witness :
  (constructPacketTypeWithDataPhase 0x1015 1
   = constructPacketTypeWithDataPhase 0x1015 1 ->
   0x1015 = 0x1015 /\ 1 = 1)
  /\ (0x1015 <> 0 ->
      let w := constructPacketTypeWithDataPhase 0x1015 1 in
      w <> PKT_InitCommandRequest
      /\ NewPacketInFromPacketType w = Err (UnknownPacketType w)
      /\ NewPacketOutFromPacketType w = Err (UnknownPacketType w)).
Proof.
  apply (folded_words_distinct 0x1015 1 0x1015 1);
    unfold is_uint16; lia.
Defined.

(** ** The mock Fuji responder *)

Lemma slice_Some (s b : bytes) (lo hi : nat) :
  slice s lo hi = Some b ->
  (hi <= List.length s)%nat /\ b = firstn (hi - lo) (skipn lo s).
Proof.
  unfold slice. destruct (hi <=? List.length s)%nat eqn:E; [ | discriminate].
  intros [= <-]. apply Nat.leb_le in E. split; [exact E | reflexivity].
Qed.

Lemma slice_in_range (s : bytes) (lo hi : nat) :
  (hi <= List.length s)%nat ->
  slice s lo hi = Some (firstn (hi - lo) (skipn lo s)).
Proof.
  intros H. unfold slice. apply Nat.leb_le in H. rewrite H. reflexivity.
Qed.

Lemma slice_out_of_range (s : bytes) (lo hi : nat) :
  (List.length s < hi)%nat -> slice s lo hi = None.
Proof.
  intros H. unfold slice.
  destruct (hi <=? List.length s)%nat eqn:E; [ | reflexivity].
  apply Nat.leb_le in E. lia.
Qed.

Lemma fujiOperationResponsePacket_tid (dp : DataPhase) (orc : Z)
  (raw tid : bytes) :
  slice raw 4 8 = Some tid ->
  fujiOperationResponsePacket dp orc tid
  = Some {| FujiOperationResponsePacket.DataPhase := uint16 dp;
            FujiOperationResponsePacket.OperationResponseCode := orc;
            FujiOperationResponsePacket.TransactionID :=
              requestTransactionID raw |}.
Proof.
  intros H. apply slice_Some in H. destruct H as [Hlen ->].
  unfold fujiOperationResponsePacket, LittleEndian_Uint32, requestTransactionID.
  change (8 - 4)%nat with 4%nat.
  assert (L : List.length (firstn 4 (skipn 4 raw)) = 4%nat).
  { rewrite length_firstn, length_skipn. lia. }
  rewrite L. cbn [Nat.ltb Nat.leb pbind].
  rewrite <- L at 1. rewrite firstn_all. reflexivity.
Qed.

Section MockFujiResponderProperties.

Variables OC_GetDevicePropDesc OC_GetDevicePropValue OC_InitiateOpenCapture
  OC_OpenSession OC_SetDevicePropValue : Z.
Variables RC_OK RC_Fuji_GetDevicePropDesc RC_Fuji_GetDevicePropValue : Z.
Variables DPC_Fuji_AppVersion PM_Fuji_AppVersion : Z.
Variable genericInitCommandRequestResponse : string * option Packet.

Local Abbreviation dispatch :=
  (fujiDispatch OC_GetDevicePropDesc OC_GetDevicePropValue
     OC_InitiateOpenCapture OC_OpenSession OC_SetDevicePropValue
     RC_OK RC_Fuji_GetDevicePropDesc RC_Fuji_GetDevicePropValue
     DPC_Fuji_AppVersion PM_Fuji_AppVersion
     genericInitCommandRequestResponse).

Local Abbreviation handle :=
  (handleFujiMessage OC_GetDevicePropDesc OC_GetDevicePropValue
     OC_InitiateOpenCapture OC_OpenSession OC_SetDevicePropValue
     RC_OK RC_Fuji_GetDevicePropDesc RC_Fuji_GetDevicePropValue
     DPC_Fuji_AppVersion PM_Fuji_AppVersion
     genericInitCommandRequestResponse).

Local Abbreviation serve :=
  (handleFujiMessages OC_GetDevicePropDesc OC_GetDevicePropValue
     OC_InitiateOpenCapture OC_OpenSession OC_SetDevicePropValue
     RC_OK RC_Fuji_GetDevicePropDesc RC_Fuji_GetDevicePropValue
     DPC_Fuji_AppVersion PM_Fuji_AppVersion
     genericInitCommandRequestResponse).

(** The end-of-data packet for the request [raw]. *)
Local Abbreviation endOfData raw :=
  {| FujiOperationResponsePacket.DataPhase := uint16 DP_Unknown;
     FujiOperationResponsePacket.OperationResponseCode := RC_OK;
     FujiOperationResponsePacket.TransactionID := requestTransactionID raw |}.

(** What the switch leaves behind: a Fuji response carries the request's
    transaction ID; it is the end-of-data packet itself unless one is to
    follow; a parameter has four bytes and comes only with a Fuji response
    that an end-of-data packet follows; and a generic packet is the answer
    to an Init Command Request only. *)
Lemma fujiDispatch_cases (raw : bytes) (msg : string) (res : MockReply)
  (par : option bytes) (eodp : bool) :
  dispatch raw = Some (msg, res, par, eodp) ->
  match res with
  | FujiReply p =>
      slice raw 4 8 = Some (firstn 4 (skipn 4 raw))
      /\ Uint (firstn 4 raw) <> uint32 PKT_InitCommandRequest
      /\ FujiOperationResponsePacket.TransactionID p = requestTransactionID raw
      /\ (eodp = false -> p = endOfData raw)
      /\ (eodp = true ->
          FujiOperationResponsePacket.DataPhase p = uint16 DP_DataOut)
  | GenericReply p =>
      Uint (firstn 4 raw) = uint32 PKT_InitCommandRequest
      /\ snd genericInitCommandRequestResponse = Some p
      /\ eodp = false
  | NoReply => eodp = false
  end
  /\ match par with
     | Some b => List.length b = 4%nat /\ eodp = true
                 /\ exists p, res = FujiReply p
     | None => True
     end.
Proof.
  unfold fujiDispatch.
  destruct (slice raw 0 4) as [h | ] eqn:Hh; [ | discriminate].
  apply slice_Some in Hh. destruct Hh as [Hlen ->].
  change (4 - 0)%nat with 4%nat. cbn [skipn pbind].
  unfold LittleEndian_Uint32 at 1.
  assert (L : List.length (firstn 4 raw) = 4%nat)
    by (rewrite length_firstn; lia).
  rewrite L. cbn [Nat.ltb Nat.leb pbind].
  rewrite <- L at 1. rewrite firstn_all.
  destruct (Uint (firstn 4 raw) =? uint32 PKT_InitCommandRequest) eqn:E0.
  { apply Z.eqb_eq in E0.
    destruct genericInitCommandRequestResponse as [m [p | ]];
      intros [= <- <- <- <-]; cbn [snd]; auto. }
  apply Z.eqb_neq in E0.
  repeat match goal with
         | |- context [if ?w =? ?c then _ else _] => destruct (w =? c)
         end;
    try (intros [= <- <- <- <-]; auto; fail);
    (destruct (slice raw 4 8) as [tid | ] eqn:Ht; [ | discriminate]);
    pose proof (slice_Some _ _ _ _ Ht) as [Hlen8 Etid];
    change (8 - 4)%nat with 4%nat in Etid;
    cbn [pbind];
    unfold fujiGetDevicePropDescResponse, fujiGetDevicePropValueResponse,
      fujiInitiateOpenCaptureResponse, fujiOpenSessionResponse,
      fujiSetDevicePropValue, fujiEndOfDataPacket;
    try (destruct (slice raw 8 10) as [prop | ]; [ | discriminate];
         cbn [pbind];
         destruct (LittleEndian_Uint16 prop); [ | discriminate];
         cbn [pbind]);
    rewrite !(fujiOperationResponsePacket_tid _ _ raw tid Ht);
    cbn [pbind]; intros [= <- <- <- <-]; subst tid;
    repeat apply conj; auto; try discriminate;
    try (apply PutUint_length); eauto.
Qed.

(** The parts of one answer that a whole run is made of. *)
Lemma fujiAnswer_parts (raw : bytes) (out : list MockOutput) :
  handle raw = Some out ->
  (List.length out <= 3)%nat
  /\ (forall p, In (SendFuji p) out ->
      FujiOperationResponsePacket.TransactionID p = requestTransactionID raw)
  /\ (forall b, In (WriteBytes b) out -> List.length b = 4%nat)
  /\ (forall p, In (SendGeneric p) out ->
      Uint (firstn 4 raw) = uint32 PKT_InitCommandRequest).
Proof.
  unfold handleFujiMessage.
  destruct (dispatch raw) as [[[[msg res] par] eodp] | ] eqn:D;
    [ | discriminate].
  apply fujiDispatch_cases in D. destruct D as [Hres Hpar]. cbn [pbind].
  destruct res as [ | g | p].
  - intros [= <-]. cbn [List.length In].
    repeat apply conj; try lia; intros ? [].
  - destruct Hres as (Hw & _ & ->).
    destruct par as [b | ].
    { destruct Hpar as (_ & [=] & _). }
    intros [= <-]. cbn [app List.length In].
    repeat apply conj; try lia.
    + intros q [[=] | []].
    + intros b [[=] | []].
  - destruct Hres as (Ht & Hw & Hid & Hend & Hout).
    destruct eodp.
    + rewrite Ht. cbn [pbind]. unfold fujiEndOfDataPacket.
      rewrite (fujiOperationResponsePacket_tid _ _ raw _ Ht). cbn [pbind].
      destruct par as [b | ]; intros [= <-]; cbn [app List.length In].
      * destruct Hpar as (Hb & _ & _).
        repeat apply conj; try lia.
        -- intros q [[= <-] | [[=] | [[= <-] | []]]];
             [exact Hid | reflexivity].
        -- intros b' [[=] | [[= <-] | [[=] | []]]]. exact Hb.
        -- intros q [[=] | [[=] | [[=] | []]]].
      * repeat apply conj; try lia.
        -- intros q [[= <-] | [[= <-] | []]]; [exact Hid | reflexivity].
        -- intros b' [[=] | [[=] | []]].
        -- intros q [[=] | [[=] | []]].
    + destruct par as [b | ].
      { destruct Hpar as (_ & [=] & _). }
      intros [= <-]. cbn [app List.length In].
      repeat apply conj; try lia.
      * intros q [[= <-] | []]. exact Hid.
      * intros b [[=] | []].
      * intros q [[=] | []].
Qed.

(** X9.  One message answered by the mock Fuji responder.  Whatever it
    writes, it writes at most three things; every Fuji response carries the
    transaction ID read from bytes 4 to 7 of the message; bytes written
    outside a packet are a four-byte parameter that stands between a Fuji
    response in the data-out phase and an end-of-data packet; and unless the
    message opens with the Init Command Request type, the answer is empty
    or ends with the end-of-data packet for that transaction. *)
Theorem handleFujiMessage_answer (raw : bytes) (out : list MockOutput) :
  handle raw = Some out ->
  (List.length out <= 3)%nat
  /\ (forall p, In (SendFuji p) out ->
      FujiOperationResponsePacket.TransactionID p = requestTransactionID raw)
  /\ (forall b, In (WriteBytes b) out ->
      List.length b = 4%nat
      /\ exists p, out = [SendFuji p; WriteBytes b; SendFuji (endOfData raw)]
         /\ FujiOperationResponsePacket.DataPhase p = uint16 DP_DataOut)
  /\ (forall p, In (SendGeneric p) out ->
      Uint (firstn 4 raw) = uint32 PKT_InitCommandRequest
      /\ out = [SendGeneric p])
  /\ (Uint (firstn 4 raw) <> uint32 PKT_InitCommandRequest ->
      out = [] \/ exists pre, out = pre ++ [SendFuji (endOfData raw)]).
Proof.
  unfold handleFujiMessage.
  destruct (dispatch raw) as [[[[msg res] par] eodp] | ] eqn:D;
    [ | discriminate].
  apply fujiDispatch_cases in D. destruct D as [Hres Hpar]. cbn [pbind].
  destruct res as [ | g | p].
  - intros [= <-]. cbn [List.length In].
    repeat apply conj; try lia; try contradiction. auto.
  - destruct Hres as (Hw & _ & ->).
    destruct par as [b | ].
    { destruct Hpar as (_ & [=] & _). }
    intros [= <-]. cbn [app List.length In].
    repeat apply conj; try lia.
    + intros q [[=] | []].
    + intros b [[=] | []].
    + intros q [[= <-] | []]. split; [exact Hw | reflexivity].
  - destruct Hres as (Ht & Hw & Hid & Hend & Hout).
    destruct eodp.
    + rewrite Ht. cbn [pbind]. unfold fujiEndOfDataPacket.
      rewrite (fujiOperationResponsePacket_tid _ _ raw _ Ht). cbn [pbind].
      specialize (Hout eq_refl).
      destruct par as [b | ]; intros [= <-]; cbn [app List.length In].
      * destruct Hpar as (Hb & _ & _).
        repeat apply conj; try lia.
        -- intros q [[= <-] | [[=] | [[= <-] | []]]];
             [exact Hid | reflexivity].
        -- intros b' [[=] | [[= <-] | [[=] | []]]].
           split; [exact Hb | ]. exists p. split; [reflexivity | exact Hout].
        -- intros q [[=] | [[=] | [[=] | []]]].
        -- intros _. right. exists [SendFuji p; WriteBytes b]. reflexivity.
      * repeat apply conj; try lia.
        -- intros q [[= <-] | [[= <-] | []]]; [exact Hid | reflexivity].
        -- intros b' [[=] | [[=] | []]].
        -- intros q [[=] | [[=] | []]].
        -- intros _. right. exists [SendFuji p]. reflexivity.
    + destruct par as [b | ].
      { destruct Hpar as (_ & [=] & _). }
      intros [= <-]. cbn [app List.length In].
      rewrite (Hend eq_refl).
      repeat apply conj; try lia.
      * intros q [[= <-] | []]. reflexivity.
      * intros b [[=] | []].
      * intros q [[=] | []].
      * intros _. right. exists []. reflexivity.
Qed.

Lemma fujiDispatch_total (raw : bytes) :
  (10 <= List.length raw)%nat -> dispatch raw <> None.
Proof.
  intros H. unfold fujiDispatch.
  rewrite (slice_in_range raw 0 4) by lia.
  rewrite (slice_in_range raw 4 8) by lia.
  rewrite (slice_in_range raw 8 10) by lia.
  cbn [pbind]. unfold LittleEndian_Uint32 at 1.
  assert (L : List.length (firstn (4 - 0) (skipn 0 raw)) = 4%nat)
    by (cbn [skipn]; rewrite length_firstn; lia).
  rewrite L. cbn [Nat.ltb Nat.leb pbind].
  assert (L2 : List.length (firstn (10 - 8) (skipn 8 raw)) = 2%nat)
    by (rewrite length_firstn, length_skipn; lia).
  unfold fujiGetDevicePropDescResponse, fujiGetDevicePropValueResponse,
    fujiInitiateOpenCaptureResponse, fujiOpenSessionResponse,
    fujiSetDevicePropValue, fujiEndOfDataPacket, LittleEndian_Uint16.
  rewrite L2. cbn [Nat.ltb Nat.leb pbind].
  rewrite !(fujiOperationResponsePacket_tid _ _ raw _
              (slice_in_range raw 4 8 ltac:(lia))).
  cbn [pbind].
  destruct genericInitCommandRequestResponse as [m r].
  repeat match goal with
         | |- context [if ?w =? ?c then _ else _] => destruct (w =? c)
         end; discriminate.
Qed.

Lemma fujiMessage_survives (raw : bytes) :
  (10 <= List.length raw)%nat -> exists out, handle raw = Some out.
Proof.
  intros H. pose proof (fujiDispatch_total raw H) as D.
  unfold handleFujiMessage.
  destruct (dispatch raw) as [[[[msg res] par] eodp] | ]; [ | contradiction].
  cbn [pbind]. rewrite (slice_in_range raw 4 8) by lia. cbn [pbind].
  unfold fujiEndOfDataPacket.
  rewrite (fujiOperationResponsePacket_tid _ _ raw _
             (slice_in_range raw 4 8 ltac:(lia))).
  cbn [pbind].
  destruct res; [eauto | destruct eodp; eauto ..].
Qed.

(** X10.  When the mock Fuji responder survives a message.  A message of
    ten bytes or more is always answered without a run-time panic, whatever
    its content; a message of fewer than four bytes, its capacity taken to
    be its length, always ends the mock in a panic, at the slice expression
    [raw[0:4]]. *)
Theorem handleFujiMessage_total (raw : bytes) :
  ((10 <= List.length raw)%nat -> exists out, handle raw = Some out)
  /\ ((List.length raw < 4)%nat -> handle raw = None).
Proof.
  split.
  - apply fujiMessage_survives.
  - intros H. unfold handleFujiMessage, fujiDispatch.
    rewrite (slice_out_of_range raw 0 4) by lia. reflexivity.
Qed.

Lemma handleFujiMessages_app (xs ys : list (option bytes)) :
  serve (xs ++ ys)
  = (a <-? serve xs ;; b <-? serve ys ;; Some (a ++ b)).
Proof.
  induction xs as [ | [raw | ] xs IH]; cbn [app handleFujiMessages pbind].
  - destruct (serve ys); reflexivity.
  - rewrite IH. destruct (handle raw) as [o | ]; cbn [pbind]; [ | reflexivity].
    destruct (serve xs) as [a | ]; cbn [pbind]; [ | reflexivity].
    destruct (serve ys) as [b | ]; cbn [pbind]; [ | reflexivity].
    rewrite app_assoc. reflexivity.
  - exact IH.
Qed.

(** X11.  A whole run of the mock Fuji responder, from the first read to
    the end of the stream.  If the run ends without a panic, at most three
    things were written per message read; every Fuji response written
    carries the transaction ID of one of the messages read, so the mock
    never invents a transaction; every parameter written has four bytes;
    and a generic packet was written only if a message read opens with the
    Init Command Request type. *)
Theorem handleFujiMessages_run (incoming : list (option bytes))
  (out : list MockOutput) :
  serve incoming = Some out ->
  (List.length out <= 3 * List.length incoming)%nat
  /\ (forall p, In (SendFuji p) out ->
      exists raw, In (Some raw) incoming
        /\ FujiOperationResponsePacket.TransactionID p
           = requestTransactionID raw)
  /\ (forall b, In (WriteBytes b) out -> List.length b = 4%nat)
  /\ (forall p, In (SendGeneric p) out ->
      exists raw, In (Some raw) incoming
        /\ Uint (firstn 4 raw) = uint32 PKT_InitCommandRequest).
Proof.
  revert out.
  induction incoming as [ | [raw | ] incoming IH]; intros out;
    cbn [handleFujiMessages].
  - intros [= <-]. cbn [List.length In].
    repeat apply conj; try lia; intros ? [].
  - destruct (handle raw) as [o | ] eqn:Ho; [ | discriminate]. cbn [pbind].
    destruct (serve incoming) as [rest | ]; [ | discriminate]. cbn [pbind].
    intros [= <-].
    apply fujiAnswer_parts in Ho.
    destruct Ho as (Hn & Hid & Hb & Hg).
    destruct (IH rest eq_refl) as (IHn & IHid & IHb & IHg).
    rewrite length_app. cbn [List.length In].
    repeat apply conj.
    + lia.
    + intros p Hp. apply in_app_or in Hp. destruct Hp as [Hp | Hp].
      * exists raw. split; [left; reflexivity | apply Hid; exact Hp].
      * destruct (IHid p Hp) as (r & Hr & E). exists r. auto.
    + intros b Hp. apply in_app_or in Hp. destruct Hp as [Hp | Hp]; auto.
    + intros p Hp. apply in_app_or in Hp. destruct Hp as [Hp | Hp].
      * exists raw. split; [left; reflexivity | apply (Hg p); exact Hp].
      * destruct (IHg p Hp) as (r & Hr & E). exists r. auto.
  - intros H. destruct (IH out H) as (IHn & IHid & IHb & IHg).
    cbn [List.length In].
    repeat apply conj.
    + lia.
    + intros p Hp. destruct (IHid p Hp) as (r & Hr & E). exists r. auto.
    + exact IHb.
    + intros p Hp. destruct (IHg p Hp) as (r & Hr & E). exists r. auto.
Qed.

Lemma handleFujiMessages_nil_reads (xs : list (option bytes)) :
  serve (filter isMessage xs) = serve xs.
Proof.
  induction xs as [ | [raw | ] xs IH]; cbn [filter isMessage handleFujiMessages].
  - reflexivity.
  - rewrite IH. reflexivity.
  - exact IH.
Qed.

Lemma fujiRun_survives (xs : list (option bytes)) :
  (forall raw, In (Some raw) xs -> (10 <= List.length raw)%nat) ->
  exists out, serve xs = Some out.
Proof.
  induction xs as [ | [raw | ] xs IH]; intros H; cbn [handleFujiMessages].
  - eauto.
  - destruct (fujiMessage_survives raw (H raw (or_introl eq_refl))) as [o ->].
    destruct IH as [rest ->].
    { intros r Hr. apply H. right. exact Hr. }
    cbn [pbind]. eauto.
  - apply IH. intros r Hr. apply H. right. exact Hr.
Qed.

(** X12.  Runs of the mock Fuji responder compose.  What is written over
    a stream of reads that is cut in two is what is written over the first
    part followed by what is written over the second, with a panic in
    either part a panic of the whole; reads that yield nil change nothing;
    and a run in which every message has ten bytes or more ends without a
    panic. *)
Theorem handleFujiMessages_compose (xs ys : list (option bytes)) :
  serve (xs ++ ys) = (a <-? serve xs ;; b <-? serve ys ;; Some (a ++ b))
  /\ serve (filter isMessage xs) = serve xs
  /\ ((forall raw, In (Some raw) xs -> (10 <= List.length raw)%nat) ->
      exists out, serve xs = Some out).
Proof.
  split; [ | split].
  - apply handleFujiMessages_app.
  - apply handleFujiMessages_nil_reads.
  - apply fujiRun_survives.
Qed.

End MockFujiResponderProperties.

Lemma handleFujiMessage_answer_witness :
  sampleFujiMock getAppVersion = Some getAppVersionAnswer
  /\ (List.length getAppVersionAnswer <= 3)%nat
  /\ (forall p, In (SendFuji p) getAppVersionAnswer ->
      FujiOperationResponsePacket.TransactionID p
      = requestTransactionID getAppVersion)
  /\ (forall b, In (WriteBytes b) getAppVersionAnswer ->
      List.length b = 4%nat
      /\ exists p,
           getAppVersionAnswer
           = [SendFuji p; WriteBytes b;
              SendFuji (fujiResponse (uint16 DP_Unknown) 0x2001
                          (requestTransactionID getAppVersion))]
           /\ FujiOperationResponsePacket.DataPhase p = uint16 DP_DataOut)
  /\ (forall p, In (SendGeneric p) getAppVersionAnswer ->
      Uint (firstn 4 getAppVersion) = uint32 PKT_InitCommandRequest
      /\ getAppVersionAnswer = [SendGeneric p])
  /\ (Uint (firstn 4 getAppVersion) <> uint32 PKT_InitCommandRequest ->
      getAppVersionAnswer = []
      \/ exists pre,
           getAppVersionAnswer
           = pre ++ [SendFuji (fujiResponse (uint16 DP_Unknown) 0x2001
                                 (requestTransactionID getAppVersion))]).
Proof.
  split; [reflexivity | ].
  exact (handleFujiMessage_answer 0x1014 0x1015 0x101C 0x1002 0x1016
           0x2001 0x1014 0x1015 0xDF24 0x00020001 ("", None)
           getAppVersion getAppVersionAnswer eq_refl).
Defined.

Lemma handleFujiMessage_total_witness :
  (10 <= List.length getAppVersion)%nat
  /\ exists out, sampleFujiMock getAppVersion = Some out.
Proof.
  assert (H : (10 <= List.length getAppVersion)%nat) by (cbn; lia).
  split; [exact H | ].
  exact (proj1 (handleFujiMessage_total 0x1014 0x1015 0x101C 0x1002 0x1016
                  0x2001 0x1014 0x1015 0xDF24 0x00020001 ("", None)
                  getAppVersion) H).
Defined.

Lemma handleFujiMessages_run_witness :
  let incoming := [Some getAppVersion; None; Some openSession] in
  let out := getAppVersionAnswer ++ openSessionAnswer in
  sampleFujiMockRun incoming = Some out
  /\ (List.length out <= 3 * List.length incoming)%nat
  /\ (forall p, In (SendFuji p) out ->
      exists raw, In (Some raw) incoming
        /\ FujiOperationResponsePacket.TransactionID p
           = requestTransactionID raw)
  /\ (forall b, In (WriteBytes b) out -> List.length b = 4%nat)
  /\ (forall p, In (SendGeneric p) out ->
      exists raw, In (Some raw) incoming
        /\ Uint (firstn 4 raw) = uint32 PKT_InitCommandRequest).
Proof.
  split; [reflexivity | ].
  exact (handleFujiMessages_run 0x1014 0x1015 0x101C 0x1002 0x1016
           0x2001 0x1014 0x1015 0xDF24 0x00020001 ("", None)
           [Some getAppVersion; None; Some openSession]
           (getAppVersionAnswer ++ openSessionAnswer) eq_refl).
Defined.

(** ** The command line *)

(** X13.  The mode test of [main].  The program is ended with
    [errInvalidArgs] exactly when the flags ask for two or more of the
    three modes: a single command, the interactive shell, the server; with
    one mode or none the test lets the program go on. *)
Theorem tooManyArguments_modes (cmd : string) (interactive server : bool) :
  tooManyArguments cmd interactive server = true
  <-> 2 <= requestedModes cmd interactive server.
Proof.
  unfold tooManyArguments, requestedModes.
  destruct (String.eqb cmd ""), interactive, server; cbn; split;
    intros H; try reflexivity; try discriminate; lia.
Qed.
